(** * Gantt chart app (app.py): derived columns, statistics and export

    A shallow embedding of the pandas code of [app.py]:
    [add_finish_column], [calculate_stats], [convert_df_to_csv],
    [convert_df_to_excel] and the add-task handler of the sidebar.

    Frames live in a store of objects and are passed by reference, as in
    Python: [df.copy()] allocates, [df["Start"] = ...] updates in place.
    A call either returns, raises a Python exception, or leaves the part of
    pandas that is modelled here ([Beyond]). *)

From Stdlib Require Import ZArith Lia List String Ascii SpecFloat.
From Stdlib Require Import Decimal DecimalString DecimalPos DecimalZ.
From stdpp Require Import base tactics option list strings relations.

Local Open Scope Z_scope.

(** ** Outcomes of a call *)

Inductive exn :=
| KeyError
| ValueError
| TypeError
| OverflowError
| IntCastingNaNError
| OutOfBoundsDatetime
| OutOfBoundsTimedelta
| IllegalCharacterError.

Inductive outcome (A : Type) :=
| Ok (a : A)
| Raise (e : exn)
| Beyond.
Arguments Ok {A} a.
Arguments Raise {A} e.
Arguments Beyond {A}.

Definition obind {A B} (m : outcome A) (k : A -> outcome B) : outcome B :=
  match m with
  | Ok a => k a
  | Raise e => Raise e
  | Beyond => Beyond
  end.

Notation "'let%' x ':=' m 'in' k" := (obind m (fun x => k))
  (at level 10, x name, m at level 100, k at level 200).

(** Elementwise conversion of a column: the first failing element decides. *)
Fixpoint traverse {A B} (f : A -> outcome B) (l : list A) : outcome (list B) :=
  match l with
  | [] => Ok []
  | x :: l' =>
      let% y := f x in
      let% ys := traverse f l' in
      Ok (y :: ys)
  end.

(** ** Calendar dates

    [datetime.date]: proleptic Gregorian calendar, years 1 to 9999. *)

Record date := Date { year : Z; month : Z; day : Z }.

Definition is_leap (y : Z) : bool :=
  (y mod 4 =? 0) && (negb (y mod 100 =? 0) || (y mod 400 =? 0)).

Definition days_in_month (y m : Z) : Z :=
  if m =? 2 then (if is_leap y then 29 else 28)
  else if (m =? 4) || (m =? 6) || (m =? 9) || (m =? 11) then 30
  else 31.

Definition valid_date (d : date) : bool :=
  (1 <=? year d) && (year d <=? 9999) &&
  (1 <=? month d) && (month d <=? 12) &&
  (1 <=? day d) && (day d <=? days_in_month (year d) (month d)).

Definition days_before_year (y : Z) : Z :=
  let y1 := y - 1 in y1 * 365 + y1 / 4 - y1 / 100 + y1 / 400.

Definition month_offsets : list Z :=
  [0; 31; 59; 90; 120; 151; 181; 212; 243; 273; 304; 334].

Definition days_before_month (y m : Z) : Z :=
  nth (Z.to_nat (m - 1)) month_offsets 0
  + (if (2 <? m) && is_leap y then 1 else 0).

(** [date.toordinal()]: 0001-01-01 is day 1. *)
Definition toordinal (d : date) : Z :=
  days_before_year (year d) + days_before_month (year d) (month d) + day d.

(** [date.fromordinal(n)]: the date whose ordinal is [n], found by going
    down from the year [n / 365 + 1], which is not before it, to the year
    that holds day [n], then down from December to the month that does. *)
Fixpoint year_from (fuel : nat) (y n : Z) : Z :=
  match fuel with
  | O => y
  | S k => if n <=? days_before_year y then year_from k (y - 1) n else y
  end.

Fixpoint month_from (fuel : nat) (m y doy : Z) : Z :=
  match fuel with
  | O => m
  | S k => if doy <=? days_before_month y m then month_from k (m - 1) y doy else m
  end.

Definition fromordinal (n : Z) : date :=
  let y := year_from (Z.to_nat (n / 365)) (n / 365 + 1) n in
  let doy := n - days_before_year y in
  let m := month_from 11 12 y doy in
  Date y m (doy - days_before_month y m).

(** Days since 1970-01-01, whose ordinal is 719163. *)
Definition epoch_ordinal : Z := 719163.
Definition epoch_days (d : date) : Z := toordinal d - epoch_ordinal.
Definition date_of_epoch_days (n : Z) : date := fromordinal (n + epoch_ordinal).

(** ** Decimal text *)

Definition digit_char (n : Z) : ascii := ascii_of_nat (48 + Z.to_nat (n mod 10)).

(** [w] decimal digits of [n], zero padded (the [%04d] and [%02d] of isoformat). *)
Fixpoint zero_padded (w : nat) (n : Z) : string :=
  match w with
  | O => EmptyString
  | S w' => zero_padded w' (n / 10) +:+ String (digit_char n) EmptyString
  end.

Definition is_digit (c : ascii) : bool :=
  let n := nat_of_ascii c in (48 <=? n)%nat && (n <=? 57)%nat.

Definition digit_value (c : ascii) : Z := Z.of_nat (nat_of_ascii c) - 48.

(** Value of a string of decimal digits, [None] when another character occurs. *)
Fixpoint digits_value (acc : Z) (s : string) : option Z :=
  match s with
  | EmptyString => Some acc
  | String c s' =>
      if is_digit c then digits_value (acc * 10 + digit_value c) s' else None
  end.

(** [date.isoformat()], also [str(date)]: YYYY-MM-DD. *)
Definition isoformat (d : date) : string :=
  zero_padded 4 (year d) +:+ "-" +:+ zero_padded 2 (month d) +:+ "-"
  +:+ zero_padded 2 (day d).

(** A string of the exact form YYYY-MM-DD naming a valid date. *)
Definition parse_iso_date (s : string) : option date :=
  if (String.length s =? 10)%nat then
    match digits_value 0 (substring 0 4 s),
          digits_value 0 (substring 5 2 s),
          digits_value 0 (substring 8 2 s) with
    | Some y, Some m, Some d =>
        if Ascii.eqb (default "000"%char (String.get 4 s)) "-"%char
           && Ascii.eqb (default "000"%char (String.get 7 s)) "-"%char
           && valid_date (Date y m d)
        then Some (Date y m d) else None
    | _, _, _ => None
    end
  else None.

(** ** Machine integers and timestamps

    numpy's [int64]; [datetime64[ns]] and [timedelta64[ns]] are [int64]
    counts of nanoseconds in which the least value stands for NaT. *)

Definition int64_min : Z := - 2 ^ 63.
Definition int64_max : Z := 2 ^ 63 - 1.
Definition in_int64 (z : Z) : bool := (int64_min <=? z) && (z <=? int64_max).
Definition wrap_int64 (z : Z) : Z := (z + 2 ^ 63) mod 2 ^ 64 - 2 ^ 63.

Definition NaT : Z := int64_min.
Definition is_NaT (t : Z) : bool := t =? NaT.
Definition NS_PER_DAY : Z := 86400 * 10 ^ 9.

(** The calendar day a timestamp falls on, and whether it is a midnight. *)
Definition day_of (t : Z) : Z := t / NS_PER_DAY.
Definition is_midnight (t : Z) : bool := t mod NS_PER_DAY =? 0.

(** [Timestamp(d)] for a date: midnight of that day, within the range of
    [datetime64[ns]] (1677-09-22 to 2262-04-11 for whole days). *)
Definition date_to_ns (d : date) : outcome Z :=
  if valid_date d then
    let t := epoch_days d * NS_PER_DAY in
    if (int64_min <? t) && (t <=? int64_max) then Ok t
    else Raise OutOfBoundsDatetime
  else Beyond.

(** The days of [datetime64[ns]]: 1677-09-21 to 2262-04-11. *)
Definition first_day : Z := -106752.
Definition last_day : Z := 106751.

(** ** Values held by a frame *)

(** Elements of a column of dtype [object]. *)
Inductive pyobj :=
| PStr (s : string)     (* str, as its UTF-8 bytes *)
| PDate (d : date)      (* datetime.date *)
| PNone.                (* None *)

(** A column with its dtype. *)
Inductive Series :=
| SObject (xs : list pyobj)
| SInt64 (xs : list Z)
| SFloat64 (xs : list spec_float)
| SDatetime (xs : list Z)
| STimedelta (xs : list Z).

Definition series_len (s : Series) : nat :=
  match s with
  | SObject xs => length xs
  | SInt64 xs => length xs
  | SFloat64 xs => length xs
  | SDatetime xs => length xs
  | STimedelta xs => length xs
  end.

(** A frame: its columns in order, under the default [RangeIndex]. *)
Definition DataFrame : Type := list (string * Series).

Definition columns (df : DataFrame) : list string := map fst df.

(** [len(df)] *)
Definition len (df : DataFrame) : nat :=
  match df with
  | [] => O
  | (_, s) :: _ => series_len s
  end.

Fixpoint frame_lookup (k : string) (df : DataFrame) : option Series :=
  match df with
  | [] => None
  | (k', s) :: df' => if String.eqb k k' then Some s else frame_lookup k df'
  end.

(** Labels are distinct in every frame of the app; indexing a frame by a
    label that occurs twice gives a frame, not a column. *)
Definition label_count (k : string) (df : DataFrame) : nat :=
  length (List.filter (String.eqb k) (columns df)).

(** [df[k]] *)
Definition getitem (df : DataFrame) (k : string) : outcome Series :=
  if (label_count k df <=? 1)%nat then
    match frame_lookup k df with
    | Some s => Ok s
    | None => Raise KeyError
    end
  else Beyond.

Fixpoint frame_replace (k : string) (s : Series) (df : DataFrame) : DataFrame :=
  match df with
  | [] => [(k, s)]
  | (k', s') :: df' =>
      if String.eqb k k' then (k', s) :: df' else (k', s') :: frame_replace k s df'
  end.

(** [df[k] = s]: an existing column keeps its place, a new one goes last.
    A value of another length would be aligned on the index, which is
    beyond this model. *)
Definition setitem (df : DataFrame) (k : string) (s : Series) : outcome DataFrame :=
  match df with
  | [] => Ok [(k, s)]
  | _ =>
      if (series_len s =? len df)%nat && (label_count k df <=? 1)%nat
      then Ok (frame_replace k s df) else Beyond
  end.

(** ** pandas operations used by the app *)

(** *** [pd.to_datetime] *)

Definition obj_to_datetime (x : pyobj) : outcome Z :=
  match x with
  | PNone => Ok NaT
  | PDate d => date_to_ns d
  | PStr s =>
      match parse_iso_date s with
      | Some d => date_to_ns d
      | None => Beyond
      end
  end.

Definition float_is_nan (f : spec_float) : bool :=
  match f with S754_nan => true | _ => false end.

Definition to_datetime (s : Series) : outcome Series :=
  match s with
  | SDatetime xs => Ok (SDatetime xs)
  | SObject xs => let% ts := traverse obj_to_datetime xs in Ok (SDatetime ts)
  | SInt64 xs => Ok (SDatetime xs)
  | SFloat64 xs =>
      let% ts := traverse (fun f => if float_is_nan f then Ok NaT else Beyond) xs in
      Ok (SDatetime ts)
  | STimedelta _ => Beyond
  end.

(** *** [Series.astype(int)] *)

Definition float_is_finite (f : spec_float) : bool :=
  match f with
  | S754_zero _ | S754_finite _ _ _ => true
  | _ => false
  end.

(** The integer part of a finite float [(-1)^s * m * 2^e], towards zero. *)
Definition float_trunc (f : spec_float) : Z :=
  match f with
  | S754_finite s m e =>
      let a := if 0 <=? e then Zpos m * 2 ^ e else Zpos m / 2 ^ (- e) in
      if s then - a else a
  | _ => 0
  end.

(** The C cast of a finite double to [int64]; out of range it is undefined. *)
Definition float_to_int64 (f : spec_float) : outcome Z :=
  let z := float_trunc f in
  if in_int64 z then Ok z else Beyond.

(** Python's [int(s)] on an ASCII string: blanks around, a sign, decimal
    digits with single underscores between them. *)
Definition is_space (c : ascii) : bool :=
  let n := nat_of_ascii c in
  ((9 <=? n) && (n <=? 13) || (n =? 32))%nat.

Fixpoint lstrip (s : string) : string :=
  match s with
  | String c s' => if is_space c then lstrip s' else s
  | EmptyString => EmptyString
  end.

Definition strip (s : string) : string :=
  String.rev (lstrip (String.rev (lstrip s))).

Fixpoint int_digits (acc : Z) (after_digit : bool) (s : string) : option Z :=
  match s with
  | EmptyString => if after_digit then Some acc else None
  | String c s' =>
      if is_digit c then int_digits (acc * 10 + digit_value c) true s'
      else if Ascii.eqb c "_"%char && after_digit then int_digits acc false s'
      else None
  end.

Definition int_literal (s : string) : option Z :=
  match strip s with
  | String "+"%char s' => int_digits 0 false s'
  | String "-"%char s' => option_map Z.opp (int_digits 0 false s')
  | s' => int_digits 0 false s'
  end.

Fixpoint is_ascii_string (s : string) : bool :=
  match s with
  | EmptyString => true
  | String c s' => (nat_of_ascii c <? 128)%nat && is_ascii_string s'
  end.

Definition py_int (x : pyobj) : outcome Z :=
  match x with
  | PNone => Raise TypeError
  | PDate _ => Raise TypeError
  | PStr s =>
      if is_ascii_string s && (String.length s <=? 4300)%nat then
        match int_literal s with
        | Some z => if in_int64 z then Ok z else Raise OverflowError
        | None => Raise ValueError
        end
      else Beyond
  end.

Definition astype_int (s : Series) : outcome Series :=
  match s with
  | SInt64 xs => Ok (SInt64 xs)
  | SFloat64 xs =>
      if forallb float_is_finite xs then
        let% zs := traverse float_to_int64 xs in Ok (SInt64 zs)
      else Raise IntCastingNaNError
  | SObject xs => let% zs := traverse py_int xs in Ok (SInt64 zs)
  | SDatetime _ | STimedelta _ => Beyond
  end.

(** *** [pd.to_timedelta(s, unit="D")] *)

Definition days_to_ns (d : Z) : outcome Z :=
  if is_NaT d then Ok NaT
  else
    let t := d * NS_PER_DAY in
    if (int64_min <? t) && (t <=? int64_max) then Ok t
    else Raise OutOfBoundsTimedelta.

Definition to_timedelta_days (s : Series) : outcome Series :=
  match s with
  | SInt64 xs => let% ts := traverse days_to_ns xs in Ok (STimedelta ts)
  | _ => Beyond
  end.

(** *** [datetime column + timedelta column] *)

Definition add_ns (t d : Z) : outcome Z :=
  if is_NaT t || is_NaT d then Ok NaT
  else if in_int64 (t + d) then Ok (t + d) else Raise OverflowError.

Fixpoint add_columns (ts ds : list Z) : outcome (list Z) :=
  match ts, ds with
  | [], [] => Ok []
  | t :: ts', d :: ds' =>
      let% r := add_ns t d in
      let% rs := add_columns ts' ds' in
      Ok (r :: rs)
  | _, _ => Beyond
  end.

Definition series_add (a b : Series) : outcome Series :=
  match a, b with
  | SDatetime ts, STimedelta ds => let% rs := add_columns ts ds in Ok (SDatetime rs)
  | _, _ => Beyond
  end.

(** *** Reductions: [sum], [nunique], [min], [max] *)

(** [Series.sum()] of an [int64] column accumulates in [int64] and wraps. *)
Definition series_sum (s : Series) : outcome Z :=
  match s with
  | SInt64 xs => Ok (fold_left (fun acc x => wrap_int64 (acc + x)) xs 0)
  | _ => Beyond
  end.

Global Instance date_eq_dec : EqDecision date.
Proof. solve_decision. Defined.

Global Instance pyobj_eq_dec : EqDecision pyobj.
Proof. solve_decision. Defined.

Definition notna (x : pyobj) : bool :=
  match x with PNone => false | _ => true end.

(** [Series.nunique()]: the number of distinct values, missing ones left out. *)
Definition nunique (s : Series) : outcome nat :=
  match s with
  | SObject xs => Ok (length (remove_dups (List.filter notna xs)))
  | SInt64 xs => Ok (length (remove_dups xs))
  | SDatetime xs | STimedelta xs =>
      Ok (length (remove_dups (List.filter (fun t => negb (is_NaT t)) xs)))
  | SFloat64 xs => if forallb float_is_nan xs then Ok O else Beyond
  end.

(** [min] and [max] of a datetime column skip NaT and are NaT when nothing
    is left, as on the empty column. *)
Definition skipna (pick : Z -> Z -> Z) (t acc : Z) : Z :=
  if is_NaT acc then t else if is_NaT t then acc else pick t acc.

Definition series_min (s : Series) : outcome Z :=
  match s with
  | SDatetime xs => Ok (fold_right (skipna Z.min) NaT xs)
  | _ => Beyond
  end.

Definition series_max (s : Series) : outcome Z :=
  match s with
  | SDatetime xs => Ok (fold_right (skipna Z.max) NaT xs)
  | _ => Beyond
  end.

(** *** [pd.concat([a, b], ignore_index=True)]

    Columns are matched by label and keep the order of [a]. Only frames
    with the same labels and dtypes are modelled. *)

Definition series_append (a b : Series) : outcome Series :=
  match a, b with
  | SObject xs, SObject ys => Ok (SObject (xs ++ ys))
  | SInt64 xs, SInt64 ys => Ok (SInt64 (xs ++ ys))
  | SFloat64 xs, SFloat64 ys => Ok (SFloat64 (xs ++ ys))
  | SDatetime xs, SDatetime ys => Ok (SDatetime (xs ++ ys))
  | _, _ => Beyond
  end.

Definition pd_concat (a b : DataFrame) : outcome DataFrame :=
  if forallb (fun k => bool_decide (k ∈ columns a)) (columns b) then
    traverse (fun '(k, sa) =>
                match frame_lookup k b with
                | Some sb => let% s := series_append sa sb in Ok (k, s)
                | None => Beyond
                end) a
  else Beyond.

(** *** [DataFrame.to_csv(index=False)] *)

Definition comma : ascii := ","%char.
Definition dquote : ascii := ascii_of_nat 34.
Definition LF : ascii := ascii_of_nat 10.
Definition CR : ascii := ascii_of_nat 13.

(** [str(n)] for an integer. *)
Definition Z_to_string (z : Z) : string := NilZero.string_of_int (Z.to_int z).

Definition format_obj (x : pyobj) : outcome string :=
  match x with
  | PStr s => Ok s
  | PNone => Ok EmptyString
  | PDate d => if valid_date d then Ok (isoformat d) else Beyond
  end.

(** A datetime column whose values are all midnights is written as dates. *)
Definition format_timestamp (t : Z) : string :=
  if is_NaT t then EmptyString else isoformat (date_of_epoch_days (day_of t)).

Definition format_series (s : Series) : outcome (list string) :=
  match s with
  | SObject xs => traverse format_obj xs
  | SInt64 xs => Ok (map Z_to_string xs)
  | SDatetime xs =>
      if forallb (fun t => is_NaT t || is_midnight t) xs
      then Ok (map format_timestamp xs) else Beyond
  | SFloat64 xs =>
      traverse (fun f => if float_is_nan f then Ok EmptyString else Beyond) xs
  | STimedelta _ => Beyond
  end.

(** Row [i] of a list of columns. *)
Definition row_at {A} (dflt : A) (cols : list (list A)) (i : nat) : list A :=
  map (fun col => nth i col dflt) cols.

Definition rows_of {A} (dflt : A) (n : nat) (cols : list (list A)) : list (list A) :=
  map (row_at dflt cols) (seq 0 n).

Section CsvWriter.
(** [csv.writer] with [QUOTE_MINIMAL], comma delimiter, the double quote
    as quote character (doubled inside a field) and line terminator LF
    ([os.linesep]). CPython 3.13 and
    later quote a field holding CR or LF whatever the line terminator is;
    earlier versions quote only the characters of the line terminator. *)
Variable quote_cr : bool.

Definition special (c : ascii) : bool :=
  Ascii.eqb c comma || Ascii.eqb c dquote || Ascii.eqb c LF
  || (quote_cr && Ascii.eqb c CR).

Fixpoint has_special (s : string) : bool :=
  match s with
  | EmptyString => false
  | String c s' => special c || has_special s'
  end.

Fixpoint double_quotes (s : string) : string :=
  match s with
  | EmptyString => EmptyString
  | String c s' =>
      if Ascii.eqb c dquote then String dquote (String dquote (double_quotes s'))
      else String c (double_quotes s')
  end.

Definition write_field (s : string) : string :=
  if has_special s
  then String dquote (double_quotes s +:+ String dquote EmptyString)
  else s.

Fixpoint join_fields (fs : list string) : string :=
  match fs with
  | [] => EmptyString
  | [f] => write_field f
  | f :: fs' => write_field f +:+ String comma (join_fields fs')
  end.

(** A record of one empty field is written quoted. *)
Definition write_record (fs : list string) : string :=
  match fs with
  | [EmptyString] => String dquote (String dquote (String LF EmptyString))
  | _ => join_fields fs +:+ String LF EmptyString
  end.

Fixpoint write_records (rs : list (list string)) : string :=
  match rs with
  | [] => EmptyString
  | r :: rs' => write_record r +:+ write_records rs'
  end.

Definition to_csv (df : DataFrame) : outcome string :=
  match df with
  | [] => Beyond
  | _ =>
      let% cols := traverse (fun c => format_series (snd c)) df in
      Ok (write_records (columns df :: rows_of EmptyString (len df) cols))
  end.
End CsvWriter.

(** [str.encode('utf-8-sig')]: the byte-order mark, then the UTF-8 bytes. *)
Definition BOM : string :=
  String (ascii_of_nat 239) (String (ascii_of_nat 187) (String (ascii_of_nat 191) EmptyString)).

Definition encode_utf8_sig (text : string) : string := BOM +:+ text.

(** *** [DataFrame.to_excel] through openpyxl

    The workbook is kept as its cells; the zip container that
    [output.getvalue()] returns is not modelled. *)

Inductive xl_cell :=
| XBlank
| XText (s : string)
| XNumber (z : Z)
| XFloat (f : spec_float)
| XDate (d : date)
| XDateTime (t : Z).

Record Workbook := { sheet_name : string; sheet_rows : list (list xl_cell) }.

(** Control characters that openpyxl refuses in a cell. *)
Definition illegal_char (c : ascii) : bool :=
  let n := nat_of_ascii c in
  ((n <=? 8) || (n =? 11) || (n =? 12) || (14 <=? n) && (n <=? 31))%nat.

Fixpoint has_illegal_char (s : string) : bool :=
  match s with
  | EmptyString => false
  | String c s' => illegal_char c || has_illegal_char s'
  end.

Definition xl_text (s : string) : outcome xl_cell :=
  if has_illegal_char s then Raise IllegalCharacterError else Ok (XText s).

(** Dates before March 1900 have no agreed serial number in a workbook. *)
Definition xl_first_day : Z := epoch_days (Date 1900 3 1).

Definition xl_obj (x : pyobj) : outcome xl_cell :=
  match x with
  | PStr s => xl_text s
  | PNone => Ok XBlank
  | PDate d =>
      if valid_date d && (xl_first_day <=? epoch_days d) then Ok (XDate d) else Beyond
  end.

Definition xl_timestamp (t : Z) : outcome xl_cell :=
  if is_NaT t then Ok XBlank
  else if xl_first_day <=? day_of t then Ok (XDateTime t) else Beyond.

Definition xl_float (f : spec_float) : outcome xl_cell :=
  match f with
  | S754_nan => Ok XBlank
  | S754_infinity _ => Beyond
  | _ => Ok (XFloat f)
  end.

Definition xl_series (s : Series) : outcome (list xl_cell) :=
  match s with
  | SObject xs => traverse xl_obj xs
  | SInt64 xs => Ok (map XNumber xs)
  | SFloat64 xs => traverse xl_float xs
  | SDatetime xs => traverse xl_timestamp xs
  | STimedelta _ => Beyond
  end.

Definition to_excel (df : DataFrame) (sheet : string) : outcome Workbook :=
  match df with
  | [] => Beyond
  | _ =>
      let% header := traverse xl_text (columns df) in
      let% cols := traverse (fun c => xl_series (snd c)) df in
      Ok {| sheet_name := sheet;
            sheet_rows := header :: rows_of XBlank (len df) cols |}
  end.

(** ** The object store *)

Definition ref : Type := nat.
Definition store : Type := list DataFrame.

(** A computation over the store. A raised exception keeps the store as it
    was when the exception left. *)
Definition M (A : Type) : Type := store -> outcome A * store.

Definition ret {A} (a : A) : M A := fun σ => (Ok a, σ).

Definition bind {A B} (m : M A) (k : A -> M B) : M B :=
  fun σ =>
    match m σ with
    | (Ok a, σ') => k a σ'
    | (Raise e, σ') => (Raise e, σ')
    | (Beyond, σ') => (Beyond, σ')
    end.

Notation "x <- m ;; k" := (bind m (fun x => k))
  (at level 100, m at next level, right associativity).
Notation "m ;;; k" := (bind m (fun _ => k))
  (at level 100, right associativity).

Definition lift {A} (o : outcome A) : M A := fun σ => (o, σ).

Definition load (r : ref) : M DataFrame :=
  fun σ => match σ !! r with
           | Some df => (Ok df, σ)
           | None => (Beyond, σ)
           end.

Definition alloc (df : DataFrame) : M ref :=
  fun σ => (Ok (length σ), σ ++ [df]).

Definition save (r : ref) (df : DataFrame) : M unit :=
  fun σ => (Ok tt, <[r := df]> σ).

(** [df.copy()] *)
Definition df_copy (r : ref) : M ref := df <- load r ;; alloc df.

(** [df[k]] *)
Definition df_getitem (r : ref) (k : string) : M Series :=
  df <- load r ;; lift (getitem df k).

(** [df[k] = s] *)
Definition df_setitem (r : ref) (k : string) (s : Series) : M unit :=
  df <- load r ;; df' <- lift (setitem df k s) ;; save r df'.

(** ** The functions of app.py *)

Definition add_finish_column (df : ref) : M ref :=
  df <- df_copy df ;;
  start <- df_getitem df "Start" ;;
  start <- lift (to_datetime start) ;;
  df_setitem df "Start" start ;;;
  duration <- df_getitem df "Duration" ;;
  duration <- lift (astype_int duration) ;;
  df_setitem df "Duration" duration ;;;
  start <- df_getitem df "Start" ;;
  duration <- df_getitem df "Duration" ;;
  delta <- lift (to_timedelta_days duration) ;;
  finish <- lift (series_add start delta) ;;
  df_setitem df "Finish" finish ;;;
  ret df.

Record Stats := {
  total_tasks : nat;
  total_days : Z;
  resources : nat;
  earliest : Z;
  latest : Z
}.

Definition calculate_stats (df : ref) : M Stats :=
  d <- load df ;;
  let total_tasks := len d in
  duration <- df_getitem df "Duration" ;;
  total_days <- lift (series_sum duration) ;;
  resource <- df_getitem df "Resource" ;;
  resources <- lift (nunique resource) ;;
  start <- df_getitem df "Start" ;;
  earliest <- lift (series_min start) ;;
  finish <- df_getitem df "Finish" ;;
  latest <- lift (series_max finish) ;;
  ret {| total_tasks := total_tasks; total_days := total_days;
         resources := resources; earliest := earliest; latest := latest |}.

Definition convert_df_to_csv (quote_cr : bool) (df : ref) : M string :=
  d <- load df ;;
  text <- lift (to_csv quote_cr d) ;;
  ret (encode_utf8_sig text).

Definition sheet_title : string := "タスク一覧".

Definition convert_df_to_excel (df : ref) : M Workbook :=
  d <- load df ;;
  lift (to_excel d sheet_title).

(** The add-task button: [new_row] built from the sidebar widgets, then
    [st.session_state.df = pd.concat([st.session_state.df, new_row])].
    The result is the new value of [st.session_state.df]. *)
Definition new_row (new_task : string) (new_start : date) (new_duration : Z)
    (new_resource : string) : DataFrame :=
  [ ("Task"%string, SObject [PStr new_task]);
    ("Start"%string, SObject [PDate new_start]);
    ("Duration"%string, SInt64 [new_duration]);
    ("Resource"%string, SObject [PStr new_resource]) ].

Definition add_task (session_df : ref) (new_task : string) (new_start : date)
    (new_duration : Z) (new_resource : string) : M ref :=
  row <- alloc (new_row new_task new_start new_duration new_resource) ;;
  a <- load session_df ;;
  b <- load row ;;
  c <- lift (pd_concat a b) ;;
  alloc c.

(** The statistics pass of a rerun (lines 256 and 257). *)
Definition stats_pass (session_df : ref) : M Stats :=
  df_with_finish <- add_finish_column session_df ;;
  calculate_stats df_with_finish.

(** The export pass of the sidebar (lines 227 and 230). *)
Definition csv_pass (quote_cr : bool) (session_df : ref) : M string :=
  df_with_finish <- add_finish_column session_df ;;
  convert_df_to_csv quote_cr df_with_finish.

(** ** The session

    [st.session_state.df] is a reference into the store. A rerun either
    replaces it (add task, reset, an edit reported by the grid) or only
    reads it (the derive step and the exports). The widgets are outside
    the program; what they enforce is stated on the values they hand in:
    [number_input(min_value=1)] for the sidebar and
    [NumberColumn(min_value=1, max_value=365)] for the grid. *)

Definition durations_enforced (df : DataFrame) : Prop :=
  exists ds, getitem df "Duration" = Ok (SInt64 ds) /\ Forall (fun d => 1 <= d) ds.

Definition session : Type := store * ref.

Inductive session_step (seed : DataFrame) : session -> session -> Prop :=
| step_add σ r new_task new_start new_duration new_resource r' σ' :
    1 <= new_duration ->
    add_task r new_task new_start new_duration new_resource σ = (Ok r', σ') ->
    session_step seed (σ, r) (σ', r')
| step_reset σ r r' σ' :
    alloc seed σ = (Ok r', σ') ->
    session_step seed (σ, r) (σ', r')
| step_edit σ r edited_df r' σ' :
    durations_enforced edited_df ->
    alloc edited_df σ = (Ok r', σ') ->
    session_step seed (σ, r) (σ', r')
| step_derive σ r o σ' :
    add_finish_column r σ = (o, σ') ->
    session_step seed (σ, r) (σ', r)
| step_export_csv quote_cr σ r df o σ' :
    convert_df_to_csv quote_cr df σ = (o, σ') ->
    session_step seed (σ, r) (σ', r)
| step_export_excel σ r df o σ' :
    convert_df_to_excel df σ = (o, σ') ->
    session_step seed (σ, r) (σ', r).

Definition session_start (seed : DataFrame) : session := ([seed], O).

Definition reachable (seed : DataFrame) (s : session) : Prop :=
  rtc (session_step seed) (session_start seed) s.

(** The invariant of the session: the stored table has enforced durations. *)
Definition session_ok (s : session) : Prop :=
  exists df, fst s !! snd s = Some df /\ durations_enforced df.

(** ** Reading an export back

    A reader for the text that [to_csv] writes, after Python's [csv.reader]:
    fields separated by commas, records ended by LF, CR or CR LF, a field in
    double quotes may hold any character, a quote inside it being doubled.
    The result is built from the right: the first field of the first record
    is the one being read. *)

Inductive rmode := RecordStart | AfterCR | FieldStart | InField | InQuoted | QuoteSeen.

Definition add_char (c : ascii) (rs : list (list string)) : list (list string) :=
  match rs with
  | (f :: r) :: rs' => (String c f :: r) :: rs'
  | _ => rs
  end.

Definition open_field (rs : list (list string)) : list (list string) :=
  match rs with
  | r :: rs' => (EmptyString :: r) :: rs'
  | [] => [[EmptyString]]
  end.

Definition at_start (m : rmode) : bool :=
  match m with RecordStart | AfterCR => true | _ => false end.

Definition may_open_quote (m : rmode) : bool :=
  match m with RecordStart | AfterCR | FieldStart => true | _ => false end.

Fixpoint reader (m : rmode) (s : string) : list (list string) :=
  match s with
  | EmptyString => if at_start m then [] else [[EmptyString]]
  | String c s' =>
      match m with
      | InQuoted =>
          if Ascii.eqb c dquote then reader QuoteSeen s'
          else add_char c (reader InQuoted s')
      | _ =>
          if Ascii.eqb c LF then
            match m with
            | AfterCR => reader RecordStart s'
            | RecordStart => [] :: reader RecordStart s'
            | _ => [EmptyString] :: reader RecordStart s'
            end
          else if Ascii.eqb c CR then
            (if at_start m then [[]] else [[EmptyString]]) ++ reader AfterCR s'
          else if Ascii.eqb c comma then open_field (reader FieldStart s')
          else if Ascii.eqb c dquote then
            match m with
            | QuoteSeen => add_char c (reader InQuoted s')
            | InField => add_char c (reader InField s')
            | _ => reader InQuoted s'
            end
          else add_char c (reader InField s')
      end
  end.

(** [bytes.decode('utf-8-sig')] *)
Definition strip_bom (s : string) : string :=
  if String.prefix BOM s then substring 3 (String.length s - 3) s else s.

Fixpoint index_of (k : string) (l : list string) : option nat :=
  match l with
  | [] => None
  | x :: l' => if String.eqb k x then Some O else S <$> index_of k l'
  end.






Definition obj_date (x : pyobj) : option date :=
  match x with
  | PDate d => if valid_date d then Some d else None
  | PStr s => parse_iso_date s
  | PNone => None
  end.



Fixpoint cr_free (s : string) : bool :=
  match s with
  | EmptyString => true
  | String c s' => negb (Ascii.eqb c CR) && cr_free s'
  end.

Definition obj_cr_free (x : pyobj) : bool :=
  match x with PStr s => cr_free s | _ => true end.

Definition series_cr_free (s : Series) : bool :=
  match s with SObject xs => forallb obj_cr_free xs | _ => true end.

(** No label and no text cell of the frame holds a carriage return. *)
Definition frame_cr_free (df : DataFrame) : bool :=
  forallb (fun c => cr_free (fst c) && series_cr_free (snd c)) df.

(** ** What the derive step computes

    The frame that [add_finish_column] leaves in its fresh copy, as a
    function of the frame it was given ([add_finish_column_run] below). *)
Definition finish_frame (df : DataFrame) : outcome DataFrame :=
  let% start := getitem df "Start" in
  let% start := to_datetime start in
  let% df1 := setitem df "Start" start in
  let% duration := getitem df1 "Duration" in
  let% duration := astype_int duration in
  let% df2 := setitem df1 "Duration" duration in
  let% start := getitem df2 "Start" in
  let% duration := getitem df2 "Duration" in
  let% delta := to_timedelta_days duration in
  let% finish := series_add start delta in
  setitem df2 "Finish" finish.

(** What [calculate_stats] returns, as a function of the frame it reads. *)
Definition stats_frame (df : DataFrame) : outcome Stats :=
  let% duration := getitem df "Duration" in
  let% total_days := series_sum duration in
  let% resource := getitem df "Resource" in
  let% resources := nunique resource in
  let% start := getitem df "Start" in
  let% earliest := series_min start in
  let% finish := getitem df "Finish" in
  let% latest := series_max finish in
  Ok {| total_tasks := len df; total_days := total_days;
        resources := resources; earliest := earliest; latest := latest |}.

(** [df["Task"].iloc[n]] *)
Definition task_at (df : DataFrame) (n : nat) : option pyobj :=
  match getitem df "Task" with
  | Ok (SObject tasks) => tasks !! n
  | _ => None
  end.

Fixpoint sum_list (l : list Z) : Z :=
  match l with
  | [] => 0
  | x :: l' => x + sum_list l'
  end.

(** Least and greatest of the values that are present; NaT when none is. *)
Definition least_present (m : Z) (l : list Z) : Prop :=
  (m = NaT /\ Forall (fun x => x = NaT) l) \/
  (m <> NaT /\ m ∈ l /\ forall x, x ∈ l -> x <> NaT -> m <= x).

Definition greatest_present (m : Z) (l : list Z) : Prop :=
  (m = NaT /\ Forall (fun x => x = NaT) l) \/
  (m <> NaT /\ m ∈ l /\ forall x, x ∈ l -> x <> NaT -> x <= m).

(** ** The scenario of the specification *)

Definition scenario : DataFrame :=
  [ ("Task"%string, SObject [PStr "Design"; PStr "Build"]);
    ("Start"%string, SObject [PDate (Date 2024 1 1); PDate (Date 2024 1 6)]);
    ("Duration"%string, SInt64 [5; 10]);
    ("Resource"%string, SObject [PStr "A"; PStr "B"]) ].

(** A table whose durations are floats: 2.5 and -3.375 days. *)
Definition fractional : DataFrame :=
  [ ("Task"%string, SObject [PStr "Design"; PStr "Build"]);
    ("Start"%string, SObject [PDate (Date 2024 1 1); PDate (Date 2024 1 6)]);
    ("Duration"%string,
       SFloat64 [S754_finite false 5 (-1); S754_finite true 27 (-3)]);
    ("Resource"%string, SObject [PStr "A"; PStr "B"]) ].

(** ** Text that the reader reads back *)

(** The characters of [s] put in front of the field being read. *)
Fixpoint prepend (s : string) (rs : list (list string)) : list (list string) :=
  match s with
  | EmptyString => rs
  | String c s' => add_char c (prepend s' rs)
  end.

(** A field that the writer leaves bare must not hold a carriage return:
    guaranteed when the writer quotes CR, else asked of the field. *)
Definition field_ok (quote_cr : bool) (s : string) : bool := quote_cr || cr_free s.

Definition record_ok (quote_cr : bool) (fs : list string) : bool :=
  forallb (field_ok quote_cr) fs.

(** The form YYYY-MM-DD. *)
Definition iso_shape (s : string) : bool :=
  match s with
  | String y1 (String y2 (String y3 (String y4 (String h1
      (String m1 (String m2 (String h2 (String d1 (String d2 EmptyString))))))))) =>
      is_digit y1 && is_digit y2 && is_digit y3 && is_digit y4
      && Ascii.eqb h1 "-"%char && is_digit m1 && is_digit m2
      && Ascii.eqb h2 "-"%char && is_digit d1 && is_digit d2
  | _ => false
  end.

Definition ordinary (c : ascii) : bool :=
  negb (Ascii.eqb c LF) && negb (Ascii.eqb c CR)
  && negb (Ascii.eqb c comma) && negb (Ascii.eqb c dquote).

Definition field_start (m : rmode) : Prop := m = RecordStart \/ m = FieldStart.

(** Characters that are never quoted and never end a line. *)
Definition plain (c : ascii) : bool := is_digit c || Ascii.eqb c "-"%char.

Fixpoint all_plain (s : string) : bool :=
  match s with
  | EmptyString => true
  | String c s' => plain c && all_plain s'
  end.

(** A table with its columns in the order of the seed file (section 6 of
    the specification): Task, Start, Resource, Duration. *)
Definition seed_order : DataFrame :=
  [ ("Task"%string, SObject [PStr "Design"; PStr "Build"]);
    ("Start"%string, SObject [PStr "2024-01-01"; PStr "2024-01-06"]);
    ("Resource"%string, SObject [PStr "A"; PStr "B"]);
    ("Duration"%string, SInt64 [5; 10]) ].


(** The first record of an export, as the reader gives it. *)
Definition export_header (payload : string) : list string :=
  hd [] (reader RecordStart (strip_bom payload)).

(** ** Tables of the data model

    A stored table as the app keeps it: Start holds dates ([date] objects
    or ISO text), Duration integers, every column has the length of the
    table and can be written as text. The dates and the finish dates lie
    within the days of [datetime64[ns]]. *)

Definition row_in_range (x : pyobj) (d : Z) : Prop :=
  exists dt, obj_date x = Some dt /\
    first_day < epoch_days dt <= last_day /\
    - last_day <= d <= last_day /\
    first_day < epoch_days dt + d <= last_day.

Definition writable_obj (x : pyobj) : bool :=
  match x with PDate d => valid_date d | _ => true end.

Definition writable (s : Series) : bool :=
  match s with
  | SObject xs => forallb writable_obj xs
  | SInt64 _ => true
  | _ => false
  end.

Definition task_table (df : DataFrame) : Prop :=
  exists ss ds,
    getitem df "Start" = Ok (SObject ss) /\
    getitem df "Duration" = Ok (SInt64 ds) /\
    length ss = len df /\ length ds = len df /\
    (label_count "Finish" df <= 1)%nat /\
    Forall2 row_in_range ss ds /\
    Forall (fun c => writable (snd c) = true) df.

(** ** Further tables *)

(** A table without a Start column. *)
Definition undated : DataFrame :=
  [ ("Task"%string, SObject [PStr "Design"]);
    ("Duration"%string, SInt64 [5]) ].

(** A task that has no start date yet. *)
Definition unscheduled : DataFrame :=
  [ ("Task"%string, SObject [PStr "Design"]);
    ("Start"%string, SObject [PNone]);
    ("Duration"%string, SInt64 [5]);
    ("Resource"%string, SObject [PStr "A"]) ].

(** A table without a Resource column. *)
Definition unassigned : DataFrame :=
  [ ("Task"%string, SObject [PStr "Design"]);
    ("Start"%string, SObject [PDate (Date 2024 1 1)]);
    ("Duration"%string, SInt64 [5]) ].

(** A task of 106752 days. *)
Definition overlong : DataFrame :=
  [ ("Task"%string, SObject [PStr "Design"]);
    ("Start"%string, SObject [PDate (Date 2024 1 1)]);
    ("Duration"%string, SInt64 [106752]);
    ("Resource"%string, SObject [PStr "A"]) ].

(** A table from which every row has been deleted. *)
Definition no_tasks : DataFrame :=
  [ ("Task"%string, SObject []);
    ("Start"%string, SObject []);
    ("Duration"%string, SInt64 []);
    ("Resource"%string, SObject []) ].

(** A task whose name holds the control character U+0001. *)
Definition control_character : DataFrame :=
  [ ("Task"%string, SObject [PStr (String (ascii_of_nat 1) "Design")]);
    ("Start"%string, SObject [PDate (Date 2024 1 1)]);
    ("Duration"%string, SInt64 [5]);
    ("Resource"%string, SObject [PStr "A"]) ].

(** ** The page script *)

(** The Excel export of the sidebar (lines 227 and 240). *)
Definition excel_pass (session_df : ref) : M Workbook :=
  df_with_finish <- add_finish_column session_df ;;
  convert_df_to_excel df_with_finish.

(** [earliest.strftime('%Y-%m-%d')]: NaT does not support [strftime]. *)
Definition strftime_ymd (t : Z) : outcome string :=
  if is_NaT t then Raise ValueError
  else if in_int64 t then Ok (isoformat (date_of_epoch_days (day_of t)))
  else Beyond.

(** The texts of the four statistics cards (lines 259 to 295): each is
    [str.format] of one value, the last of [earliest.strftime]. *)
Definition stat_cards (st : Stats) : outcome (list string) :=
  let% start := strftime_ymd (earliest st) in
  Ok [ Z_to_string (Z.of_nat (total_tasks st)); Z_to_string (total_days st);
       Z_to_string (Z.of_nat (resources st)); start ].

(** The widgets of the sidebar as a run of the script finds them. *)
Record Sidebar := {
  w_task : string;        (* st.text_input *)
  w_duration : Z;         (* st.number_input(min_value=1, value=1) *)
  w_resource : string;    (* st.selectbox *)
  w_start : date;         (* st.date_input *)
  w_add : bool;           (* the add-task button was clicked *)
  w_reset : bool          (* the reset button was clicked *)
}.

(** How a run ends before the data editor: [st.rerun()] stops it, else the
    two downloads and the four cards have been produced. *)
Inductive page_end :=
| Rerun
| Cards (csv_data : string) (excel_data : Workbook) (cards : list string).

(** One run of the script from the sidebar to the statistics cards (lines
    192 to 295), on a session whose table is [session_df]; the result
    holds the table of the session after the run. [seed] is what
    [get_default_table()] returns. *)
Definition page (quote_cr : bool) (seed : DataFrame) (w : Sidebar)
    (session_df : ref) : M (ref * page_end) :=
  if w_add w then
    session_df <- add_task session_df (w_task w) (w_start w) (w_duration w)
                    (w_resource w) ;;
    ret (session_df, Rerun)
  else if w_reset w then
    session_df <- alloc seed ;;
    ret (session_df, Rerun)
  else
    df_with_finish <- add_finish_column session_df ;;
    csv_data <- convert_df_to_csv quote_cr df_with_finish ;;
    excel_data <- convert_df_to_excel df_with_finish ;;
    df_with_finish <- add_finish_column session_df ;;
    stats <- calculate_stats df_with_finish ;;
    cards <- lift (stat_cards stats) ;;
    ret (session_df, Cards csv_data excel_data cards).

(** The sidebar as it is first shown, no button clicked. *)
Definition untouched : Sidebar :=
  {| w_task := "Task"; w_duration := 1; w_resource := "A";
     w_start := Date 2024 1 1; w_add := false; w_reset := false |}.


(** * Properties *)

(** ** Outcomes and the store *)

Lemma traverse_lookup {A B} (f : A -> outcome B) l l' :
  traverse f l = Ok l' ->
  length l' = length l /\
  forall i x, l !! i = Some x -> exists y, l' !! i = Some y /\ f x = Ok y.
Proof.
  revert l'. induction l as [|a l IH]; intros l' H; simpl in H.
  - inversion H; subst. split; [done|]. intros i x Hx. by destruct i.
  - destruct (f a) as [b| |] eqn:Hfa; simpl in H; try discriminate.
    destruct (traverse f l) as [bs| |] eqn:Hl; simpl in H; try discriminate.
    inversion H; subst. destruct (IH bs eq_refl) as [Hlen Hall].
    split; [simpl; congruence|].
    intros [|i] x Hx; simpl in *.
    + inversion Hx; subst. eauto.
    + eauto.
Qed.

Lemma traverse_ok {A B} (f : A -> outcome B) (g : A -> B) l :
  Forall (fun x => f x = Ok (g x)) l -> traverse f l = Ok (map g l).
Proof.
  induction 1 as [|x l Hx _ IH]; simpl; [done|]. by rewrite Hx, IH.
Qed.

Lemma traverse_nil_inv {A B} (f : A -> outcome B) l :
  traverse f l = Ok [] -> l = [].
Proof.
  intros H. apply traverse_lookup in H as [H _]. by destruct l.
Qed.

Lemma store_save_last (σ : store) (a b : DataFrame) :
  <[length σ := b]> (σ ++ [a]) = σ ++ [b].
Proof.
  induction σ as [|x σ IH]; simpl; [done|]. by rewrite IH.
Qed.

Lemma store_lookup_last (σ : store) (a : DataFrame) :
  (σ ++ [a]) !! length σ = Some a.
Proof.
  induction σ as [|x σ IH]; simpl; [done|]. exact IH.
Qed.

Lemma store_lookup_old (σ : store) (a : DataFrame) (r : ref) :
  (r < length σ)%nat -> (σ ++ [a]) !! r = σ !! r.
Proof. intros H. by apply lookup_app_l. Qed.

(** ** Frames *)

Lemma frame_lookup_replace_eq k s df :
  frame_lookup k (frame_replace k s df) = Some s.
Proof.
  induction df as [|[k' s'] df IH]; simpl.
  - by rewrite String.eqb_refl.
  - destruct (String.eqb k k') eqn:E; simpl; rewrite E; [done|exact IH].
Qed.

Lemma frame_lookup_replace_ne k k' s df :
  k <> k' -> frame_lookup k' (frame_replace k s df) = frame_lookup k' df.
Proof.
  intros Hne. induction df as [|[k0 s0] df IH]; simpl.
  - destruct (String.eqb k' k) eqn:E; [|done].
    apply String.eqb_eq in E. congruence.
  - destruct (String.eqb k k0) eqn:E; simpl.
    + apply String.eqb_eq in E; subst k0.
      destruct (String.eqb k' k) eqn:E'; [|done].
      apply String.eqb_eq in E'. congruence.
    + by rewrite IH.
Qed.

Lemma columns_replace k s df :
  columns (frame_replace k s df) =
  if bool_decide (k ∈ columns df) then columns df else columns df ++ [k].
Proof.
  unfold columns.
  induction df as [|[k' s'] df IH]; simpl; [done|].
  destruct (String.eqb k k') eqn:E; simpl.
  - apply String.eqb_eq in E; subst. rewrite bool_decide_eq_true_2; [done|].
    constructor.
  - apply String.eqb_neq in E. rewrite IH.
    destruct (bool_decide (k ∈ map fst df)) eqn:D.
    + apply bool_decide_eq_true in D. rewrite bool_decide_eq_true_2; [done|].
      by constructor.
    + apply bool_decide_eq_false in D. rewrite bool_decide_eq_false_2; [done|].
      intros Hin. apply elem_of_cons in Hin as [?|?]; [congruence|done].
Qed.

Lemma label_count_replace k k' s df :
  (label_count k df <= 1)%nat ->
  label_count k' (frame_replace k s df) =
  if String.eqb k' k then 1%nat else label_count k' df.
Proof.
  unfold label_count, columns.
  induction df as [|[k0 s0] df IH]; simpl; intros Hc.
  - by destruct (String.eqb k' k).
  - destruct (String.eqb k k0) eqn:E; simpl in *.
    + apply String.eqb_eq in E; subst k0.
      destruct (String.eqb k' k) eqn:E'; simpl; [|done].
      apply String.eqb_eq in E'; subst k'. lia.
    + destruct (String.eqb k' k0) eqn:E2; simpl; rewrite IH by exact Hc;
        destruct (String.eqb k' k) eqn:E1; try done.
      apply String.eqb_eq in E1, E2. subst. by rewrite String.eqb_refl in E.
Qed.

Lemma len_replace k s df :
  df <> [] -> series_len s = len df -> len (frame_replace k s df) = len df.
Proof.
  destruct df as [|[k' s'] df]; [done|]. intros _ H. simpl in *.
  by destruct (String.eqb k k').
Qed.

Lemma frame_replace_nonempty k s df : frame_replace k s df <> [].
Proof.
  destruct df as [|[k' s'] df]; simpl; [done|]. by destruct (String.eqb k k').
Qed.

Lemma setitem_inv df k s df' :
  setitem df k s = Ok df' ->
  df' = frame_replace k s df /\
  (df <> [] -> series_len s = len df /\ (label_count k df <= 1)%nat).
Proof.
  unfold setitem. destruct df as [|c df]; intros H.
  - inversion H. split; [done|]. by intros [].
  - destruct (series_len s =? len (c :: df))%nat eqn:E1; simpl in H; [|done].
    destruct (label_count k (c :: df) <=? 1)%nat eqn:E2; simpl in H; [|done].
    inversion H. split; [done|]. intros _.
    apply Nat.eqb_eq in E1. apply Nat.leb_le in E2. done.
Qed.

Lemma getitem_inv df k s :
  getitem df k = Ok s ->
  frame_lookup k df = Some s /\ (label_count k df <= 1)%nat /\ df <> [].
Proof.
  unfold getitem. destruct (label_count k df <=? 1)%nat eqn:E; [|done].
  destruct (frame_lookup k df) eqn:L; [|done]. intros H; inversion H; subst.
  apply Nat.leb_le in E. split_and!; try done. by destruct df.
Qed.

Lemma getitem_intro df k s :
  frame_lookup k df = Some s -> (label_count k df <= 1)%nat -> getitem df k = Ok s.
Proof.
  intros L C. unfold getitem. apply Nat.leb_le in C. by rewrite C, L.
Qed.

(** ** The derive step on the store *)

Lemma bind_eq {A B} (m : M A) (k : A -> M B) σ :
  bind m k σ =
  match m σ with
  | (Ok a, σ') => k a σ'
  | (Raise e, σ') => (Raise e, σ')
  | (Beyond, σ') => (Beyond, σ')
  end.
Proof. reflexivity. Qed.

Lemma load_run σ r df : σ !! r = Some df -> load r σ = (Ok df, σ).
Proof. intros H. unfold load. by rewrite H. Qed.

Lemma df_copy_run σ r df :
  σ !! r = Some df -> df_copy r σ = (Ok (length σ), σ ++ [df]).
Proof. intros H. unfold df_copy. by rewrite bind_eq, (load_run _ _ _ H). Qed.

Lemma df_getitem_run σ r df k :
  σ !! r = Some df -> df_getitem r k σ = (getitem df k, σ).
Proof. intros H. unfold df_getitem. by rewrite bind_eq, (load_run _ _ _ H). Qed.

Lemma df_setitem_last σ df k s :
  df_setitem (length σ) k s (σ ++ [df]) =
  match setitem df k s with
  | Ok df' => (Ok tt, σ ++ [df'])
  | Raise e => (Raise e, σ ++ [df])
  | Beyond => (Beyond, σ ++ [df])
  end.
Proof.
  unfold df_setitem.
  rewrite bind_eq, (load_run _ _ _ (store_lookup_last σ df)).
  rewrite bind_eq. unfold lift, save.
  destruct (setitem df k s); [|done|done]. by rewrite store_save_last.
Qed.

(** A call of [add_finish_column] on a live reference allocates one frame and
    leaves in it what [finish_frame] computes; the frames that were there
    are where they were. *)
Lemma add_finish_column_run σ r df :
  σ !! r = Some df ->
  exists tmp,
    add_finish_column r σ
    = (obind (finish_frame df) (fun _ => Ok (length σ)), σ ++ [tmp])
    /\ (forall df', finish_frame df = Ok df' -> tmp = df').
Proof.
  intros Hr. unfold add_finish_column, finish_frame.
  rewrite bind_eq, (df_copy_run _ _ _ Hr).
  rewrite bind_eq, (df_getitem_run _ _ _ _ (store_lookup_last σ df)).
  destruct (getitem df "Start") as [s0| |]; cbn [obind]; [|by eexists..].
  rewrite bind_eq. unfold lift at 1.
  destruct (to_datetime s0) as [s1| |]; cbn [obind]; [|by eexists..].
  rewrite bind_eq, df_setitem_last.
  destruct (setitem df "Start" s1) as [df1| |]; cbn [obind]; [|by eexists..].
  rewrite bind_eq, (df_getitem_run _ _ _ _ (store_lookup_last σ df1)).
  destruct (getitem df1 "Duration") as [d0| |]; cbn [obind]; [|by eexists..].
  rewrite bind_eq. unfold lift at 1.
  destruct (astype_int d0) as [d1| |]; cbn [obind]; [|by eexists..].
  rewrite bind_eq, df_setitem_last.
  destruct (setitem df1 "Duration" d1) as [df2| |]; cbn [obind]; [|by eexists..].
  rewrite bind_eq, (df_getitem_run _ _ _ _ (store_lookup_last σ df2)).
  destruct (getitem df2 "Start") as [s2| |]; cbn [obind]; [|by eexists..].
  rewrite bind_eq, (df_getitem_run _ _ _ _ (store_lookup_last σ df2)).
  destruct (getitem df2 "Duration") as [d2| |]; cbn [obind]; [|by eexists..].
  rewrite bind_eq. unfold lift at 1.
  destruct (to_timedelta_days d2) as [td| |]; cbn [obind]; [|by eexists..].
  rewrite bind_eq. unfold lift at 1.
  destruct (series_add s2 td) as [f| |]; cbn [obind]; [|by eexists..].
  rewrite bind_eq, df_setitem_last.
  destruct (setitem df2 "Finish" f) as [df3| |]; cbn [obind]; [|by eexists..].
  unfold ret. eexists; split; [done|]. by intros ? [= ->].
Qed.

Lemma add_finish_column_dangling σ r :
  σ !! r = None -> add_finish_column r σ = (Beyond, σ).
Proof.
  intros Hr. unfold add_finish_column, df_copy, bind, load. by rewrite Hr.
Qed.

(** A returning call: the result is a fresh reference to the derived frame. *)
Lemma add_finish_column_ok σ r r' σ' :
  add_finish_column r σ = (Ok r', σ') ->
  exists df df',
    σ !! r = Some df /\ finish_frame df = Ok df' /\
    r' = length σ /\ σ' = σ ++ [df'] /\ σ' !! r' = Some df'.
Proof.
  intros H. destruct (σ !! r) as [df|] eqn:Hr.
  - destruct (add_finish_column_run σ r df Hr) as (tmp & Hrun & Htmp).
    rewrite Hrun in H. destruct (finish_frame df) as [df'| |] eqn:Hf; simpl in H;
      try discriminate.
    inversion H; subst. rewrite (Htmp df' eq_refl).
    exists df, df'. split_and!; try done. apply store_lookup_last.
  - rewrite add_finish_column_dangling in H by done. discriminate.
Qed.
Example toordinal_epoch : toordinal (Date 1970 1 1) = 719163.
Proof. reflexivity. Qed.

Example fromordinal_2024 : date_of_epoch_days (epoch_days (Date 2024 2 29)) = Date 2024 2 29.
Proof. reflexivity. Qed.

Example isoformat_2024 : isoformat (Date 2024 1 6) = "2024-01-06"%string.
Proof. reflexivity. Qed.

Example parse_iso_2024 : parse_iso_date "2024-01-06" = Some (Date 2024 1 6).
Proof. reflexivity. Qed.

Example astype_int_floats :
  astype_int (SFloat64 [S754_finite false 5 (-1); S754_finite true 27 (-3)])
  = Ok (SInt64 [2; -3]).
Proof. reflexivity. Qed.

Example py_int_examples :
  map py_int [PStr " 42 "; PStr "-1_000"; PStr "4.5"; PStr ""; PNone]
  = [Ok 42; Ok (-1000); Raise ValueError; Raise ValueError; Raise TypeError].
Proof. reflexivity. Qed.


(** ** The derived frame, column by column *)

Lemma getitem_replace_eq k s df :
  (label_count k df <= 1)%nat -> getitem (frame_replace k s df) k = Ok s.
Proof.
  intros Hc. apply getitem_intro; [apply frame_lookup_replace_eq|].
  rewrite label_count_replace by done. by rewrite String.eqb_refl.
Qed.

Lemma getitem_replace_ne k k' s df :
  k <> k' -> (label_count k df <= 1)%nat ->
  getitem (frame_replace k s df) k' = getitem df k'.
Proof.
  intros Hne Hc. unfold getitem.
  rewrite label_count_replace by done.
  rewrite frame_lookup_replace_ne by done.
  destruct (String.eqb k' k) eqn:E; [|done].
  apply String.eqb_eq in E. congruence.
Qed.

Lemma to_datetime_inv s s' :
  to_datetime s = Ok s' -> exists ts, s' = SDatetime ts /\ length ts = series_len s.
Proof.
  destruct s as [xs|xs|xs|xs|xs]; simpl; intros H.
  - destruct (traverse obj_to_datetime xs) as [ts| |] eqn:T; simpl in H; try done.
    inversion H. exists ts. split; [done|]. by apply traverse_lookup in T as [? _].
  - inversion H. eauto.
  - match type of H with context [traverse ?f xs] =>
      destruct (traverse f xs) as [ts| |] eqn:T end; simpl in H; try done.
    inversion H. exists ts. split; [done|]. by apply traverse_lookup in T as [? _].
  - inversion H. eauto.
  - done.
Qed.

Lemma astype_int_inv s s' :
  astype_int s = Ok s' -> exists zs, s' = SInt64 zs /\ length zs = series_len s.
Proof.
  destruct s as [xs|xs|xs|xs|xs]; simpl; intros H; try done.
  - destruct (traverse py_int xs) as [zs| |] eqn:T; simpl in H; try done.
    inversion H. exists zs. split; [done|]. by apply traverse_lookup in T as [? _].
  - inversion H. eauto.
  - destruct (forallb float_is_finite xs); [|done].
    destruct (traverse float_to_int64 xs) as [zs| |] eqn:T; simpl in H; try done.
    inversion H. exists zs. split; [done|]. by apply traverse_lookup in T as [? _].
Qed.

Lemma add_columns_lookup ts ds rs :
  add_columns ts ds = Ok rs ->
  length ts = length ds /\ length rs = length ts /\
  forall i t d, ts !! i = Some t -> ds !! i = Some d ->
    exists f, rs !! i = Some f /\ add_ns t d = Ok f.
Proof.
  revert ds rs. induction ts as [|t ts IH]; intros [|d ds] rs H; simpl in H;
    try discriminate.
  - inversion H. split_and!; try done.
  - destruct (add_ns t d) as [f| |] eqn:Hf; simpl in H; try discriminate.
    destruct (add_columns ts ds) as [fs| |] eqn:Hfs; simpl in H; try discriminate.
    inversion H; subst. destruct (IH _ _ Hfs) as (L1 & L2 & Hall).
    split_and!; simpl; try congruence.
    intros [|i] t' d' Ht Hd; simpl in *.
    + inversion Ht; inversion Hd; subst. eauto.
    + eauto.
Qed.

Lemma label_ne_start_duration : "Start"%string <> "Duration"%string.
Proof. discriminate. Qed.
Lemma label_ne_start_finish : "Start"%string <> "Finish"%string.
Proof. discriminate. Qed.
Lemma label_ne_duration_finish : "Duration"%string <> "Finish"%string.
Proof. discriminate. Qed.

(** The columns of a derived frame in terms of those of its source. *)
Record derives (df df' : DataFrame) (start duration finish : list Z) : Prop := {
  derives_source_start :
    exists s0, getitem df "Start" = Ok s0 /\ to_datetime s0 = Ok (SDatetime start);
  derives_source_duration :
    exists d0, getitem df "Duration" = Ok d0 /\ astype_int d0 = Ok (SInt64 duration);
  derives_delta :
    exists delta, traverse days_to_ns duration = Ok delta
                  /\ add_columns start delta = Ok finish;
  derives_frame :
    df' = frame_replace "Finish" (SDatetime finish)
            (frame_replace "Duration" (SInt64 duration)
               (frame_replace "Start" (SDatetime start) df));
  derives_start : getitem df' "Start" = Ok (SDatetime start);
  derives_duration : getitem df' "Duration" = Ok (SInt64 duration);
  derives_finish : getitem df' "Finish" = Ok (SDatetime finish);
  derives_len : len df' = len df;
  derives_len_start : length start = len df;
  derives_len_duration : length duration = len df;
  derives_len_finish : length finish = len df;
  derives_other :
    forall k, k <> "Start"%string -> k <> "Duration"%string -> k <> "Finish"%string ->
              getitem df' k = getitem df k;
  derives_columns :
    columns df' =
    if bool_decide ("Finish"%string ∈ columns df) then columns df
    else columns df ++ ["Finish"%string]
}.

Lemma columns_replace_present k s df o :
  getitem df k = Ok o -> columns (frame_replace k s df) = columns df.
Proof.
  intros H. apply getitem_inv in H as (L & _ & _).
  rewrite columns_replace. rewrite bool_decide_eq_true_2; [done|].
  clear -L. induction df as [|[k' s'] df IH]; simpl in *; [done|].
  destruct (String.eqb k k') eqn:E.
  - apply String.eqb_eq in E; subst. constructor.
  - constructor. auto.
Qed.

Lemma finish_frame_inv df df' :
  finish_frame df = Ok df' ->
  exists start duration finish, derives df df' start duration finish.
Proof.
  unfold finish_frame. intros H.
  destruct (getitem df "Start") as [s0| |] eqn:G0; simpl in H; try done.
  destruct (to_datetime s0) as [s1| |] eqn:T0; simpl in H; try done.
  destruct (to_datetime_inv _ _ T0) as (start & -> & Lstart).
  destruct (setitem df "Start" (SDatetime start)) as [df1| |] eqn:S1; simpl in H; try done.
  destruct (getitem_inv _ _ _ G0) as (L0 & C0 & Hne).
  destruct (setitem_inv _ _ _ _ S1) as (-> & HS1). destruct (HS1 Hne) as [Len1 _].
  set (df1 := frame_replace "Start" (SDatetime start) df) in *.
  assert (Hlen1 : len df1 = len df) by (by apply len_replace).
  assert (Hne1 : df1 <> []) by apply frame_replace_nonempty.
  destruct (getitem df1 "Duration") as [d0| |] eqn:G1; simpl in H; try done.
  destruct (astype_int d0) as [d1| |] eqn:A1; simpl in H; try done.
  destruct (astype_int_inv _ _ A1) as (duration & -> & Ldur).
  destruct (setitem df1 "Duration" (SInt64 duration)) as [df2| |] eqn:S2;
    simpl in H; try done.
  destruct (getitem_inv _ _ _ G1) as (L1 & C1 & _).
  destruct (setitem_inv _ _ _ _ S2) as (-> & HS2). destruct (HS2 Hne1) as [Len2 _].
  set (df2 := frame_replace "Duration" (SInt64 duration) df1) in *.
  assert (Hlen2 : len df2 = len df) by (unfold df2; rewrite len_replace; done).
  assert (Hne2 : df2 <> []) by apply frame_replace_nonempty.
  assert (G2s : getitem df2 "Start" = Ok (SDatetime start)).
  { unfold df2. rewrite getitem_replace_ne; [|discriminate|done].
    unfold df1. by apply getitem_replace_eq. }
  assert (G2d : getitem df2 "Duration" = Ok (SInt64 duration)).
  { unfold df2. by apply getitem_replace_eq. }
  rewrite G2s, G2d in H. simpl in H.
  destruct (traverse days_to_ns duration) as [delta| |] eqn:TD; simpl in H; try done.
  destruct (add_columns start delta) as [finish| |] eqn:AC; simpl in H; try done.
  destruct (setitem_inv _ _ _ _ H) as (-> & HS3). destruct (HS3 Hne2) as [Len3 C3].
  destruct (add_columns_lookup _ _ _ AC) as (LA1 & LA2 & _).
  assert (C1' : (label_count "Start" df1 <= 1)%nat).
  { unfold df1. rewrite label_count_replace by done. by rewrite String.eqb_refl. }
  assert (C2' : (label_count "Duration" df2 <= 1)%nat).
  { unfold df2. rewrite label_count_replace by done. by rewrite String.eqb_refl. }
  exists start, duration, finish. constructor.
  - eauto.
  - exists d0. split; [|done]. rewrite <- G1. unfold df1. symmetry.
    apply getitem_replace_ne; [discriminate|done].
  - eauto.
  - done.
  - rewrite getitem_replace_ne; [done|discriminate|done].
  - rewrite getitem_replace_ne; [done|discriminate|done].
  - by apply getitem_replace_eq.
  - rewrite len_replace; done.
  - simpl in Len1. lia.
  - simpl in Len2. lia.
  - simpl in Len3. lia.
  - intros k K1 K2 K3.
    rewrite getitem_replace_ne; [|done|done].
    unfold df2. rewrite getitem_replace_ne; [|done|done].
    unfold df1. rewrite getitem_replace_ne; done.
  - rewrite columns_replace.
    unfold df2. rewrite (columns_replace_present _ _ _ _ G1).
    unfold df1. rewrite (columns_replace_present _ _ _ _ G0). done.
Qed.

(** A returning call of the derive step, read on the store. *)
Lemma add_finish_column_derives σ r r' σ' :
  add_finish_column r σ = (Ok r', σ') ->
  exists df df' start duration finish,
    σ !! r = Some df /\ σ' !! r' = Some df' /\ σ' = σ ++ [df'] /\ r' = length σ /\
    derives df df' start duration finish.
Proof.
  intros H. apply add_finish_column_ok in H as (df & df' & Hr & Hf & -> & -> & Hr').
  destruct (finish_frame_inv _ _ Hf) as (start & duration & finish & D).
  exists df, df', start, duration, finish. done.
Qed.

(** ** The calendar *)

Lemma days_before_next_year y :
  days_before_year (y + 1) = days_before_year y + 365 + (if is_leap y then 1 else 0).
Proof.
  unfold days_before_year, is_leap. cbv zeta.
  replace (y + 1 - 1) with y by lia.
  destruct (y mod 4 =? 0) eqn:E4; destruct (y mod 100 =? 0) eqn:E100;
    destruct (y mod 400 =? 0) eqn:E400; simpl;
    rewrite ?Z.eqb_eq, ?Z.eqb_neq in *;
    Z.div_mod_to_equations; lia.
Qed.

Lemma days_before_year_mono y y' :
  y <= y' -> days_before_year y <= days_before_year y'.
Proof.
  unfold days_before_year. cbv zeta. intros H.
  Z.div_mod_to_equations. lia.
Qed.

Lemma month_cases m :
  1 <= m <= 12 ->
  m = 1 \/ m = 2 \/ m = 3 \/ m = 4 \/ m = 5 \/ m = 6 \/ m = 7 \/ m = 8
  \/ m = 9 \/ m = 10 \/ m = 11 \/ m = 12.
Proof. lia. Qed.

(** Day of the year: first day of the month and the month's length. *)
Lemma day_of_year_bounds y m d :
  1 <= m <= 12 -> 1 <= d <= days_in_month y m ->
  1 <= days_before_month y m + d <= 365 + (if is_leap y then 1 else 0).
Proof.
  intros Hm Hd. unfold days_before_month, days_in_month in *.
  destruct (is_leap y);
    destruct (month_cases m Hm) as [->|[->|[->|[->|[->|[->|[->|[->|[->|[->|[->| ->]]]]]]]]]]];
    simpl in *; lia.
Qed.

Lemma day_of_year_inj y m d m' d' :
  1 <= m <= 12 -> 1 <= d <= days_in_month y m ->
  1 <= m' <= 12 -> 1 <= d' <= days_in_month y m' ->
  days_before_month y m + d = days_before_month y m' + d' ->
  m = m' /\ d = d'.
Proof.
  intros Hm Hd Hm' Hd'. unfold days_before_month, days_in_month in *.
  destruct (is_leap y);
    destruct (month_cases m Hm) as [->|[->|[->|[->|[->|[->|[->|[->|[->|[->|[->| ->]]]]]]]]]]];
    destruct (month_cases m' Hm') as [->|[->|[->|[->|[->|[->|[->|[->|[->|[->|[->| ->]]]]]]]]]]];
    simpl in *; lia.
Qed.

Lemma valid_date_inv d :
  valid_date d = true ->
  1 <= year d <= 9999 /\ 1 <= month d <= 12 /\
  1 <= day d <= days_in_month (year d) (month d).
Proof.
  unfold valid_date. intros H.
  repeat (apply andb_true_iff in H as [H ?]). lia.
Qed.

Lemma valid_date_bounds d :
  valid_date d = true ->
  1 <= year d <= 9999 /\ 1 <= month d <= 12 /\ 1 <= day d <= 31.
Proof.
  intros V. destruct (valid_date_inv d V) as (Hy & Hm & Hd).
  assert (days_in_month (year d) (month d) <= 31).
  { unfold days_in_month.
    repeat match goal with |- context [if ?b then _ else _] => destruct b end; lia. }
  lia.
Qed.

(** Two dates of the calendar with the same day number are the same date. *)
Lemma toordinal_inj d d' :
  valid_date d = true -> valid_date d' = true ->
  toordinal d = toordinal d' -> d = d'.
Proof.
  intros V V' H.
  destruct (valid_date_inv d V) as (_ & Hm & Hd).
  destruct (valid_date_inv d' V') as (_ & Hm' & Hd').
  destruct d as [y m dd], d' as [y' m' dd']. simpl in *.
  unfold toordinal in H. simpl in H.
  pose proof (day_of_year_bounds y m dd Hm Hd) as B.
  pose proof (day_of_year_bounds y' m' dd' Hm' Hd') as B'.
  pose proof (days_before_next_year y) as N.
  pose proof (days_before_next_year y') as N'.
  assert (y = y') as <-.
  { destruct (Z.lt_trichotomy y y') as [L|[E|L]]; [|done|].
    - pose proof (days_before_year_mono (y + 1) y' ltac:(lia)). lia.
    - pose proof (days_before_year_mono (y' + 1) y ltac:(lia)). lia. }
  destruct (day_of_year_inj y m dd m' dd' Hm Hd Hm' Hd' ltac:(lia)) as [-> ->].
  done.
Qed.

Lemma days_before_year_1 : days_before_year 1 = 0.
Proof. reflexivity. Qed.

Lemma year_from_spec fuel y n :
  1 <= n -> 1 <= y -> y - 1 <= Z.of_nat fuel -> n <= days_before_year (y + 1) ->
  1 <= year_from fuel y n <= y /\
  days_before_year (year_from fuel y n) < n <= days_before_year (year_from fuel y n + 1).
Proof.
  intros Hn. revert y. induction fuel as [|k IH]; intros y Hy Hf Hinv.
  - assert (y = 1) as -> by lia. simpl. rewrite days_before_year_1. lia.
  - cbn [year_from]. destruct (n <=? days_before_year y) eqn:L.
    + apply Z.leb_le in L.
      assert (y <> 1) by (intros ->; rewrite days_before_year_1 in L; lia).
      assert (I : n <= days_before_year (y - 1 + 1))
        by (by replace (y - 1 + 1) with y by lia).
      destruct (IH (y - 1) ltac:(lia) ltac:(lia) I) as [B1 B2].
      split; [lia|done].
    + apply Z.leb_gt in L. lia.
Qed.

Lemma month_from_spec y doy :
  1 <= doy <= 365 + (if is_leap y then 1 else 0) ->
  1 <= month_from 11 12 y doy <= 12 /\
  days_before_month y (month_from 11 12 y doy) < doy
  <= days_before_month y (month_from 11 12 y doy)
     + days_in_month y (month_from 11 12 y doy).
Proof.
  intros H. cbn [month_from]. unfold days_before_month, days_in_month.
  destruct (is_leap y); simpl in *;
    repeat match goal with
           | |- context [doy <=? ?k] => destruct (Z.leb_spec doy k); simpl
           end; lia.
Qed.

(** The date found for an ordinal is a date of the calendar and has that
    ordinal. *)
Lemma fromordinal_spec n :
  1 <= n <= 3652059 ->
  valid_date (fromordinal n) = true /\ toordinal (fromordinal n) = n.
Proof.
  intros Hn. unfold fromordinal. cbv zeta.
  set (y := year_from (Z.to_nat (n / 365)) (n / 365 + 1) n).
  destruct (year_from_spec (Z.to_nat (n / 365)) (n / 365 + 1) n) as [Hy Hd].
  { lia. }
  { Z.div_mod_to_equations. lia. }
  { rewrite Z2Nat.id by (apply Z.div_pos; lia). lia. }
  { unfold days_before_year. cbv zeta. Z.div_mod_to_equations. lia. }
  fold y in Hy, Hd.
  pose proof (days_before_next_year y) as N.
  destruct (month_from_spec y (n - days_before_year y)) as [Hm Hdm]; [lia|].
  set (m := month_from 11 12 y (n - days_before_year y)) in *.
  assert (Y : y <= 9999).
  { destruct (Z.le_gt_cases y 9999) as [|G]; [done|].
    pose proof (days_before_year_mono 10000 y ltac:(lia)) as M.
    change (days_before_year 10000) with 3652059 in M. lia. }
  split.
  - unfold valid_date. simpl.
    repeat (apply andb_true_iff; split); apply Z.leb_le; lia.
  - unfold toordinal. simpl. lia.
Qed.

Lemma epoch_days_eq d : epoch_days d = toordinal d - epoch_ordinal.
Proof. reflexivity. Qed.

(** On every day of [datetime64[ns]], the date found for it is a date of
    the calendar and has that day number. *)
Lemma date_of_day n :
  first_day <= n <= last_day ->
  valid_date (date_of_epoch_days n) = true /\
  epoch_days (date_of_epoch_days n) = n.
Proof.
  intros H. unfold date_of_epoch_days. rewrite epoch_days_eq.
  destruct (fromordinal_spec (n + epoch_ordinal)) as [V E].
  { unfold first_day, last_day, epoch_ordinal in *. lia. }
  split; [done|]. rewrite E. lia.
Qed.

(** Within the range a date is found back from its day number. *)
Lemma date_of_epoch_days_of_date d :
  valid_date d = true -> first_day <= epoch_days d <= last_day ->
  date_of_epoch_days (epoch_days d) = d.
Proof.
  intros V H. destruct (date_of_day _ H) as [V' E].
  apply toordinal_inj; [exact V'|exact V|].
  rewrite (epoch_days_eq d) in *. rewrite epoch_days_eq in E.
  apply (proj1 (Z.sub_cancel_r _ _ epoch_ordinal)). exact E.
Qed.

Global Opaque fromordinal toordinal.

Lemma day_of_range t :
  in_int64 t = true -> first_day <= day_of t <= last_day.
Proof.
  unfold in_int64, int64_min, int64_max, day_of, NS_PER_DAY, first_day, last_day.
  intros H. apply andb_true_iff in H as [H1 H2].
  apply Z.leb_le in H1, H2.
  change (2 ^ 63) with 9223372036854775808 in *.
  change (86400 * 10 ^ 9) with 86400000000000.
  Z.div_mod_to_equations. lia.
Qed.

Lemma day_of_midnight n : day_of (n * NS_PER_DAY) = n.
Proof. unfold day_of. apply Z.div_mul. discriminate. Qed.

Lemma day_of_add t n : day_of (t + n * NS_PER_DAY) = day_of t + n.
Proof. unfold day_of. apply Z.div_add. discriminate. Qed.

Lemma date_to_ns_inv d t :
  date_to_ns d = Ok t ->
  valid_date d = true /\ t = epoch_days d * NS_PER_DAY /\
  in_int64 t = true /\ t <> NaT /\
  date_of_epoch_days (day_of t) = d.
Proof.
  unfold date_to_ns. destruct (valid_date d) eqn:V; [|done].
  destruct ((int64_min <? _) && _) eqn:B; [|done].
  intros [= <-]. apply andb_true_iff in B as [B1 B2].
  apply Z.ltb_lt in B1. apply Z.leb_le in B2.
  assert (R : in_int64 (epoch_days d * NS_PER_DAY) = true).
  { unfold in_int64. apply andb_true_iff. split; [apply Z.leb_le; lia|by apply Z.leb_le]. }
  split_and!; try done.
  - unfold NaT. lia.
  - rewrite day_of_midnight. apply date_of_epoch_days_of_date; [done|].
    rewrite <- (day_of_midnight (epoch_days d)). by apply day_of_range.
Qed.

(** ** Finish dates *)

Lemma days_to_ns_inv d t :
  days_to_ns d = Ok t ->
  (d = int64_min /\ t = NaT) \/
  (d <> int64_min /\ t = d * NS_PER_DAY /\ int64_min < t <= int64_max).
Proof.
  unfold days_to_ns, is_NaT, NaT.
  destruct (d =? int64_min) eqn:E.
  - apply Z.eqb_eq in E. intros [= <-]. by left.
  - apply Z.eqb_neq in E.
    destruct ((int64_min <? _) && _) eqn:B; [|done].
    intros [= <-]. apply andb_true_iff in B as [B1 B2].
    apply Z.ltb_lt in B1. apply Z.leb_le in B2. right. done.
Qed.

Lemma add_ns_inv t d f :
  add_ns t d = Ok f ->
  ((t = NaT \/ d = NaT) /\ f = NaT) \/
  (t <> NaT /\ d <> NaT /\ f = t + d /\ in_int64 f = true).
Proof.
  unfold add_ns, is_NaT.
  destruct (t =? NaT) eqn:E1; simpl.
  { apply Z.eqb_eq in E1. intros [= <-]. left. auto. }
  destruct (d =? NaT) eqn:E2; simpl.
  { apply Z.eqb_eq in E2. intros [= <-]. left. auto. }
  apply Z.eqb_neq in E1, E2.
  destruct (in_int64 (t + d)) eqn:R; [|done].
  intros [= <-]. right. done.
Qed.

(** Row by row: the finish of a derived frame from its start and duration. *)
Lemma derives_row df df' start duration finish i s d :
  derives df df' start duration finish ->
  start !! i = Some s -> duration !! i = Some d ->
  exists f, finish !! i = Some f /\
    (s <> NaT -> d <> int64_min -> f = s + d * NS_PER_DAY /\ in_int64 f = true) /\
    (s = NaT \/ d = int64_min -> f = NaT).
Proof.
  intros D Hs Hd.
  destruct (derives_delta _ _ _ _ _ D) as (delta & TD & AC).
  destruct (traverse_lookup _ _ _ TD) as (_ & Hdelta).
  destruct (Hdelta i d Hd) as (td & Htd & Eq).
  destruct (add_columns_lookup _ _ _ AC) as (_ & _ & Hfin).
  destruct (Hfin i s td Hs Htd) as (f & Hf & Ef).
  exists f. split; [done|].
  apply days_to_ns_inv in Eq. apply add_ns_inv in Ef.
  split.
  - intros Hs' Hd'. destruct Eq as [[? _]|(_ & -> & Hr)]; [done|].
    destruct Ef as [[[?|E] _]|(_ & _ & -> & R)]; [done| |done].
    unfold NaT in E. lia.
  - intros [->| ->].
    + destruct Ef as [[_ ?]|(? & _)]; done.
    + destruct Eq as [[_ ->]|(? & _)]; [|done].
      destruct Ef as [[_ ?]|(_ & ? & _)]; done.
Qed.

(** C5. The derive step keeps the rows where they are: the frame it
    returns has as many rows as the one it was given, and the task in its
    row [n] is the task in row [n] of the input, for every [n]. *)
Theorem derive_preserves_row_order σ r r' σ' :
  add_finish_column r σ = (Ok r', σ') ->
  exists df df',
    σ !! r = Some df /\ σ' !! r' = Some df' /\
    len df' = len df /\
    getitem df' "Task" = getitem df "Task" /\
    forall n, task_at df' n = task_at df n.
Proof.
  intros H.
  apply add_finish_column_derives in H
    as (df & df' & start & duration & finish & Hr & Hr' & _ & _ & D).
  exists df, df'.
  assert (T : getitem df' "Task" = getitem df "Task").
  { apply (derives_other _ _ _ _ _ D); discriminate. }
  split_and!; try done.
  - apply D.
  - intros n. unfold task_at. by rewrite T.
Qed.

Lemma derive_preserves_row_order_witness :
  let out := add_finish_column O [scenario] in
  exists df df',
    [scenario] !! O = Some df /\ snd out !! 1%nat = Some df' /\
    len df' = len df /\
    getitem df' "Task" = getitem df "Task" /\
    forall n, task_at df' n = task_at df n.
Proof.
  intros out.
  apply (derive_preserves_row_order [scenario] O 1%nat (snd out)).
  vm_compute. reflexivity.
Defined.

(** ** The store is only read *)

Lemma convert_df_to_csv_store q r σ : snd (convert_df_to_csv q r σ) = σ.
Proof.
  unfold convert_df_to_csv. rewrite bind_eq. unfold load.
  destruct (σ !! r) as [df|]; [|done].
  rewrite bind_eq. unfold lift, ret. by destruct (to_csv q df).
Qed.

Lemma convert_df_to_excel_store r σ : snd (convert_df_to_excel r σ) = σ.
Proof.
  unfold convert_df_to_excel. rewrite bind_eq. unfold load.
  destruct (σ !! r) as [df|]; [|done].
  unfold lift. by destruct (to_excel df sheet_title).
Qed.

Lemma add_finish_column_store r σ :
  take (length σ) (snd (add_finish_column r σ)) = σ.
Proof.
  destruct (σ !! r) as [df|] eqn:Hr.
  - destruct (add_finish_column_run σ r df Hr) as (tmp & -> & _). simpl.
    by rewrite take_app_length.
  - rewrite add_finish_column_dangling by done. simpl. apply firstn_all.
Qed.

(** C9. Whatever its outcome, a call of either export leaves the store as
    it was, and a call of the derive step leaves every frame that was in
    the store as it was (it only adds its own copy). *)
Theorem derive_and_exports_leave_tables_unchanged quote_cr r σ :
  take (length σ) (snd (add_finish_column r σ)) = σ /\
  snd (convert_df_to_csv quote_cr r σ) = σ /\
  snd (convert_df_to_excel r σ) = σ.
Proof.
  split_and!.
  - apply add_finish_column_store.
  - apply convert_df_to_csv_store.
  - apply convert_df_to_excel_store.
Qed.

(** ** Statistics *)

Lemma calculate_stats_run σ r df :
  σ !! r = Some df -> calculate_stats r σ = (stats_frame df, σ).
Proof.
  intros Hr. unfold calculate_stats, stats_frame.
  rewrite bind_eq, (load_run _ _ _ Hr).
  rewrite bind_eq, (df_getitem_run _ _ _ _ Hr).
  destruct (getitem df "Duration") as [d| |]; cbn [obind]; [|done..].
  rewrite bind_eq. unfold lift at 1.
  destruct (series_sum d) as [t| |]; cbn [obind]; [|done..].
  rewrite bind_eq, (df_getitem_run _ _ _ _ Hr).
  destruct (getitem df "Resource") as [w| |]; cbn [obind]; [|done..].
  rewrite bind_eq. unfold lift at 1.
  destruct (nunique w) as [k| |]; cbn [obind]; [|done..].
  rewrite bind_eq, (df_getitem_run _ _ _ _ Hr).
  destruct (getitem df "Start") as [s| |]; cbn [obind]; [|done..].
  rewrite bind_eq. unfold lift at 1.
  destruct (series_min s) as [e| |]; cbn [obind]; [|done..].
  rewrite bind_eq, (df_getitem_run _ _ _ _ Hr).
  destruct (getitem df "Finish") as [f| |]; cbn [obind]; [|done..].
  rewrite bind_eq. unfold lift at 1.
  destruct (series_max f) as [l| |]; cbn [obind]; [|done..].
  done.
Qed.

Lemma nunique_empty s : series_len s = O -> nunique s = Ok O.
Proof. destruct s as [[|]|[|]|[|]|[|]|[|]]; simpl; try done. Qed.

(** C6. On a table without rows the statistics are 0 tasks, 0 days and 0
    resources, and both dates are NaT, the missing-value marker of pandas. *)
Theorem stats_of_empty_table σ r df resource r' σ' :
  σ !! r = Some df ->
  len df = O ->
  getitem df "Resource" = Ok resource ->
  series_len resource = O ->
  add_finish_column r σ = (Ok r', σ') ->
  calculate_stats r' σ'
  = (Ok {| total_tasks := O; total_days := 0; resources := O;
           earliest := NaT; latest := NaT |}, σ').
Proof.
  intros Hr L G Lr H.
  apply add_finish_column_derives in H
    as (df0 & df' & start & duration & finish & Hr0 & Hr' & _ & _ & D).
  assert (df0 = df) as -> by congruence.
  rewrite (calculate_stats_run _ _ _ Hr'). f_equal.
  unfold stats_frame.
  pose proof (derives_len_start _ _ _ _ _ D) as L1.
  pose proof (derives_len_duration _ _ _ _ _ D) as L2.
  pose proof (derives_len_finish _ _ _ _ _ D) as L3.
  rewrite L in L1, L2, L3.
  destruct start; [|done]. destruct duration; [|done]. destruct finish; [|done].
  rewrite (derives_duration _ _ _ _ _ D). cbn [obind series_sum fold_left].
  rewrite (derives_other _ _ _ _ _ D) by discriminate.
  rewrite G. cbn [obind]. rewrite (nunique_empty _ Lr). cbn [obind].
  rewrite (derives_start _ _ _ _ _ D). cbn [obind series_min fold_right].
  rewrite (derives_finish _ _ _ _ _ D). cbn [obind series_max fold_right].
  by rewrite (derives_len _ _ _ _ _ D), L.
Qed.

Lemma stats_of_empty_table_witness :
  let empty : DataFrame :=
    [ ("Task"%string, SObject []); ("Start"%string, SObject []);
      ("Duration"%string, SInt64 []); ("Resource"%string, SObject []) ] in
  let out := add_finish_column O [empty] in
  calculate_stats 1%nat (snd out)
  = (Ok {| total_tasks := O; total_days := 0; resources := O;
           earliest := NaT; latest := NaT |}, snd out).
Proof.
  intros empty out.
  apply (stats_of_empty_table [empty] O empty (SObject []) 1%nat (snd out));
    vm_compute; reflexivity.
Defined.

Lemma wrap_int64_id z : in_int64 z = true -> wrap_int64 z = z.
Proof.
  unfold in_int64, wrap_int64, int64_min, int64_max. intros H.
  apply andb_true_iff in H as [H1 H2]. apply Z.leb_le in H1, H2.
  change (2 ^ 64) with 18446744073709551616.
  change (2 ^ 63) with 9223372036854775808 in *.
  rewrite Z.mod_small; lia.
Qed.

Lemma wrap_int64_add z x : wrap_int64 (wrap_int64 z + x) = wrap_int64 (z + x).
Proof.
  unfold wrap_int64.
  change (2 ^ 64) with 18446744073709551616.
  change (2 ^ 63) with 9223372036854775808.
  f_equal.
  replace ((z + 9223372036854775808) mod 18446744073709551616
           - 9223372036854775808 + x + 9223372036854775808)
    with ((z + 9223372036854775808) mod 18446744073709551616 + x) by lia.
  rewrite Zplus_mod_idemp_l. f_equal. lia.
Qed.

(** The wrapping accumulation of [sum] is the sum, wrapped once. *)
Lemma series_sum_int64 xs : series_sum (SInt64 xs) = Ok (wrap_int64 (sum_list xs)).
Proof.
  simpl. f_equal.
  assert (G : forall a, fold_left (fun acc x => wrap_int64 (acc + x)) xs (wrap_int64 a)
                        = wrap_int64 (a + sum_list xs)).
  { induction xs as [|x xs IH]; intros a; simpl.
    - f_equal. lia.
    - rewrite wrap_int64_add, IH. f_equal. lia. }
  exact (G 0).
Qed.

Lemma skipna_min_least xs : least_present (fold_right (skipna Z.min) NaT xs) xs.
Proof.
  induction xs as [|x xs IH]; simpl.
  - left. split; [done|constructor].
  - unfold skipna at 1, is_NaT.
    destruct (fold_right (skipna Z.min) NaT xs =? NaT) eqn:E.
    + apply Z.eqb_eq in E. rewrite E in IH.
      destruct IH as [[_ All]|[? _]]; [|done].
      destruct (Z.eq_dec x NaT) as [->|Hx].
      * left. split; [done|by constructor].
      * right. split_and!; [done|constructor|].
        intros y Hy Hy'. apply elem_of_cons in Hy as [->|Hy]; [lia|].
        rewrite Forall_forall in All. by specialize (All y Hy).
    + apply Z.eqb_neq in E. destruct IH as [[? _]|(_ & Hin & Hle)]; [done|].
      destruct (x =? NaT) eqn:Ex.
      * apply Z.eqb_eq in Ex; subst x. right. split_and!; [done|by constructor|].
        intros y Hy Hy'. apply elem_of_cons in Hy as [->|Hy]; [done|]. auto.
      * apply Z.eqb_neq in Ex. right. split_and!.
        -- lia.
        -- destruct (Z.min_spec x (fold_right (skipna Z.min) NaT xs))
             as [[_ ->]|[_ ->]]; [constructor|by constructor].
        -- intros y Hy Hy'. apply elem_of_cons in Hy as [->|Hy]; [lia|].
           specialize (Hle y Hy Hy'). lia.
Qed.

Lemma skipna_max_greatest xs : greatest_present (fold_right (skipna Z.max) NaT xs) xs.
Proof.
  induction xs as [|x xs IH]; simpl.
  - left. split; [done|constructor].
  - unfold skipna at 1, is_NaT.
    destruct (fold_right (skipna Z.max) NaT xs =? NaT) eqn:E.
    + apply Z.eqb_eq in E. rewrite E in IH.
      destruct IH as [[_ All]|[? _]]; [|done].
      destruct (Z.eq_dec x NaT) as [->|Hx].
      * left. split; [done|by constructor].
      * right. split_and!; [done|constructor|].
        intros y Hy Hy'. apply elem_of_cons in Hy as [->|Hy]; [lia|].
        rewrite Forall_forall in All. by specialize (All y Hy).
    + apply Z.eqb_neq in E. destruct IH as [[? _]|(_ & Hin & Hle)]; [done|].
      destruct (x =? NaT) eqn:Ex.
      * apply Z.eqb_eq in Ex; subst x. right. split_and!; [done|by constructor|].
        intros y Hy Hy'. apply elem_of_cons in Hy as [->|Hy]; [done|]. auto.
      * apply Z.eqb_neq in Ex. right. split_and!.
        -- lia.
        -- destruct (Z.max_spec x (fold_right (skipna Z.max) NaT xs))
             as [[_ ->]|[_ ->]]; [by constructor|constructor].
        -- intros y Hy Hy'. apply elem_of_cons in Hy as [->|Hy]; [lia|].
           specialize (Hle y Hy Hy'). lia.
Qed.

Lemma notna_spec x : notna x = true <-> x <> PNone.
Proof. destruct x; simpl; split; try done. Qed.

(** The count of [nunique] on an object column is the size of the set of
    the values that occur in it, None left out. *)
Lemma nunique_object xs :
  exists l, nunique (SObject xs) = Ok (length l) /\ NoDup l /\
            forall x, x ∈ l <-> x ∈ xs /\ x <> PNone.
Proof.
  exists (remove_dups (List.filter notna xs)). split_and!; [done|apply NoDup_remove_dups|].
  intros x. rewrite elem_of_remove_dups, list_elem_of_In, filter_In.
  by rewrite <- list_elem_of_In, notna_spec.
Qed.

(** A derived duration is NaT-like or of at most 106751 days. *)
Lemma derives_duration_bound df df' start duration finish :
  derives df df' start duration finish ->
  Forall (fun d => d = int64_min \/ -106751 <= d <= 106751) duration.
Proof.
  intros D. destruct (derives_delta _ _ _ _ _ D) as (delta & TD & _).
  destruct (traverse_lookup _ _ _ TD) as (_ & Hdelta).
  apply Forall_lookup. intros i d Hd.
  destruct (Hdelta i d Hd) as (t & _ & Eq).
  apply days_to_ns_inv in Eq as [[-> _]|(_ & -> & B)]; [by left|right].
  unfold int64_min, int64_max, NS_PER_DAY in B.
  change (2 ^ 63) with 9223372036854775808 in B.
  change (86400 * 10 ^ 9) with 86400000000000 in B. lia.
Qed.

Lemma sum_list_bound (b : Z) l :
  Forall (fun d => - b <= d <= b) l ->
  - (Z.of_nat (length l) * b) <= sum_list l <= Z.of_nat (length l) * b.
Proof.
  induction 1 as [|x l Hx _ IH]; simpl length; simpl sum_list; [lia|].
  rewrite Nat2Z.inj_succ. lia.
Qed.

(** C3. On the frame that the derive step returns, [calculate_stats] gives
    the number of rows, the sum of the durations (accumulated in 64 bits:
    the exact sum whenever that fits, as it does below 2^46 rows), the
    number of distinct resources, the least start and the greatest finish
    among the dates that are present; on the two-row scenario these are
    2, 15, 2, 2024-01-01 and 2024-01-16. *)
Theorem stats_of_derived_table :
  (forall σ r r' σ' df' resource,
     add_finish_column r σ = (Ok r', σ') ->
     σ' !! r' = Some df' ->
     getitem df' "Resource" = Ok (SObject resource) ->
     exists start duration finish st distinct,
       getitem df' "Start" = Ok (SDatetime start) /\
       getitem df' "Duration" = Ok (SInt64 duration) /\
       getitem df' "Finish" = Ok (SDatetime finish) /\
       calculate_stats r' σ' = (Ok st, σ') /\
       total_tasks st = len df' /\ length duration = len df' /\
       total_days st = wrap_int64 (sum_list duration) /\
       (in_int64 (sum_list duration) = true -> total_days st = sum_list duration) /\
       ((len df' <= 2 ^ 46)%nat -> Forall (fun d => d <> int64_min) duration ->
        total_days st = sum_list duration) /\
       resources st = length distinct /\ NoDup distinct /\
       (forall x, x ∈ distinct <-> x ∈ resource /\ x <> PNone) /\
       least_present (earliest st) start /\
       greatest_present (latest st) finish) /\
  (exists e l σ',
     date_to_ns (Date 2024 1 1) = Ok e /\ date_to_ns (Date 2024 1 16) = Ok l /\
     stats_pass O [scenario]
     = (Ok {| total_tasks := 2; total_days := 15; resources := 2;
              earliest := e; latest := l |}, σ')).
Proof.
  split.
  - intros σ r r' σ' df' resource H Hr' G.
    apply add_finish_column_derives in H
      as (df & df0 & start & duration & finish & Hr & Hr0 & _ & _ & D).
    assert (df0 = df') as -> by congruence.
    destruct (nunique_object resource) as (distinct & Hn & ND & Hmem).
    pose proof (derives_len _ _ _ _ _ D) as L.
    assert (S : stats_frame df'
                = Ok {| total_tasks := len df';
                        total_days := wrap_int64 (sum_list duration);
                        resources := length distinct;
                        earliest := fold_right (skipna Z.min) NaT start;
                        latest := fold_right (skipna Z.max) NaT finish |}).
    { unfold stats_frame.
      rewrite (derives_duration _ _ _ _ _ D). cbn [obind].
      rewrite series_sum_int64. cbn [obind].
      rewrite G. cbn [obind]. rewrite Hn. cbn [obind].
      rewrite (derives_start _ _ _ _ _ D). cbn [obind series_min].
      by rewrite (derives_finish _ _ _ _ _ D). }
    eexists start, duration, finish, _, distinct.
    split_and!; try apply D.
    + rewrite (calculate_stats_run _ _ _ Hr'), S. reflexivity.
    + done.
    + rewrite L. apply D.
    + done.
    + intros R. simpl. by apply wrap_int64_id.
    + intros Hrows Hd. simpl. apply wrap_int64_id.
      pose proof (derives_duration_bound _ _ _ _ _ D) as B.
      assert (B' : Forall (fun d => - 106751 <= d <= 106751) duration).
      { rewrite Forall_forall in *. intros d Hin.
        destruct (B d Hin) as [->|?]; [|done]. by specialize (Hd _ Hin). }
      apply (sum_list_bound 106751) in B'.
      pose proof (derives_len_duration _ _ _ _ _ D) as Ld.
      rewrite L in Hrows. rewrite <- Ld in Hrows.
      assert (Z.of_nat (length duration) <= 2 ^ 46).
      { apply Nat2Z.inj_le in Hrows. rewrite Nat2Z.inj_pow in Hrows. exact Hrows. }
      unfold in_int64, int64_min, int64_max.
      change (2 ^ 46) with 70368744177664 in *.
      change (2 ^ 63) with 9223372036854775808.
      apply andb_true_iff. split; apply Z.leb_le; nia.
    + done.
    + done.
    + done.
    + apply skipna_min_least.
    + apply skipna_max_greatest.
  - eexists _, _, _. split_and!; vm_compute; reflexivity.
Qed.

Lemma stats_of_derived_table_witness :
  let out := add_finish_column O [scenario] in
  exists start duration finish st distinct,
    getitem (default [] (snd out !! 1%nat)) "Start" = Ok (SDatetime start) /\
    getitem (default [] (snd out !! 1%nat)) "Duration" = Ok (SInt64 duration) /\
    getitem (default [] (snd out !! 1%nat)) "Finish" = Ok (SDatetime finish) /\
    calculate_stats 1%nat (snd out) = (Ok st, snd out) /\
    total_tasks st = len (default [] (snd out !! 1%nat)) /\
    length duration = len (default [] (snd out !! 1%nat)) /\
    total_days st = wrap_int64 (sum_list duration) /\
    (in_int64 (sum_list duration) = true -> total_days st = sum_list duration) /\
    ((len (default [] (snd out !! 1%nat)) <= 2 ^ 46)%nat ->
     Forall (fun d => d <> int64_min) duration ->
     total_days st = sum_list duration) /\
    resources st = length distinct /\ NoDup distinct /\
    (forall x, x ∈ distinct <-> x ∈ [PStr "A"; PStr "B"] /\ x <> PNone) /\
    least_present (earliest st) start /\
    greatest_present (latest st) finish.
Proof.
  intros out.
  apply (proj1 stats_of_derived_table [scenario] O 1%nat (snd out)
           (default [] (snd out !! 1%nat)) [PStr "A"; PStr "B"]);
    vm_compute; reflexivity.
Defined.

(** ** The session keeps durations positive *)

Lemma label_count_columns k a b :
  columns a = columns b -> label_count k a = label_count k b.
Proof. unfold label_count. by intros ->. Qed.

Lemma pd_concat_inv a b c :
  pd_concat a b = Ok c ->
  columns c = columns a /\
  forall k sa, frame_lookup k a = Some sa ->
    exists sb s, frame_lookup k b = Some sb /\ series_append sa sb = Ok s /\
                 frame_lookup k c = Some s.
Proof.
  unfold pd_concat. destruct (forallb _ (columns b)); [|done].
  revert c. induction a as [|[k0 s0] a IH]; intros c H; simpl in H.
  - inversion H. split; [done|]. intros ? ? [=].
  - destruct (frame_lookup k0 b) as [sb|] eqn:Lb; simpl in H; [|done].
    destruct (series_append s0 sb) as [s|e|] eqn:A; simpl in H; try done.
    match type of H with context [traverse ?f a] =>
      destruct (traverse f a) as [c'|e|] eqn:T end; simpl in H; try done.
    inversion H; subst. destruct (IH c' eq_refl) as [Hc Hl].
    split; [simpl; by rewrite Hc|].
    intros k sa. simpl. destruct (String.eqb k k0) eqn:E.
    + apply String.eqb_eq in E; subst. intros [= <-]. eauto.
    + auto.
Qed.

Lemma add_task_run σ r df new_task new_start new_duration new_resource :
  σ !! r = Some df ->
  add_task r new_task new_start new_duration new_resource σ =
  let row := new_row new_task new_start new_duration new_resource in
  match pd_concat df row with
  | Ok c => (Ok (S (length σ)), σ ++ [row] ++ [c])
  | Raise e => (Raise e, σ ++ [row])
  | Beyond => (Beyond, σ ++ [row])
  end.
Proof.
  intros Hr. unfold add_task.
  rewrite bind_eq. unfold alloc at 1.
  rewrite bind_eq, (load_run (σ ++ [_]) r df) by (by apply lookup_app_l_Some).
  rewrite bind_eq, (load_run _ _ _ (store_lookup_last σ _)).
  rewrite bind_eq. unfold lift. cbv zeta.
  destruct (pd_concat df _); try done.
  unfold alloc. rewrite length_app. simpl. rewrite Nat.add_1_r.
  by rewrite <- app_assoc.
Qed.

Lemma add_task_ok σ r df new_task new_start new_duration new_resource r' σ' :
  σ !! r = Some df ->
  add_task r new_task new_start new_duration new_resource σ = (Ok r', σ') ->
  exists c,
    σ' !! r' = Some c /\
    pd_concat df (new_row new_task new_start new_duration new_resource) = Ok c.
Proof.
  intros Hr H.
  rewrite (add_task_run _ _ _ _ _ _ _ Hr) in H. cbv zeta in H.
  destruct (pd_concat df _) as [c| |] eqn:C; try done.
  inversion H; subst. exists c. split_and!; try done.
  change (σ ++ [new_row new_task new_start new_duration new_resource; c])
    with (σ ++ [new_row new_task new_start new_duration new_resource] ++ [c]).
  rewrite app_assoc.
  replace (S (length σ)) with (length (σ ++ [new_row new_task new_start new_duration new_resource])).
  - apply store_lookup_last.
  - rewrite length_app. simpl. lia.
Qed.

Lemma append_task_column df c k sa new_task new_start new_duration new_resource :
  pd_concat df (new_row new_task new_start new_duration new_resource) = Ok c ->
  getitem df k = Ok sa ->
  exists sb s,
    frame_lookup k (new_row new_task new_start new_duration new_resource) = Some sb
    /\ series_append sa sb = Ok s /\ getitem c k = Ok s.
Proof.
  intros C G. destruct (pd_concat_inv _ _ _ C) as [Hc Hl].
  apply getitem_inv in G as (L & Cnt & _).
  destruct (Hl k sa L) as (sb & s & Lb & A & Lc).
  exists sb, s. split_and!; try done.
  apply getitem_intro; [done|]. by rewrite (label_count_columns k c df).
Qed.

Lemma append_task_durations df c new_task new_start new_duration new_resource :
  pd_concat df (new_row new_task new_start new_duration new_resource) = Ok c ->
  1 <= new_duration ->
  durations_enforced df -> durations_enforced c.
Proof.
  intros C Hd (ds & G & All).
  destruct (append_task_column _ _ _ _ _ _ _ _ C G) as (sb & s & Lb & A & Gc).
  vm_compute in Lb. inversion Lb; subst sb. simpl in A. inversion A; subst s.
  exists (ds ++ [new_duration]). split; [done|].
  apply Forall_app. split; [done|]. by constructor.
Qed.

Lemma session_step_ok seed s s' :
  durations_enforced seed -> session_step seed s s' -> session_ok s -> session_ok s'.
Proof.
  intros Hseed Hstep.
  destruct Hstep as [σ r t st d w r' σ' Hd H|σ r r' σ' H|σ r e r' σ' He H
                     |σ r o σ' H|q σ r r0 o σ' H|σ r r0 o σ' H];
    intros (df & Hr & Hdf); simpl in *.
  - destruct (add_task_ok _ _ _ _ _ _ _ _ _ Hr H) as (c & Hc & C).
    exists c. split; [done|]. eapply append_task_durations; eauto.
  - unfold alloc in H. inversion H; subst. exists seed.
    split; [apply store_lookup_last|done].
  - unfold alloc in H. inversion H; subst. exists e.
    split; [apply store_lookup_last|done].
  - exists df. split; [|done].
    pose proof (add_finish_column_store r σ) as F. rewrite H in F. simpl in F.
    rewrite <- F in Hr. by apply lookup_take_Some in Hr as [? _].
  - pose proof (convert_df_to_csv_store q r0 σ) as F. rewrite H in F. simpl in F.
    subst. by exists df.
  - pose proof (convert_df_to_excel_store r0 σ) as F. rewrite H in F. simpl in F.
    subst. by exists df.
Qed.

Lemma reachable_ok seed s :
  durations_enforced seed -> reachable seed s -> session_ok s.
Proof.
  intros Hseed. unfold reachable.
  assert (session_ok (session_start seed)) as H0 by (by exists seed).
  revert H0. generalize (session_start seed).
  induction 2 as [|x y z Hxy _ IH]; [done|].
  apply IH. by eapply session_step_ok.
Qed.

Lemma obj_to_datetime_int64 x t : obj_to_datetime x = Ok t -> in_int64 t = true.
Proof.
  destruct x as [s|d|]; simpl.
  - destruct (parse_iso_date s) as [d|]; [|done].
    intros H. by apply date_to_ns_inv in H as (_ & _ & R & _).
  - intros H. by apply date_to_ns_inv in H as (_ & _ & R & _).
  - by intros [= <-].
Qed.

Lemma obj_to_datetime_missing x t :
  obj_to_datetime x = Ok t -> (t = NaT <-> x = PNone).
Proof.
  destruct x as [s|d|]; simpl.
  - destruct (parse_iso_date s) as [d|]; [|done].
    intros H. apply date_to_ns_inv in H as (_ & _ & _ & N & _). split; done.
  - intros H. apply date_to_ns_inv in H as (_ & _ & _ & N & _). split; done.
  - intros [= <-]. done.
Qed.

(** Row [i] of a derived frame from row [i] of the stored one, for a Start
    column of objects and a Duration column of integers. *)
Lemma derives_stored_row df df' start duration finish ss ds i x d :
  derives df df' start duration finish ->
  getitem df "Start" = Ok (SObject ss) ->
  getitem df "Duration" = Ok (SInt64 ds) ->
  ss !! i = Some x -> ds !! i = Some d ->
  duration = ds /\ length ss = len df /\
  exists s f,
    start !! i = Some s /\ finish !! i = Some f /\
    obj_to_datetime x = Ok s /\ in_int64 s = true /\
    (s = NaT <-> x = PNone) /\
    (s = NaT \/ d = int64_min -> f = NaT) /\
    (s <> NaT -> d <> int64_min -> f = s + d * NS_PER_DAY /\ in_int64 f = true).
Proof.
  intros D Gs Gd Hx Hd.
  destruct (derives_source_duration _ _ _ _ _ D) as (d0 & G0 & A).
  rewrite Gd in G0. injection G0 as <-. simpl in A. injection A as <-.
  destruct (derives_source_start _ _ _ _ _ D) as (s0 & G0 & T).
  rewrite Gs in G0. injection G0 as <-. simpl in T.
  destruct (traverse obj_to_datetime ss) as [ts| |] eqn:E; simpl in T; try done.
  injection T as ->.
  destruct (traverse_lookup _ _ _ E) as (Lts & Hts).
  split; [done|]. split.
  { rewrite <- Lts. apply D. }
  destruct (Hts i x Hx) as (s & Hs & Es).
  destruct (derives_row _ _ _ _ _ i s d D Hs Hd) as (f & Hf & Hval & Hnat).
  exists s, f. split_and!; try done.
  - by eapply obj_to_datetime_int64.
  - by apply obj_to_datetime_missing.
Qed.

(** Without the proviso that the row has a Start, the order of Start and
    Finish fails on a task that has none: its Duration is 5, and its
    Finish is missing like its Start, so it is not after it. *)
Lemma finish_after_start_counterexample :
  ~ (forall r' σ' df' start duration finish i s d f,
       add_finish_column O [unscheduled] = (Ok r', σ') ->
       σ' !! r' = Some df' ->
       getitem df' "Start" = Ok (SDatetime start) ->
       getitem df' "Duration" = Ok (SInt64 duration) ->
       getitem df' "Finish" = Ok (SDatetime finish) ->
       start !! i = Some s -> duration !! i = Some d -> finish !! i = Some f ->
       1 <= d -> s < f).
Proof.
  intros H.
  pose (out := add_finish_column O [unscheduled]).
  assert (E : add_finish_column O [unscheduled] = (Ok 1%nat, snd out))
    by (vm_compute; reflexivity).
  specialize (H 1%nat (snd out) (default [] (snd out !! 1%nat))
                [NaT] [5] [NaT] O NaT 5 NaT E).
  assert (L : NaT < NaT).
  { apply H; try (vm_compute; reflexivity). vm_compute. discriminate. }
  lia.
Qed.

(** C7 (amended). In a row whose Start is present and whose Duration is at
    least 1, the derived Finish is strictly after the derived Start (and
    with a Duration of at least 0 not before it); in a row whose Start is
    missing, Finish is missing too. This is said of the rows of the stored
    table: the derived table has a row for each, with the stored Duration.
    The session keeps every stored duration at 1 or more through add,
    edit, reset, derive and export, given that the seed table and the two
    widgets do; so whenever the derive step returns on the table of the
    session, Finish is after Start in every row that has a Start. *)
Theorem finish_after_start :
  (forall σ r r' σ' df ss ds,
     add_finish_column r σ = (Ok r', σ') ->
     σ !! r = Some df ->
     getitem df "Start" = Ok (SObject ss) ->
     getitem df "Duration" = Ok (SInt64 ds) ->
     exists df' start finish,
       σ' !! r' = Some df' /\ len df' = len df /\
       getitem df' "Start" = Ok (SDatetime start) /\
       getitem df' "Duration" = Ok (SInt64 ds) /\
       getitem df' "Finish" = Ok (SDatetime finish) /\
       length ss = len df /\ length ds = len df /\
       length start = len df /\ length finish = len df /\
       forall i x d, ss !! i = Some x -> ds !! i = Some d ->
         exists s f,
           start !! i = Some s /\ finish !! i = Some f /\
           (x = PNone -> s = NaT /\ f = NaT) /\
           (x <> PNone ->
              s <> NaT /\
              (d <> int64_min -> f = s + d * NS_PER_DAY) /\
              (1 <= d -> s < f /\ f <> NaT) /\
              (0 <= d -> s <= f))) /\
  (forall seed s r' σ',
     durations_enforced seed ->
     reachable seed s ->
     add_finish_column (snd s) (fst s) = (Ok r', σ') ->
     exists df ds df' start finish,
       fst s !! snd s = Some df /\
       getitem df "Duration" = Ok (SInt64 ds) /\
       Forall (fun d => 1 <= d) ds /\
       σ' !! r' = Some df' /\ len df' = len df /\
       getitem df' "Start" = Ok (SDatetime start) /\
       getitem df' "Duration" = Ok (SInt64 ds) /\
       getitem df' "Finish" = Ok (SDatetime finish) /\
       length ds = len df /\ length start = len df /\ length finish = len df /\
       (forall i s, start !! i = Some s -> s <> NaT ->
          exists f, finish !! i = Some f /\ s < f) /\
       (forall ss i x,
          getitem df "Start" = Ok (SObject ss) -> ss !! i = Some x -> x <> PNone ->
          exists s f, start !! i = Some s /\ finish !! i = Some f /\
                      s <> NaT /\ s < f)).
Proof.
  assert (Hrow : forall df df' start duration finish i s d,
            derives df df' start duration finish ->
            start !! i = Some s -> duration !! i = Some d -> s <> NaT ->
            exists f, finish !! i = Some f /\
                      (1 <= d -> s < f) /\ (0 <= d -> s <= f)).
  { intros df df' start duration finish i s d D Hs Hd Hs'.
    destruct (derives_row _ _ _ _ _ i s d D Hs Hd) as (f & Hf & Hp & _).
    exists f. split; [done|].
    assert (N : 0 < NS_PER_DAY) by done.
    unfold NaT, int64_min in *.
    split; intros Hd'.
    - destruct Hp as [-> _]; [done|lia|]. nia.
    - destruct Hp as [-> _]; [done|lia|]. nia. }
  assert (Hstored : forall df df' start duration finish ss ds i x d,
            derives df df' start duration finish ->
            getitem df "Start" = Ok (SObject ss) ->
            getitem df "Duration" = Ok (SInt64 ds) ->
            ss !! i = Some x -> ds !! i = Some d ->
            exists s f,
              start !! i = Some s /\ finish !! i = Some f /\
              (x = PNone -> s = NaT /\ f = NaT) /\
              (x <> PNone ->
                 s <> NaT /\
                 (d <> int64_min -> f = s + d * NS_PER_DAY) /\
                 (1 <= d -> s < f /\ f <> NaT) /\
                 (0 <= d -> s <= f))).
  { intros df df' start duration finish ss ds i x d D Gs Gd Hx Hd.
    destruct (derives_stored_row _ _ _ _ _ _ _ _ _ _ D Gs Gd Hx Hd)
      as (_ & _ & s & f & Hs & Hf & _ & R & Hm & Hnat & Hval).
    exists s, f. split_and!; try done.
    - intros ->. assert (s = NaT) as -> by (by apply Hm). split; [done|]. auto.
    - intros Hx'.
      assert (Hs' : s <> NaT) by (intros E; by apply Hx', Hm).
      assert (N : 0 < NS_PER_DAY) by done.
      unfold in_int64 in R. apply andb_true_iff in R as [R1 _]. apply Z.leb_le in R1.
      split_and!; try done.
      + intros Hd'. by destruct (Hval Hs' Hd').
      + intros Hd'. destruct (Hval Hs') as [-> _]; unfold NaT, int64_min in *; [lia|].
        split; nia.
      + intros Hd'. destruct (Hval Hs') as [-> _]; unfold NaT, int64_min in *; [lia|].
        nia. }
  split.
  - intros σ r r' σ' df ss ds H Hr Gs Gd.
    apply add_finish_column_derives in H
      as (df0 & df' & start & duration & finish & Hr0 & Hr' & _ & _ & D).
    assert (df0 = df) as -> by congruence.
    assert (duration = ds /\ length ss = len df) as [-> Lss].
    { destruct (derives_source_duration _ _ _ _ _ D) as (d0 & G0 & A).
      rewrite Gd in G0. injection G0 as <-. simpl in A. injection A as <-.
      split; [done|].
      destruct (derives_source_start _ _ _ _ _ D) as (s0 & G0 & T).
      rewrite Gs in G0. injection G0 as <-. simpl in T.
      destruct (traverse obj_to_datetime ss) as [ts| |] eqn:E; simpl in T; try done.
      injection T as ->. destruct (traverse_lookup _ _ _ E) as (Lts & _).
      rewrite <- Lts. apply D. }
    exists df', start, finish.
    split_and!; try apply D; try done.
    intros i x d. by apply (Hstored df df' start ds finish).
  - intros seed [σ r] r' σ' Hseed Hreach H. simpl in H.
    destruct (reachable_ok _ _ Hseed Hreach) as (df0 & Hr0 & ds & G & All).
    simpl in Hr0.
    apply add_finish_column_derives in H
      as (df & df' & start & duration & finish & Hr & Hr' & _ & _ & D).
    assert (df0 = df) as -> by congruence.
    destruct (derives_source_duration _ _ _ _ _ D) as (d0 & G0 & A).
    rewrite G in G0. inversion G0; subst d0. simpl in A. inversion A; subst ds.
    exists df, duration, df', start, finish.
    split_and!; try apply D; try done.
    + intros i s Hs Hs'.
      assert (is_Some (duration !! i)) as [d Hd].
      { apply lookup_lt_is_Some.
        rewrite (derives_len_duration _ _ _ _ _ D),
          <- (derives_len_start _ _ _ _ _ D).
        by apply lookup_lt_Some in Hs. }
      destruct (Hrow _ _ _ _ _ i s d D Hs Hd Hs') as (f & Hf & H1 & _).
      exists f. split; [done|]. apply H1.
      rewrite Forall_forall in All. apply All.
      apply list_elem_of_lookup. eauto.
    + intros ss i x Gs Hx Hx'.
      assert (is_Some (duration !! i)) as [d Hd].
      { apply lookup_lt_is_Some. rewrite (derives_len_duration _ _ _ _ _ D).
        destruct (derives_source_start _ _ _ _ _ D) as (s0 & G1 & T).
        rewrite Gs in G1. injection G1 as <-. simpl in T.
        destruct (traverse obj_to_datetime ss) as [ts| |] eqn:E; simpl in T; try done.
        injection T as ->. destruct (traverse_lookup _ _ _ E) as (Lts & _).
        rewrite <- (derives_len_start _ _ _ _ _ D), Lts.
        by apply lookup_lt_Some in Hx. }
      destruct (Hstored _ _ _ _ _ _ _ i x d D Gs G Hx Hd)
        as (s & f & Hs & Hf & _ & Hp).
      destruct (Hp Hx') as (Hs' & _ & H1 & _).
      exists s, f. split_and!; try done. apply H1.
      rewrite Forall_forall in All. apply All.
      apply list_elem_of_lookup. eauto.
Qed.

Lemma finish_after_start_witness :
  let added := add_task O "Test" (Date 2024 2 1) 3 "C" [scenario] in
  let out := add_finish_column 2%nat (snd added) in
  exists df ds df' start finish,
    snd added !! 2%nat = Some df /\
    getitem df "Duration" = Ok (SInt64 ds) /\
    Forall (fun d => 1 <= d) ds /\
    snd out !! 3%nat = Some df' /\ len df' = len df /\
    getitem df' "Start" = Ok (SDatetime start) /\
    getitem df' "Duration" = Ok (SInt64 ds) /\
    getitem df' "Finish" = Ok (SDatetime finish) /\
    length ds = len df /\ length start = len df /\ length finish = len df /\
    (forall i s, start !! i = Some s -> s <> NaT ->
       exists f, finish !! i = Some f /\ s < f) /\
    (forall ss i x,
       getitem df "Start" = Ok (SObject ss) -> ss !! i = Some x -> x <> PNone ->
       exists s f, start !! i = Some s /\ finish !! i = Some f /\
                   s <> NaT /\ s < f).
Proof.
  intros added out.
  apply (proj2 finish_after_start scenario (snd added, 2%nat) 3%nat (snd out)).
  - exists [5; 10]. split; [vm_compute; reflexivity|].
    repeat constructor; lia.
  - apply rtc_once.
    apply (step_add scenario [scenario] O "Test" (Date 2024 2 1) 3 "C" 2%nat (snd added));
      [lia|vm_compute; reflexivity].
  - vm_compute. reflexivity.
Defined.

(** ** Counting resources *)

Lemma stats_pass_ok σ r st σ' :
  stats_pass r σ = (Ok st, σ') ->
  exists df df' start duration finish,
    σ !! r = Some df /\ derives df df' start duration finish /\
    stats_frame df' = Ok st.
Proof.
  unfold stats_pass. rewrite bind_eq.
  destruct (add_finish_column r σ) as [[r'| |] σ1] eqn:H; try done.
  apply add_finish_column_derives in H
    as (df & df' & start & duration & finish & Hr & Hr' & _ & _ & D).
  rewrite (calculate_stats_run _ _ _ Hr'). intros [= S _].
  exists df, df', start, duration, finish. done.
Qed.

Lemma stats_frame_resources df st :
  stats_frame df = Ok st ->
  exists w, getitem df "Resource" = Ok w /\ nunique w = Ok (resources st).
Proof.
  unfold stats_frame. intros H.
  destruct (getitem df "Duration") as [d| |]; simpl in H; try done.
  destruct (series_sum d) as [t| |]; simpl in H; try done.
  destruct (getitem df "Resource") as [w| |]; simpl in H; try done.
  destruct (nunique w) as [k| |] eqn:N; simpl in H; try done.
  destruct (getitem df "Start") as [s| |]; simpl in H; try done.
  destruct (series_min s) as [e| |]; simpl in H; try done.
  destruct (getitem df "Finish") as [f| |]; simpl in H; try done.
  destruct (series_max f) as [l| |]; simpl in H; try done.
  inversion H; subst. simpl. eauto.
Qed.

Lemma remove_dups_length_snoc (l : list pyobj) (x : pyobj) :
  length (remove_dups (l ++ [x]))
  = if decide (x ∈ l) then length (remove_dups l) else S (length (remove_dups l)).
Proof.
  destruct (decide (x ∈ l)) as [Hin|Hnin].
  - apply Permutation_length. apply NoDup_Permutation; try apply NoDup_remove_dups.
    intros y. rewrite !elem_of_remove_dups, elem_of_app, list_elem_of_singleton.
    split; [intros [?| ->]; done|auto].
  - change (S (length (remove_dups l))) with (length (x :: remove_dups l)).
    apply Permutation_length. apply NoDup_Permutation.
    + apply NoDup_remove_dups.
    + constructor; [by rewrite elem_of_remove_dups|apply NoDup_remove_dups].
    + intros y. rewrite elem_of_cons, !elem_of_remove_dups, elem_of_app,
        list_elem_of_singleton. tauto.
Qed.

Lemma filter_notna_elem x xs : x <> PNone -> x ∈ List.filter notna xs <-> x ∈ xs.
Proof.
  intros Hx. rewrite !list_elem_of_In, filter_In, notna_spec. tauto.
Qed.

(** Appending a value that is present to an object column. *)
Lemma nunique_snoc xs w n :
  nunique (SObject xs) = Ok n ->
  nunique (SObject (xs ++ [PStr w]))
  = Ok (if decide (PStr w ∈ xs) then n else S n).
Proof.
  simpl. intros [= <-]. f_equal.
  rewrite List.filter_app. simpl.
  rewrite remove_dups_length_snoc.
  destruct (decide (PStr w ∈ List.filter notna xs)) as [H|H];
    rewrite filter_notna_elem in H by done;
    destruct (decide (PStr w ∈ xs)); done.
Qed.

(** C8. After the add-task handler has appended a row, the count of
    distinct resources is what it was when the resource of the new row
    already occurred in the table, and one more when it did not. *)
Theorem resource_count_after_add
    σ r df new_task new_start new_duration new_resource r1 σ1 st st1 σa σb :
  σ !! r = Some df ->
  add_task r new_task new_start new_duration new_resource σ = (Ok r1, σ1) ->
  stats_pass r σ = (Ok st, σa) ->
  stats_pass r1 σ1 = (Ok st1, σb) ->
  exists resource,
    getitem df "Resource" = Ok (SObject resource) /\
    (PStr new_resource ∈ resource -> resources st1 = resources st) /\
    (PStr new_resource ∉ resource -> resources st1 = S (resources st)).
Proof.
  intros Hr Hadd Hst Hst1.
  destruct (add_task_ok _ _ _ _ _ _ _ _ _ Hr Hadd) as (c & Hc & C).
  apply stats_pass_ok in Hst as (df0 & df' & s & d & f & Hr0 & D & S).
  assert (df0 = df) as -> by congruence.
  apply stats_pass_ok in Hst1 as (c0 & c' & s1 & d1 & f1 & Hc0 & D1 & S1).
  assert (c0 = c) as -> by congruence.
  apply stats_frame_resources in S as (w & G & N).
  apply stats_frame_resources in S1 as (w1 & G1 & N1).
  rewrite (derives_other _ _ _ _ _ D) in G by discriminate.
  rewrite (derives_other _ _ _ _ _ D1) in G1 by discriminate.
  destruct (append_task_column _ _ _ _ _ _ _ _ C G) as (sb & s' & Lb & A & Gc).
  vm_compute in Lb. inversion Lb; subst sb.
  rewrite Gc in G1. inversion G1; subst w1.
  destruct w as [resource| | | |]; simpl in A; try done.
  inversion A; subst s'.
  exists resource. split; [done|].
  rewrite (nunique_snoc _ _ _ N) in N1.
  destruct (decide (PStr new_resource ∈ resource)); inversion N1; split; done.
Qed.

Lemma resource_count_after_add_witness :
  let added := add_task O "Test" (Date 2024 2 1) 3 "C" [scenario] in
  let before := stats_pass O [scenario] in
  let after := stats_pass 2%nat (snd added) in
  exists resource,
    getitem scenario "Resource" = Ok (SObject resource) /\
    (PStr "C" ∈ resource ->
     resources {| total_tasks := 3; total_days := 18; resources := 3;
                  earliest := 1704067200000000000; latest := 1707004800000000000 |}
     = resources {| total_tasks := 2; total_days := 15; resources := 2;
                    earliest := 1704067200000000000; latest := 1705363200000000000 |}) /\
    (PStr "C" ∉ resource ->
     resources {| total_tasks := 3; total_days := 18; resources := 3;
                  earliest := 1704067200000000000; latest := 1707004800000000000 |}
     = S (resources {| total_tasks := 2; total_days := 15; resources := 2;
                       earliest := 1704067200000000000; latest := 1705363200000000000 |})).
Proof.
  intros added before after.
  apply (resource_count_after_add [scenario] O scenario "Test" (Date 2024 2 1) 3 "C"
           2%nat (snd added) _ _ (snd before) (snd after));
    vm_compute; reflexivity.
Defined.

(** ** Coercion of durations *)

Lemma traverse_map_inv {A B} (f : A -> outcome B) (g : A -> B) l l' :
  (forall x y, f x = Ok y -> y = g x) ->
  traverse f l = Ok l' -> l' = map g l.
Proof.
  intros Hfg. revert l'. induction l as [|a l IH]; intros l' H; simpl in H.
  - by inversion H.
  - destruct (f a) as [b| |] eqn:Hfa; simpl in H; try discriminate.
    destruct (traverse f l) as [bs| |] eqn:Hl; simpl in H; try discriminate.
    inversion H; subst. simpl. f_equal; [by apply Hfg|by apply IH].
Qed.

Lemma traverse_not_ok {A B} (f : A -> outcome B) l x :
  x ∈ l -> (forall y, f x <> Ok y) -> forall l', traverse f l <> Ok l'.
Proof.
  intros Hin Hx l' H. apply list_elem_of_lookup in Hin as [i Hi].
  destruct (traverse_lookup _ _ _ H) as [_ Hall].
  destruct (Hall i x Hi) as (y & _ & Hy). by apply (Hx y).
Qed.

(** [float_trunc] drops the fraction: its magnitude is the integer part of
    the magnitude of the float, its sign the sign of the float. *)
Lemma float_trunc_spec sgn m e :
  let z := float_trunc (S754_finite sgn m e) in
  (if sgn then z <= 0 else 0 <= z) /\
  (0 <= e -> Z.abs z = Zpos m * 2 ^ e) /\
  (e < 0 -> Z.abs z * 2 ^ (- e) <= Zpos m < (Z.abs z + 1) * 2 ^ (- e)).
Proof.
  cbv zeta. unfold float_trunc.
  destruct (0 <=? e) eqn:E.
  - apply Z.leb_le in E.
    assert (0 < 2 ^ e) by (by apply Z.pow_pos_nonneg).
    destruct sgn; split_and!; try lia.
  - apply Z.leb_gt in E.
    assert (P : 0 < 2 ^ (- e)) by (apply Z.pow_pos_nonneg; lia).
    pose proof (Z.mul_div_le (Zpos m) (2 ^ (- e)) P) as L.
    pose proof (Z.mul_succ_div_gt (Zpos m) (2 ^ (- e)) P) as U.
    assert (0 <= Z.pos m / 2 ^ (- e)) by (apply Z.div_pos; lia).
    destruct sgn; split_and!; try lia; intros _;
      rewrite ?Z.abs_opp, Z.abs_eq by done; unfold Z.succ in U; lia.
Qed.

Lemma float_to_int64_inv x z : float_to_int64 x = Ok z -> z = float_trunc x.
Proof. unfold float_to_int64. destruct (in_int64 _); by intros [= <-]. Qed.

Lemma astype_int_float_inv floats s :
  astype_int (SFloat64 floats) = Ok s ->
  s = SInt64 (map float_trunc floats) /\ forallb float_is_finite floats = true.
Proof.
  simpl. destruct (forallb float_is_finite floats); [|done].
  destruct (traverse float_to_int64 floats) as [zs| |] eqn:T; simpl; try done.
  intros [= <-]. split; [|done]. f_equal.
  eapply traverse_map_inv; [|exact T]. apply float_to_int64_inv.
Qed.

Lemma forallb_elem_false {A} (p : A -> bool) l x :
  x ∈ l -> p x = false -> forallb p l = false.
Proof.
  intros Hin Hp. destruct (forallb p l) eqn:F; [|done].
  rewrite forallb_forall in F. apply list_elem_of_In in Hin.
  specialize (F x Hin). congruence.
Qed.

(** A failing conversion of the Duration column fails the derive step. *)
Lemma derive_raises_on_duration σ r df s0 s1 d0 e :
  σ !! r = Some df ->
  getitem df "Start" = Ok s0 -> to_datetime s0 = Ok s1 -> series_len s0 = len df ->
  getitem df "Duration" = Ok d0 -> astype_int d0 = Raise e ->
  fst (add_finish_column r σ) = Raise e.
Proof.
  intros Hr G0 T0 L0 G1 A.
  destruct (add_finish_column_run σ r df Hr) as (tmp & -> & _). simpl.
  unfold finish_frame. rewrite G0. cbn [obind]. rewrite T0. cbn [obind].
  destruct (to_datetime_inv _ _ T0) as (start & -> & Ls).
  destruct (getitem_inv _ _ _ G0) as (_ & C0 & Hne).
  assert (S1 : setitem df "Start" (SDatetime start)
               = Ok (frame_replace "Start" (SDatetime start) df)).
  { unfold setitem. destruct df as [|c df]; [done|].
    simpl series_len. rewrite Ls, L0, Nat.eqb_refl.
    apply Nat.leb_le in C0. by rewrite C0. }
  rewrite S1. cbn [obind].
  rewrite getitem_replace_ne by (done || discriminate).
  rewrite G1. cbn [obind]. rewrite A. done.
Qed.

(** C10. The derive step converts the Duration column with [astype(int)].
    A float column without NaN or infinity is accepted and every value is
    cut to its integer part, towards zero, Finish being computed from the
    cut value. A column with a value that [astype(int)] cannot convert (NaN
    or an infinity among floats; None, a date or text that is no integer
    literal among objects) makes the derive step raise: no frame is
    returned. *)
Theorem duration_coerced_to_integer :
  (forall σ r df floats r' σ',
     σ !! r = Some df ->
     getitem df "Duration" = Ok (SFloat64 floats) ->
     add_finish_column r σ = (Ok r', σ') ->
     exists df' start finish,
       σ' !! r' = Some df' /\
       getitem df' "Start" = Ok (SDatetime start) /\
       getitem df' "Duration" = Ok (SInt64 (map float_trunc floats)) /\
       getitem df' "Finish" = Ok (SDatetime finish) /\
       forall i s x, start !! i = Some s -> floats !! i = Some x ->
         s <> NaT -> float_trunc x <> int64_min ->
         finish !! i = Some (s + float_trunc x * NS_PER_DAY)) /\
  (forall sgn m e,
     let z := float_trunc (S754_finite sgn m e) in
     (if sgn then z <= 0 else 0 <= z) /\
     (0 <= e -> Z.abs z = Zpos m * 2 ^ e) /\
     (e < 0 -> Z.abs z * 2 ^ (- e) <= Zpos m < (Z.abs z + 1) * 2 ^ (- e))) /\
  (forall σ r df d0 e,
     σ !! r = Some df ->
     getitem df "Duration" = Ok d0 -> astype_int d0 = Raise e ->
     (forall r', fst (add_finish_column r σ) <> Ok r') /\
     (forall s0 s1,
        getitem df "Start" = Ok s0 -> to_datetime s0 = Ok s1 ->
        series_len s0 = len df ->
        fst (add_finish_column r σ) = Raise e)) /\
  (forall floats x,
     x ∈ floats -> float_is_finite x = false ->
     astype_int (SFloat64 floats) = Raise IntCastingNaNError) /\
  (forall xs x,
     x ∈ xs ->
     x = PNone \/ (exists d, x = PDate d) \/
     (exists s, x = PStr s /\ is_ascii_string s = true /\
                (String.length s <= 4300)%nat /\ int_literal s = None) ->
     exists e, py_int x = Raise e /\ forall zs, astype_int (SObject xs) <> Ok zs).
Proof.
  split_and!.
  - intros σ r df floats r' σ' Hr G H.
    apply add_finish_column_derives in H
      as (df0 & df' & start & duration & finish & Hr0 & Hr' & _ & _ & D).
    assert (df0 = df) as -> by congruence.
    destruct (derives_source_duration _ _ _ _ _ D) as (d0 & G0 & A).
    rewrite G in G0. inversion G0; subst d0.
    apply astype_int_float_inv in A as [[= ->] _].
    exists df', start, finish. split_and!; try apply D; try done.
    intros i s x Hs Hx Hs' Hz.
    destruct (derives_row _ _ _ _ _ i s (float_trunc x) D Hs) as (f & Hf & Hp & _).
    { by rewrite list_lookup_fmap, Hx. }
    destruct (Hp Hs' Hz) as [-> _]. done.
  - apply float_trunc_spec.
  - intros σ r df d0 e Hr G A. split.
    + intros r' H.
      destruct (add_finish_column r σ) as [o σ'] eqn:R. simpl in H. subst o.
      apply add_finish_column_derives in R
        as (df0 & df' & start & duration & finish & Hr0 & _ & _ & _ & D).
      assert (df0 = df) as -> by congruence.
      destruct (derives_source_duration _ _ _ _ _ D) as (d1 & G1 & A1).
      congruence.
    + intros s0 s1 G0 T0 L0. by eapply derive_raises_on_duration.
  - intros floats x Hin Hx. simpl.
    by rewrite (forallb_elem_false _ _ _ Hin Hx).
  - intros xs x Hin Hx.
    assert (exists e, py_int x = Raise e) as [e He].
    { destruct Hx as [->|[[d ->]|(s & -> & Ha & Hl & Hi)]]; simpl; eauto.
      apply Nat.leb_le in Hl. rewrite Ha, Hl, Hi. simpl. eauto. }
    exists e. split; [done|]. intros zs H. simpl in H.
    destruct (traverse py_int xs) as [l| |] eqn:T; try done.
    eapply (traverse_not_ok py_int xs x); [done| |exact T].
    intros y. by rewrite He.
Qed.

Lemma duration_coerced_to_integer_witness :
  let out := add_finish_column O [fractional] in
  exists df' start finish,
    snd out !! 1%nat = Some df' /\
    getitem df' "Start" = Ok (SDatetime start) /\
    getitem df' "Duration"
    = Ok (SInt64 (map float_trunc [S754_finite false 5 (-1); S754_finite true 27 (-3)])) /\
    getitem df' "Finish" = Ok (SDatetime finish) /\
    forall i s x, start !! i = Some s ->
      [S754_finite false 5 (-1); S754_finite true 27 (-3)] !! i = Some x ->
      s <> NaT -> float_trunc x <> int64_min ->
      finish !! i = Some (s + float_trunc x * NS_PER_DAY).
Proof.
  intros out.
  apply (proj1 duration_coerced_to_integer [fractional] O fractional
           [S754_finite false 5 (-1); S754_finite true 27 (-3)] 1%nat (snd out));
    vm_compute; reflexivity.
Defined.

(** ** Writing and reading delimited text *)

Lemma append_cons c (s t : string) : (String c s +:+ t)%string = String c (s +:+ t).
Proof. reflexivity. Qed.

Lemma append_nil (t : string) : (EmptyString +:+ t)%string = t.
Proof. reflexivity. Qed.

Ltac sapp := rewrite ?append_cons, ?append_nil.

Lemma append_assoc (a b c : string) : ((a +:+ b) +:+ c = a +:+ (b +:+ c))%string.
Proof. induction a as [|x a IH]; sapp; [done|]. f_equal. exact IH. Qed.

Lemma append_empty_r (s : string) : (s +:+ EmptyString)%string = s.
Proof. induction s as [|c s IH]; sapp; [done|]. f_equal. exact IH. Qed.

Lemma prepend_head s f r rs :
  prepend s ((f :: r) :: rs) = ((s +:+ f)%string :: r) :: rs.
Proof. induction s as [|c s IH]; sapp; simpl; [done|]. by rewrite IH. Qed.

Lemma reader_ordinary m c s :
  ordinary c = true -> m <> InQuoted ->
  reader m (String c s) = add_char c (reader InField s).
Proof.
  unfold ordinary. intros H Hm.
  repeat (apply andb_true_iff in H as [H ?]).
  repeat match goal with
         | H : negb _ = true |- _ => apply negb_true_iff in H
         end.
  destruct m; simpl; repeat match goal with H : _ = false |- _ => rewrite H end;
    done.
Qed.

Lemma bare_char_ordinary q c :
  special q c = false -> q || negb (Ascii.eqb c CR) = true -> ordinary c = true.
Proof.
  unfold special, ordinary. intros H Hq.
  repeat (apply orb_false_iff in H as [H ?]).
  repeat match goal with H : _ = false |- _ => rewrite H end. simpl.
  destruct q; simpl in *; [|by rewrite Hq].
  match goal with H : Ascii.eqb c CR = false |- _ => by rewrite H end.
Qed.

Lemma field_ok_cons q c s :
  field_ok q (String c s) = true ->
  q || negb (Ascii.eqb c CR) = true /\ field_ok q s = true.
Proof.
  unfold field_ok. destruct q; simpl; [done|]. intros H.
  by apply andb_true_iff in H.
Qed.

(** A bare field, read in the middle of a field. *)
Lemma reader_bare q s rest :
  has_special q s = false -> field_ok q s = true ->
  reader InField (s +:+ rest) = prepend s (reader InField rest).
Proof.
  induction s as [|c s IH]; intros H Hq; sapp; [done|].
  simpl in H. apply orb_false_iff in H as [Hc Hs].
  apply field_ok_cons in Hq as [Hq1 Hq2].
  rewrite (reader_ordinary InField c) by (done || by eapply bare_char_ordinary).
  simpl. by rewrite IH.
Qed.

(** A bare field that is not empty, read from where a field may start. *)
Lemma reader_bare_start q m c s rest :
  m <> InQuoted ->
  has_special q (String c s) = false -> field_ok q (String c s) = true ->
  reader m (String c s +:+ rest) = prepend (String c s) (reader InField rest).
Proof.
  intros Hm H Hq. sapp.
  simpl in H. apply orb_false_iff in H as [Hc Hs].
  apply field_ok_cons in Hq as [Hq1 Hq2].
  rewrite (reader_ordinary m c) by (done || by eapply bare_char_ordinary).
  simpl. by rewrite (reader_bare q).
Qed.

(** The inside of a quoted field, up to its closing quote. *)
Lemma reader_quoted s rest :
  reader InQuoted (double_quotes s +:+ String dquote rest)
  = prepend s (reader QuoteSeen rest).
Proof.
  induction s as [|c s IH]; simpl double_quotes; sapp.
  - done.
  - destruct (Ascii.eqb c dquote) eqn:E; sapp.
    + apply Ascii.eqb_eq in E; subst c. simpl. by rewrite IH.
    + simpl. rewrite E. by rewrite IH.
Qed.

(** One written field followed by [rest], read from a field start. *)
Lemma reader_field q m f rest :
  field_start m -> field_ok q f = true ->
  reader m (write_field q f +:+ rest) =
  if has_special q f then prepend f (reader QuoteSeen rest)
  else match f with
       | EmptyString => reader m rest
       | _ => prepend f (reader InField rest)
       end.
Proof.
  intros Hm Hq. unfold write_field.
  destruct (has_special q f) eqn:S.
  - sapp. rewrite append_assoc. sapp.
    destruct Hm as [-> | ->]; simpl; apply reader_quoted.
  - destruct f as [|c f]; [done|].
    apply (reader_bare_start q); [|done|done].
    destruct Hm as [-> | ->]; done.
Qed.

Lemma reader_after_field_comma m rest :
  m <> InQuoted -> m <> AfterCR ->
  reader m (String comma rest) = open_field (reader FieldStart rest).
Proof. destruct m; done. Qed.

Lemma reader_after_field_lf m rest :
  m = FieldStart \/ m = InField \/ m = QuoteSeen ->
  reader m (String LF rest) = [EmptyString] :: reader RecordStart rest.
Proof. intros [->|[->| ->]]; done. Qed.

(** The fields of one record, up to the end of the line. *)
Lemma reader_fields q m fs rest :
  field_start m -> fs <> [] -> (m = RecordStart -> fs <> [EmptyString]) ->
  record_ok q fs = true ->
  reader m (join_fields q fs +:+ String LF rest) = fs :: reader RecordStart rest.
Proof.
  revert m. induction fs as [|f fs IH]; intros m Hm Hne Hsingle Hok; [done|].
  unfold record_ok in Hok. simpl in Hok. apply andb_true_iff in Hok as [Hf Hfs].
  destruct fs as [|g fs].
  - simpl join_fields. rewrite (reader_field q m f) by done.
    destruct (has_special q f).
    + rewrite reader_after_field_lf by auto.
      by rewrite prepend_head, append_empty_r.
    + destruct f as [|c f].
      * destruct Hm as [-> | ->]; [by destruct Hsingle|done].
      * rewrite reader_after_field_lf by auto.
        by rewrite prepend_head, append_empty_r.
  - change (join_fields q (f :: g :: fs))
      with (write_field q f +:+ String comma (join_fields q (g :: fs)))%string.
    rewrite append_assoc. sapp.
    rewrite (reader_field q m f) by done.
    assert (R : reader FieldStart (join_fields q (g :: fs) +:+ String LF rest)
                = (g :: fs) :: reader RecordStart rest).
    { apply IH; [by right|done|done|done]. }
    destruct (has_special q f).
    + rewrite reader_after_field_comma by done. rewrite R. simpl open_field.
      by rewrite prepend_head, append_empty_r.
    + destruct f as [|c f].
      * rewrite reader_after_field_comma by (destruct Hm as [-> | ->]; done).
        by rewrite R.
      * rewrite reader_after_field_comma by done. rewrite R. simpl open_field.
        by rewrite prepend_head, append_empty_r.
Qed.

Lemma reader_record q fs rest :
  record_ok q fs = true ->
  reader RecordStart (write_record q fs +:+ rest) = fs :: reader RecordStart rest.
Proof.
  intros Hok.
  destruct (decide (fs = [])) as [->|Hne]; [done|].
  destruct (decide (fs = [EmptyString])) as [->|Hs]; [done|].
  assert (W : write_record q fs = (join_fields q fs +:+ String LF EmptyString)%string).
  { unfold write_record. destruct fs as [|[|c f] [|g fs]]; done. }
  rewrite W, append_assoc. sapp.
  apply (reader_fields q); [by left|done|done|done].
Qed.

(** What [csv.writer] writes, [csv.reader] reads: record for record. *)
Lemma reader_write_records q rs :
  forallb (record_ok q) rs = true ->
  reader RecordStart (write_records q rs) = rs.
Proof.
  induction rs as [|r rs IH]; simpl; intros Hok; [done|].
  apply andb_true_iff in Hok as [Hr Hrs].
  rewrite (reader_record q) by done. by rewrite IH.
Qed.

(** ** Dates and integers as text *)

Lemma digit_char_code n : nat_of_ascii (digit_char n) = (48 + Z.to_nat (n mod 10))%nat.
Proof.
  unfold digit_char. apply nat_ascii_embedding.
  assert (0 <= n mod 10 < 10) by (apply Z.mod_pos_bound; lia). lia.
Qed.

Lemma is_digit_digit_char n : is_digit (digit_char n) = true.
Proof.
  unfold is_digit. rewrite digit_char_code.
  assert (0 <= n mod 10 < 10) by (apply Z.mod_pos_bound; lia).
  apply andb_true_iff. split; apply Nat.leb_le; lia.
Qed.

Lemma digit_value_digit_char n : digit_value (digit_char n) = n mod 10.
Proof.
  unfold digit_value. rewrite digit_char_code.
  assert (0 <= n mod 10 < 10) by (apply Z.mod_pos_bound; lia). lia.
Qed.

Lemma isoformat_chars d :
  isoformat d =
  String (digit_char (year d / 10 / 10 / 10)) (String (digit_char (year d / 10 / 10))
    (String (digit_char (year d / 10)) (String (digit_char (year d))
      (String "-"%char
        (String (digit_char (month d / 10)) (String (digit_char (month d))
          (String "-"%char
            (String (digit_char (day d / 10)) (String (digit_char (day d))
              EmptyString))))))))).
Proof. reflexivity. Qed.

Lemma iso_shape_isoformat d : iso_shape (isoformat d) = true.
Proof.
  rewrite isoformat_chars. unfold iso_shape.
  rewrite !is_digit_digit_char. reflexivity.
Qed.

Lemma parse_iso_chars a b c d e f g h :
  parse_iso_date
    (String a (String b (String c (String d (String "-"%char
      (String e (String f (String "-"%char (String g (String h EmptyString))))))))))
  = match digits_value 0 (String a (String b (String c (String d EmptyString)))),
          digits_value 0 (String e (String f EmptyString)),
          digits_value 0 (String g (String h EmptyString)) with
    | Some y, Some m, Some d =>
        if valid_date (Date y m d) then Some (Date y m d) else None
    | _, _, _ => None
    end.
Proof. reflexivity. Qed.

(** The text of a date of the calendar reads back as that date. *)
Lemma parse_iso_isoformat d :
  valid_date d = true -> parse_iso_date (isoformat d) = Some d.
Proof.
  intros V. destruct (valid_date_bounds d V) as (Hy & Hm & Hd).
  rewrite isoformat_chars, parse_iso_chars.
  cbn [digits_value]. rewrite !is_digit_digit_char, !digit_value_digit_char.
  destruct d as [y m dd]. simpl in *.
  replace ((((0 * 10 + (y / 10 / 10 / 10) mod 10) * 10 + (y / 10 / 10) mod 10) * 10
            + (y / 10) mod 10) * 10 + y mod 10) with y
    by (Z.div_mod_to_equations; lia).
  replace ((0 * 10 + (m / 10) mod 10) * 10 + m mod 10) with m
    by (Z.div_mod_to_equations; lia).
  replace ((0 * 10 + (dd / 10) mod 10) * 10 + dd mod 10) with dd
    by (Z.div_mod_to_equations; lia).
  by rewrite V.
Qed.

Lemma plain_char q c :
  plain c = true -> special q c = false /\ Ascii.eqb c CR = false.
Proof.
  unfold plain, special, is_digit. intros H.
  destruct (Ascii.eqb c "-") eqn:E.
  - apply Ascii.eqb_eq in E. subst c. by destruct q.
  - rewrite orb_false_r in H. apply andb_true_iff in H as [H1 H2].
    apply Nat.leb_le in H1, H2.
    assert (N : forall k, (k < 48)%nat -> Ascii.eqb c (ascii_of_nat k) = false).
    { intros k Hk. apply Ascii.eqb_neq. intros ->.
      rewrite nat_ascii_embedding in H1 by lia. lia. }
    unfold comma, dquote, LF, CR.
    change ","%char with (ascii_of_nat 44).
    rewrite !N by lia. by destruct q.
Qed.

Lemma all_plain_safe q s :
  all_plain s = true -> has_special q s = false /\ cr_free s = true.
Proof.
  induction s as [|c s IH]; simpl; [done|]. intros H.
  apply andb_true_iff in H as [Hc Hs].
  destruct (plain_char q c Hc) as [-> ->]. simpl. by apply IH.
Qed.

Lemma all_plain_isoformat d : all_plain (isoformat d) = true.
Proof.
  rewrite isoformat_chars. cbn [all_plain]. unfold plain.
  rewrite !is_digit_digit_char. reflexivity.
Qed.

Lemma all_plain_uint d : all_plain (NilEmpty.string_of_uint d) = true.
Proof. induction d; simpl; done. Qed.

Lemma all_plain_Z_to_string z : all_plain (Z_to_string z) = true.
Proof.
  unfold Z_to_string, NilZero.string_of_int, NilZero.string_of_uint.
  destruct (Z.to_int z) as [d|d]; destruct d; simpl; try done;
    apply all_plain_uint.
Qed.


Lemma substring_all (s : string) : substring 0 (String.length s) s = s.
Proof. induction s as [|c s IH]; simpl; [done|]. by rewrite IH. Qed.

Lemma prefix_cons a s t : String.prefix (String a s) (String a t) = String.prefix s t.
Proof. simpl. destruct (ascii_dec a a); [done|congruence]. Qed.

Lemma prefix_bom_encode text : String.prefix BOM (encode_utf8_sig text) = true.
Proof.
  unfold encode_utf8_sig, BOM. sapp. rewrite !prefix_cons. by destruct text.
Qed.

Lemma strip_bom_encode text : strip_bom (encode_utf8_sig text) = text.
Proof.
  unfold strip_bom. rewrite prefix_bom_encode.
  unfold encode_utf8_sig, BOM. sapp.
  replace (String.length _ - 3)%nat with (String.length text) by (simpl; lia).
  cbn [substring]. apply substring_all.
Qed.

(** ** The export of a derived frame *)

Lemma csv_pass_ok q σ r payload σ' :
  csv_pass q r σ = (Ok payload, σ') ->
  exists df df' start duration finish text,
    σ !! r = Some df /\ derives df df' start duration finish /\
    to_csv q df' = Ok text /\ payload = encode_utf8_sig text.
Proof.
  unfold csv_pass. rewrite bind_eq.
  destruct (add_finish_column r σ) as [[r'| |] σ1] eqn:H; try done.
  apply add_finish_column_derives in H
    as (df & df' & start & duration & finish & Hr & Hr' & _ & _ & D).
  unfold convert_df_to_csv. rewrite bind_eq, (load_run _ _ _ Hr').
  rewrite bind_eq. unfold lift, ret.
  destruct (to_csv q df') as [text| |] eqn:T; try done.
  intros [= <- _]. exists df, df', start, duration, finish, text. done.
Qed.

Lemma to_csv_inv q df text :
  to_csv q df = Ok text ->
  exists cols,
    traverse (fun c => format_series (snd c)) df = Ok cols /\
    text = write_records q (columns df :: rows_of EmptyString (len df) cols).
Proof.
  unfold to_csv. destruct df as [|c df]; [done|].
  destruct (traverse _ (c :: df)) as [cols| |]; simpl; try done.
  intros [= <-]. eauto.
Qed.

Lemma record_ok_quoting fs : record_ok true fs = true.
Proof. unfold record_ok. by induction fs. Qed.

Lemma record_ok_cr_free q fs : forallb cr_free fs = true -> record_ok q fs = true.
Proof.
  unfold record_ok, field_ok. induction fs as [|f fs IH]; simpl; [done|].
  intros H. apply andb_true_iff in H as [-> H]. rewrite orb_true_r. by apply IH.
Qed.

Lemma cr_free_plain s : all_plain s = true -> cr_free s = true.
Proof. intros H. by destruct (all_plain_safe true s H). Qed.

Lemma format_timestamp_cr_free t : cr_free (format_timestamp t) = true.
Proof.
  unfold format_timestamp. destruct (is_NaT t); [done|].
  apply cr_free_plain, all_plain_isoformat.
Qed.

Lemma format_series_cr_free s col :
  format_series s = Ok col -> series_cr_free s = true -> forallb cr_free col = true.
Proof.
  destruct s as [xs|xs|xs|xs|xs]; simpl; intros H C.
  - revert col H. induction xs as [|x xs IH]; intros col H; simpl in H.
    + by inversion H.
    + simpl in C. apply andb_true_iff in C as [Cx Cxs].
      destruct (format_obj x) as [f| |] eqn:F; simpl in H; try done.
      destruct (traverse format_obj xs) as [fs| |] eqn:T; simpl in H; try done.
      inversion H; subst. simpl. rewrite (IH Cxs fs eq_refl), andb_true_r.
      destruct x as [s|d|]; simpl in F.
      * by inversion F; subst.
      * destruct (valid_date d); [|done]. inversion F.
        apply cr_free_plain, all_plain_isoformat.
      * by inversion F.
  - inversion H. clear. induction xs as [|x xs IH]; simpl; [done|].
    by rewrite (cr_free_plain _ (all_plain_Z_to_string x)).
  - revert col H. induction xs as [|x xs IH]; intros col H; simpl in H.
    + by inversion H.
    + destruct (float_is_nan x); simpl in H; [|done].
      match type of H with context [traverse ?f xs] =>
        destruct (traverse f xs) as [fs| |] eqn:T end; simpl in H; try done.
      inversion H; subst. simpl. by apply IH.
  - destruct (forallb _ xs); [|done]. inversion H. clear.
    induction xs as [|x xs IH]; simpl; [done|].
    by rewrite format_timestamp_cr_free.
  - done.
Qed.

Lemma frame_cr_free_replace k s df :
  frame_cr_free df = true -> cr_free k = true -> series_cr_free s = true ->
  frame_cr_free (frame_replace k s df) = true.
Proof.
  unfold frame_cr_free. intros H Hk Hs.
  induction df as [|[k' s'] df IH]; simpl in *.
  - by rewrite Hk, Hs.
  - apply andb_true_iff in H as [H1 H2]. apply andb_true_iff in H1 as [Hk' Hs'].
    destruct (String.eqb k k'); simpl.
    + by rewrite Hk', Hs, H2.
    + by rewrite Hk', Hs', IH.
Qed.

Lemma derives_cr_free df df' start duration finish :
  derives df df' start duration finish ->
  frame_cr_free df = true -> frame_cr_free df' = true.
Proof.
  intros D H. rewrite (derives_frame _ _ _ _ _ D).
  repeat apply frame_cr_free_replace; done.
Qed.

Lemma frame_cr_free_cells df cols :
  frame_cr_free df = true ->
  traverse (fun c => format_series (snd c)) df = Ok cols ->
  forallb cr_free (columns df) = true /\ Forall (fun col => forallb cr_free col = true) cols.
Proof.
  unfold frame_cr_free. revert cols.
  induction df as [|[k s] df IH]; intros cols H T; simpl in *.
  - inversion T. split; [done|constructor].
  - apply andb_true_iff in H as [H1 H2]. apply andb_true_iff in H1 as [Hk Hs].
    destruct (format_series s) as [col| |] eqn:F; simpl in T; try done.
    match type of T with context [traverse ?f df] =>
      destruct (traverse f df) as [cs| |] eqn:T' end; simpl in T; try done.
    inversion T; subst. destruct (IH cs H2 eq_refl) as [I1 I2].
    split; [by rewrite Hk, I1|].
    constructor; [by eapply format_series_cr_free|done].
Qed.

Lemma nth_cr_free col i :
  forallb cr_free col = true -> cr_free (nth i col EmptyString) = true.
Proof.
  revert i. induction col as [|c col IH]; intros [|i]; simpl; try done.
  - intros H. by apply andb_true_iff in H as [-> _].
  - intros H. apply andb_true_iff in H as [_ H]. by apply IH.
Qed.

Lemma rows_cr_free cols n :
  Forall (fun col => forallb cr_free col = true) cols ->
  forallb (forallb cr_free) (rows_of EmptyString n cols) = true.
Proof.
  intros H. unfold rows_of. apply forallb_forall. intros row Hin.
  apply in_map_iff in Hin as (i & <- & _).
  unfold row_at. induction H as [|col cols Hc _ IH]; simpl; [done|].
  by rewrite (nth_cr_free _ _ Hc), IH.
Qed.

(** The records of an export are all records that the reader reads back. *)
Lemma csv_records_ok q df cols :
  q = true \/ frame_cr_free df = true ->
  traverse (fun c => format_series (snd c)) df = Ok cols ->
  forallb (record_ok q) (columns df :: rows_of EmptyString (len df) cols) = true.
Proof.
  intros [->|H] T.
  - apply forallb_forall. intros fs _. apply record_ok_quoting.
  - destruct (frame_cr_free_cells _ _ H T) as [Hl Hc].
    simpl. rewrite (record_ok_cr_free q _ Hl). simpl.
    pose proof (rows_cr_free cols (len df) Hc) as R.
    rewrite forallb_forall in R. apply forallb_forall. intros fs Hin.
    apply record_ok_cr_free. by apply R.
Qed.

(** An export is the byte-order mark, then the record of the labels, then
    the records of the rows. *)
Lemma csv_pass_text q σ r payload σ' :
  csv_pass q r σ = (Ok payload, σ') ->
  exists df df' start duration finish cols,
    σ !! r = Some df /\ derives df df' start duration finish /\
    traverse (fun c => format_series (snd c)) df' = Ok cols /\
    payload = encode_utf8_sig
                (write_records q (columns df' :: rows_of EmptyString (len df') cols)).
Proof.
  intros H.
  apply csv_pass_ok in H as (df & df' & start & duration & finish & text
                             & Hr & D & T & ->).
  apply to_csv_inv in T as (cols & T & ->).
  by exists df, df', start, duration, finish, cols.
Qed.

(** Reading an export gives the labels, then the rows. *)
Lemma reader_export q σ r payload σ' :
  (q = true \/ exists df, σ !! r = Some df /\ frame_cr_free df = true) ->
  csv_pass q r σ = (Ok payload, σ') ->
  exists df df' start duration finish cols,
    σ !! r = Some df /\ derives df df' start duration finish /\
    traverse (fun c => format_series (snd c)) df' = Ok cols /\
    String.prefix BOM payload = true /\
    reader RecordStart (strip_bom payload)
    = columns df' :: rows_of EmptyString (len df') cols.
Proof.
  intros Hq H.
  apply csv_pass_text in H as (df & df' & start & duration & finish & cols
                               & Hr & D & T & ->).
  exists df, df', start, duration, finish, cols.
  split_and!; try done; [apply prefix_bom_encode|].
  rewrite strip_bom_encode. apply reader_write_records.
  apply csv_records_ok; [|done].
  destruct Hq as [->|(df0 & Hr0 & C)]; [by left|right].
  assert (df0 = df) as -> by congruence. by eapply derives_cr_free.
Qed.

Lemma index_of_lookup k (df : DataFrame) s :
  frame_lookup k df = Some s ->
  exists j k', index_of k (columns df) = Some j /\ df !! j = Some (k', s).
Proof.
  induction df as [|[k' s'] df IH]; simpl; [done|].
  destruct (String.eqb k k') eqn:E.
  - intros [= <-]. exists O, k'. done.
  - intros H. destruct (IH H) as (j & k0 & -> & Hj). exists (S j), k0. done.
Qed.

Lemma format_column (df : DataFrame) cols j k s :
  traverse (fun c => format_series (snd c)) df = Ok cols ->
  df !! j = Some (k, s) ->
  exists col, cols !! j = Some col /\ format_series s = Ok col.
Proof.
  intros T L.
  destruct (traverse_lookup _ _ _ T) as [_ Hall].
  destruct (Hall j (k, s) L) as (col & Hc & F). eauto.
Qed.

Lemma row_at_lookup (cols : list (list string)) i j col :
  cols !! j = Some col ->
  row_at EmptyString cols i !! j = Some (nth i col EmptyString).
Proof. intros H. unfold row_at. by rewrite list_lookup_fmap, H. Qed.

(** The cell of an exported row under a label of the derived frame. *)
Lemma export_cell df cols k s :
  traverse (fun c => format_series (snd c)) df = Ok cols ->
  getitem df k = Ok s ->
  exists j col,
    index_of k (columns df) = Some j /\ format_series s = Ok col /\
    forall i, row_at EmptyString cols i !! j = Some (nth i col EmptyString).
Proof.
  intros T G. apply getitem_inv in G as (L & _ & _).
  destruct (index_of_lookup _ _ _ L) as (j & k' & Hj & Hs).
  destruct (format_column _ _ _ _ _ T Hs) as (col & Hc & F).
  exists j, col. split_and!; try done. intros i. by apply row_at_lookup.
Qed.

(** ** Round trip of an export *)





Lemma format_series_datetime xs col :
  format_series (SDatetime xs) = Ok col -> col = map format_timestamp xs.
Proof. simpl. destruct (forallb _ xs); [|done]. by intros [= <-]. Qed.



(** ** Layout of an export *)

Lemma format_timestamp_present t :
  t <> NaT ->
  iso_shape (format_timestamp t) = true /\
  (in_int64 t = true ->
   parse_iso_date (format_timestamp t) = Some (date_of_epoch_days (day_of t))).
Proof.
  intros Hn. unfold format_timestamp, is_NaT.
  apply Z.eqb_neq in Hn. rewrite Hn.
  split; [apply iso_shape_isoformat|].
  intros R. apply parse_iso_isoformat.
  by destruct (date_of_day _ (day_of_range _ R)).
Qed.

Lemma format_timestamp_missing : format_timestamp NaT = EmptyString.
Proof. reflexivity. Qed.

Lemma rows_of_lookup (cols : list (list string)) n i row :
  rows_of EmptyString n cols !! i = Some row ->
  (i < n)%nat /\ row = row_at EmptyString cols i.
Proof.
  unfold rows_of. rewrite list_lookup_fmap.
  destruct (seq 0 n !! i) as [j|] eqn:E; simpl; [|done].
  apply lookup_seq in E as [-> ?]. intros [= <-]. done.
Qed.

(** The export is not the claimed one on a table in the order of the seed
    file: the header follows the table. *)
Lemma export_header_counterexample :
  ~ (forall payload σ',
       csv_pass true O [seed_order] = (Ok payload, σ') ->
       export_header payload
       = ["Task"; "Start"; "Duration"; "Resource"; "Finish"]%string).
Proof.
  intros H.
  destruct (csv_pass true O [seed_order]) as [[payload| |] σ'] eqn:E;
    try (vm_compute in E; discriminate).
  specialize (H payload σ' eq_refl).
  vm_compute in E. inversion E; subst payload. vm_compute in H. discriminate.
Qed.

(** C2 (amended). The export of a derived table starts with the byte-order
    mark of UTF-8, followed by the record of the labels and one record per
    row. The labels are those of the derived table in their order: those of
    the stored table, with Finish last when the stored table has no such
    column; for a stored table with columns Task, Start, Duration, Resource
    the header line is Task,Start,Duration,Resource,Finish. In each record
    the Start and Finish fields are the dates of the row's timestamps in the
    form YYYY-MM-DD (empty for a missing date). When the writer quotes
    carriage returns, or the table holds none, a reader gets these records
    back. *)
Theorem csv_export_layout quote_cr σ r df payload σ' :
  σ !! r = Some df ->
  csv_pass quote_cr r σ = (Ok payload, σ') ->
  String.prefix BOM payload = true /\
  exists df' start finish body i_start i_finish,
    payload = encode_utf8_sig (write_record quote_cr (columns df')
                               +:+ write_records quote_cr body) /\
    columns df' = (if bool_decide ("Finish"%string ∈ columns df) then columns df
                   else columns df ++ ["Finish"%string]) /\
    (columns df = ["Task"; "Start"; "Duration"; "Resource"]%string ->
     write_record quote_cr (columns df')
     = "Task,Start,Duration,Resource,Finish" +:+ String LF EmptyString) /\
    (quote_cr = true \/ frame_cr_free df = true ->
     reader RecordStart (strip_bom payload) = columns df' :: body /\
     export_header payload = columns df') /\
    length body = len df /\
    getitem df' "Start" = Ok (SDatetime start) /\
    getitem df' "Finish" = Ok (SDatetime finish) /\
    index_of "Start" (columns df') = Some i_start /\
    index_of "Finish" (columns df') = Some i_finish /\
    forall i row, body !! i = Some row ->
      exists s f,
        start !! i = Some s /\ finish !! i = Some f /\
        row !! i_start = Some (format_timestamp s) /\
        row !! i_finish = Some (format_timestamp f) /\
        (s = NaT -> format_timestamp s = EmptyString) /\
        (f = NaT -> format_timestamp f = EmptyString) /\
        (s <> NaT -> iso_shape (format_timestamp s) = true /\
           (in_int64 s = true ->
            parse_iso_date (format_timestamp s)
            = Some (date_of_epoch_days (day_of s)))) /\
        (f <> NaT -> iso_shape (format_timestamp f) = true /\
           (in_int64 f = true ->
            parse_iso_date (format_timestamp f)
            = Some (date_of_epoch_days (day_of f)))).
Proof.
  intros Hr H.
  destruct (csv_pass_text quote_cr σ r payload σ' H) as
    (df0 & df' & start & duration & finish & cols & Hr0 & D & T & E).
  assert (df0 = df) as -> by congruence.
  split; [rewrite E; apply prefix_bom_encode|].
  destruct (export_cell _ _ _ _ T (derives_start _ _ _ _ _ D))
    as (i_s & col_s & Is & Fs & Cs).
  destruct (export_cell _ _ _ _ T (derives_finish _ _ _ _ _ D))
    as (i_f & col_f & If & Ff & Cf).
  apply format_series_datetime in Fs, Ff. subst col_s col_f.
  exists df', start, finish, (rows_of EmptyString (len df') cols), i_s, i_f.
  split_and!; try done; try apply D.
  - intros Hc. rewrite (derives_columns _ _ _ _ _ D), Hc.
    destruct quote_cr; reflexivity.
  - intros Hq.
    assert (R : reader RecordStart (strip_bom payload)
                = columns df' :: rows_of EmptyString (len df') cols).
    { rewrite E, strip_bom_encode. apply reader_write_records.
      apply csv_records_ok; [|done].
      destruct Hq as [->|C]; [by left|right]. by eapply derives_cr_free. }
    split; [done|]. unfold export_header. by rewrite R.
  - unfold rows_of. rewrite length_map, length_seq. apply D.
  - intros i row Hrow. apply rows_of_lookup in Hrow as [Hi ->].
    rewrite (derives_len _ _ _ _ _ D) in Hi.
    assert (is_Some (start !! i)) as [s Hs].
    { apply lookup_lt_is_Some. by rewrite (derives_len_start _ _ _ _ _ D). }
    assert (is_Some (finish !! i)) as [f Hf].
    { apply lookup_lt_is_Some. by rewrite (derives_len_finish _ _ _ _ _ D). }
    exists s, f. rewrite Cs, Cf.
    rewrite !nth_lookup, !list_lookup_fmap, Hs, Hf. simpl.
    split_and!; try done.
    + by intros ->.
    + by intros ->.
    + apply format_timestamp_present.
    + apply format_timestamp_present.
Qed.

Lemma csv_export_layout_witness :
  let out := csv_pass false O [scenario] in
  let payload := match fst out with Ok p => p | _ => EmptyString end in
  String.prefix BOM payload = true /\
  export_header payload = ["Task"; "Start"; "Duration"; "Resource"; "Finish"]%string.
Proof.
  intros out payload.
  destruct (csv_export_layout false [scenario] O scenario payload (snd out))
    as (B & df' & start & finish & body & i_s & i_f & _ & Hc & _ & Hh & _).
  - vm_compute. reflexivity.
  - vm_compute. reflexivity.
  - split; [exact B|].
    destruct Hh as [_ ->]; [right; vm_compute; reflexivity|].
    rewrite Hc. vm_compute. reflexivity.
Defined.

(** ** The derive step and the export return on tables of the data model *)

Lemma traverse_Forall2 {A B} (f : A -> outcome B) (R : A -> B -> Prop) l :
  Forall (fun x => exists y, f x = Ok y /\ R x y) l ->
  exists l', traverse f l = Ok l' /\ Forall2 R l l'.
Proof.
  induction 1 as [|x l (y & Hy & Ry) _ (l' & Hl & Rl)]; simpl.
  - exists []. split; [done|constructor].
  - rewrite Hy, Hl. simpl. exists (y :: l'). split; [done|by constructor].
Qed.

Lemma ns_in_range n :
  first_day < n <= last_day ->
  (int64_min <? n * NS_PER_DAY) && (n * NS_PER_DAY <=? int64_max) = true.
Proof.
  unfold first_day, last_day, int64_min, int64_max, NS_PER_DAY. intros H.
  change (2 ^ 63) with 9223372036854775808.
  change (86400 * 10 ^ 9) with 86400000000000.
  apply andb_true_iff. split; [apply Z.ltb_lt|apply Z.leb_le]; lia.
Qed.

Lemma obj_to_datetime_in_range x dt :
  obj_date x = Some dt -> first_day < epoch_days dt <= last_day ->
  obj_to_datetime x = Ok (epoch_days dt * NS_PER_DAY).
Proof.
  intros Hd Hr.
  assert (V : valid_date dt = true).
  { destruct x as [s|d0|]; simpl in Hd; try done.
    - unfold parse_iso_date in Hd.
      repeat match type of Hd with
             | context [if ?b then _ else _] => destruct b eqn:?; try done
             | context [match ?o with Some _ => _ | None => _ end] =>
                 destruct o eqn:?; try done
             end.
      inversion Hd; subst.
      repeat match goal with H : _ && _ = true |- _ =>
               apply andb_true_iff in H as [? ?] end. done.
    - destruct (valid_date d0) eqn:V0; [|done]. by inversion Hd; subst. }
  assert (N : date_to_ns dt = Ok (epoch_days dt * NS_PER_DAY)).
  { unfold date_to_ns. by rewrite V, (ns_in_range _ Hr). }
  destruct x as [s|d0|]; simpl in *; try done.
  - by rewrite Hd.
  - destruct (valid_date d0); [|done]. by inversion Hd; subst.
Qed.

Lemma add_columns_ok ts ds (R : Z -> Z -> Z -> Prop) :
  Forall2 (fun t d => exists f, add_ns t d = Ok f /\ R t d f) ts ds ->
  exists fs, add_columns ts ds = Ok fs /\
             forall i f, fs !! i = Some f ->
               exists t d, ts !! i = Some t /\ ds !! i = Some d /\ R t d f.
Proof.
  induction 1 as [|t d ts ds (f & Hf & Rf) _ (fs & Hfs & Hall)]; simpl.
  - exists []. split; [done|]. intros i f Hi. by destruct i.
  - rewrite Hf, Hfs. simpl. exists (f :: fs). split; [done|].
    intros [|i] f' Hi; simpl in *.
    + inversion Hi; subst. eauto.
    + eauto.
Qed.

Lemma setitem_ok df k s :
  df <> [] -> series_len s = len df -> (label_count k df <= 1)%nat ->
  setitem df k s = Ok (frame_replace k s df).
Proof.
  intros Hne Hl Hc. unfold setitem. destruct df as [|c df]; [done|].
  apply Nat.eqb_eq in Hl. apply Nat.leb_le in Hc. by rewrite Hl, Hc.
Qed.

(** On a table of the data model the derive step returns, with midnights
    in Start and Finish. *)
Lemma finish_frame_task_table df :
  task_table df ->
  exists df' start duration finish,
    finish_frame df = Ok df' /\ derives df df' start duration finish /\
    Forall (fun t => is_midnight t = true) start /\
    Forall (fun t => is_midnight t = true) finish.
Proof.
  intros (ss & ds & Gs & Gd & Ls & Ld & Cf & Rows & _).
  destruct (getitem_inv _ _ _ Gs) as (_ & Cs & Hne).
  destruct (getitem_inv _ _ _ Gd) as (_ & Cd & _).
  (* Start *)
  destruct (traverse_Forall2 obj_to_datetime
              (fun x t => exists dt, obj_date x = Some dt /\ t = epoch_days dt * NS_PER_DAY) ss)
    as (start & Tstart & Rstart).
  { apply Forall_forall. intros x Hx.
    apply list_elem_of_lookup in Hx as [i Hi].
    destruct (Forall2_lookup_l _ _ _ _ _ Rows Hi) as (d & Hd & dt & Hdt & R1 & _).
    exists (epoch_days dt * NS_PER_DAY). split; [by apply obj_to_datetime_in_range|eauto]. }
  (* Duration *)
  destruct (traverse_Forall2 days_to_ns (fun d t => t = d * NS_PER_DAY) ds)
    as (delta & Tdelta & Rdelta).
  { apply Forall_forall. intros d Hd.
    apply list_elem_of_lookup in Hd as [i Hi].
    destruct (Forall2_lookup_r _ _ _ _ _ Rows Hi) as (x & Hx & dt & Hdt & _ & R2 & _).
    exists (d * NS_PER_DAY). split; [|done].
    unfold days_to_ns, is_NaT, NaT.
    assert (d <> int64_min) by (unfold int64_min, last_day in *; lia).
    apply Z.eqb_neq in H. rewrite H.
    assert (B : (int64_min <? d * NS_PER_DAY) && (d * NS_PER_DAY <=? int64_max) = true).
    { unfold first_day, last_day, int64_min, int64_max, NS_PER_DAY in *.
      change (2 ^ 63) with 9223372036854775808.
      change (86400 * 10 ^ 9) with 86400000000000.
      apply andb_true_iff. split; [apply Z.ltb_lt|apply Z.leb_le]; lia. }
    by rewrite B. }
  (* Finish *)
  destruct (add_columns_ok start delta (fun t d f => is_midnight f = true))
    as (finish & Tfinish & Rfinish).
  { apply Forall2_same_length_lookup. split.
    - apply Forall2_length in Rstart, Rdelta. lia.
    - intros i t d Ht Hd.
      destruct (Forall2_lookup_r _ _ _ _ _ Rstart Ht) as (x & Hx & dt & Hdt & ->).
      destruct (Forall2_lookup_r _ _ _ _ _ Rdelta Hd) as (du & Hdu & ->).
      destruct (Forall2_lookup_l _ _ _ _ _ Rows Hx) as (du' & Hdu' & dt' & Hdt' & R1 & R2 & R3).
      assert (du' = du) as -> by congruence.
      assert (dt' = dt) as -> by congruence.
      exists ((epoch_days dt + du) * NS_PER_DAY).
      pose proof (ns_in_range _ R1) as B1. pose proof (ns_in_range _ R3) as B3.
      apply andb_true_iff in B1 as [B1 _]. apply Z.ltb_lt in B1.
      apply andb_true_iff in B3 as [B3a B3b]. apply Z.ltb_lt in B3a. apply Z.leb_le in B3b.
      split.
      + unfold add_ns, is_NaT, NaT, in_int64.
        assert (E1 : (epoch_days dt * NS_PER_DAY =? int64_min) = false)
          by (apply Z.eqb_neq; lia).
        assert (du <> int64_min) by (unfold int64_min, last_day in *; lia).
        assert (E2 : (du * NS_PER_DAY =? int64_min) = false).
        { apply Z.eqb_neq. unfold int64_min, NS_PER_DAY, last_day in *.
          change (2 ^ 63) with 9223372036854775808.
          change (86400 * 10 ^ 9) with 86400000000000. lia. }
        rewrite E1, E2. simpl.
        replace (epoch_days dt * NS_PER_DAY + du * NS_PER_DAY)
          with ((epoch_days dt + du) * NS_PER_DAY) by lia.
        assert (E3 : (int64_min <=? (epoch_days dt + du) * NS_PER_DAY)
                     && ((epoch_days dt + du) * NS_PER_DAY <=? int64_max) = true).
        { apply andb_true_iff. split; apply Z.leb_le; lia. }
        by rewrite E3.
      + unfold is_midnight. rewrite Z.mod_mul; done. }
  assert (Lstart : length start = len df).
  { apply Forall2_length in Rstart. lia. }
  assert (Lfinish : length finish = len df).
  { destruct (add_columns_lookup _ _ _ Tfinish) as (_ & L & _). lia. }
  set (df1 := frame_replace "Start" (SDatetime start) df).
  set (df2 := frame_replace "Duration" (SInt64 ds) df1).
  assert (F : finish_frame df
              = Ok (frame_replace "Finish" (SDatetime finish) df2)).
  { unfold finish_frame. rewrite Gs. cbn [obind to_datetime].
    rewrite Tstart. cbn [obind].
    rewrite (setitem_ok df) by done. cbn [obind]. fold df1.
    assert (G1 : getitem df1 "Duration" = Ok (SInt64 ds)).
    { unfold df1. rewrite getitem_replace_ne; [done|discriminate|done]. }
    rewrite G1. cbn [obind astype_int].
    assert (L1 : len df1 = len df) by (by apply len_replace).
    assert (C1 : (label_count "Duration" df1 <= 1)%nat).
    { unfold df1. by rewrite label_count_replace. }
    rewrite (setitem_ok df1); [|apply frame_replace_nonempty|simpl; lia|done].
    cbn [obind]. fold df2.
    assert (G2s : getitem df2 "Start" = Ok (SDatetime start)).
    { unfold df2. rewrite getitem_replace_ne; [|discriminate|done].
      by apply getitem_replace_eq. }
    assert (G2d : getitem df2 "Duration" = Ok (SInt64 ds)).
    { by apply getitem_replace_eq. }
    rewrite G2s, G2d. cbn [obind to_timedelta_days]. rewrite Tdelta.
    cbn [obind series_add]. rewrite Tfinish. cbn [obind].
    apply setitem_ok; [apply frame_replace_nonempty| |].
    - unfold df2. rewrite len_replace; [simpl; lia|apply frame_replace_nonempty|simpl; lia].
    - unfold df2, df1. by rewrite !label_count_replace. }
  destruct (finish_frame_inv _ _ F) as (start' & duration' & finish' & D).
  assert (start' = start /\ duration' = ds /\ finish' = finish) as (-> & -> & ->).
  { pose proof (derives_frame _ _ _ _ _ D) as E.
    destruct (derives_source_start _ _ _ _ _ D) as (s0 & G0 & T0).
    rewrite Gs in G0. inversion G0; subst s0. simpl in T0. rewrite Tstart in T0.
    simpl in T0. inversion T0; subst start'.
    destruct (derives_source_duration _ _ _ _ _ D) as (d0 & G0' & T0').
    rewrite Gd in G0'. inversion G0'; subst d0. simpl in T0'.
    inversion T0'; subst duration'.
    destruct (derives_delta _ _ _ _ _ D) as (delta' & TD & AC).
    rewrite Tdelta in TD. inversion TD; subst delta'.
    rewrite Tfinish in AC. by inversion AC. }
  eexists _, start, ds, finish. split_and!; [exact F|exact D| |].
  - apply Forall_forall. intros t Ht. apply list_elem_of_lookup in Ht as [i Hi].
    destruct (Forall2_lookup_r _ _ _ _ _ Rstart Hi) as (x & _ & dt & _ & ->).
    unfold is_midnight. rewrite Z.mod_mul; done.
  - apply Forall_forall. intros f Hf. apply list_elem_of_lookup in Hf as [i Hi].
    by destruct (Rfinish i f Hi) as (t & d & _ & _ & M).
Qed.

Lemma format_series_writable s :
  writable s = true -> exists col, format_series s = Ok col.
Proof.
  destruct s as [xs|xs|xs|xs|xs]; simpl; try done; [|eauto].
  intros W.
  destruct (traverse_Forall2 format_obj (fun _ _ => True) xs) as (col & T & _);
    [|eauto].
  apply Forall_forall. intros x Hx. rewrite forallb_forall in W.
  specialize (W x (proj1 (list_elem_of_In _ _) Hx)).
  destruct x as [s|d|]; simpl in *; eauto. rewrite W. eauto.
Qed.

Lemma format_series_midnights ts :
  Forall (fun t => is_midnight t = true) ts ->
  format_series (SDatetime ts) = Ok (map format_timestamp ts).
Proof.
  intros H. simpl.
  assert (forallb (fun t => is_NaT t || is_midnight t) ts = true) as ->; [|done].
  apply forallb_forall. intros t Ht. rewrite Forall_forall in H.
  rewrite (H t (proj2 (list_elem_of_In _ _) Ht)). apply orb_true_r.
Qed.

Lemma Forall_frame_replace (Q : string * Series -> Prop) k s df :
  Forall Q df -> (forall k', Q (k', s)) -> Forall Q (frame_replace k s df).
Proof.
  intros H Hs. induction H as [|[k' s'] df Hc Hdf IH]; simpl.
  - constructor; [done|constructor].
  - destruct (String.eqb k k'); constructor; done.
Qed.

Lemma to_csv_task_table q df df' start duration finish :
  derives df df' start duration finish ->
  Forall (fun c => writable (snd c) = true) df ->
  Forall (fun t => is_midnight t = true) start ->
  Forall (fun t => is_midnight t = true) finish ->
  exists text, to_csv q df' = Ok text.
Proof.
  intros D W Ms Mf.
  assert (Q : Forall (fun c => exists col, format_series (snd c) = Ok col) df').
  { rewrite (derives_frame _ _ _ _ _ D).
    repeat apply Forall_frame_replace.
    - eapply Forall_impl; [exact W|]. intros c Hc. by apply format_series_writable.
    - intros ?. simpl snd. rewrite format_series_midnights by done. eauto.
    - intros ?. simpl. eauto.
    - intros ?. simpl snd. rewrite format_series_midnights by done. eauto. }
  destruct (traverse_Forall2 (fun c => format_series (snd c)) (fun _ _ => True) df')
    as (cols & T & _).
  { eapply Forall_impl; [exact Q|]. intros c (col & Hc). eauto. }
  unfold to_csv. rewrite T.
  destruct df' as [|c df'']; [|simpl; eauto].
  pose proof (derives_start _ _ _ _ _ D) as G. by apply getitem_inv in G as (_ & _ & ?).
Qed.

(** On a table of the data model both the derive step and the export
    return. *)
Lemma add_finish_column_task_table σ r df :
  σ !! r = Some df -> task_table df ->
  exists r' σ', add_finish_column r σ = (Ok r', σ').
Proof.
  intros Hr Ht.
  destruct (finish_frame_task_table df Ht) as (df' & s & d & f & F & _).
  destruct (add_finish_column_run σ r df Hr) as (tmp & -> & _).
  rewrite F. simpl. eauto.
Qed.

Lemma csv_pass_task_table q σ r df :
  σ !! r = Some df -> task_table df ->
  exists payload σ', csv_pass q r σ = (Ok payload, σ').
Proof.
  intros Hr Ht.
  destruct (finish_frame_task_table df Ht) as (df' & s & d & f & F & D & Ms & Mf).
  destruct Ht as (_ & _ & _ & _ & _ & _ & _ & _ & W).
  destruct (to_csv_task_table q _ _ _ _ _ D W Ms Mf) as (text & T).
  destruct (add_finish_column_run σ r df Hr) as (tmp & R & Htmp).
  rewrite (Htmp df' F) in R. rewrite F in R. simpl in R.
  unfold csv_pass. rewrite bind_eq, R.
  unfold convert_df_to_csv.
  rewrite bind_eq, (load_run _ _ _ (store_lookup_last σ df')).
  rewrite bind_eq. unfold lift, ret. rewrite T. eauto.
Qed.

(** ** The derive step and the round trip *)

(** C1. On a table of the data model the derive step returns. The frame
    that it returns has a row for every row of the stored table: its Start
    is the stored Start converted to timestamps, its Duration the stored
    Duration as integers, and in every row Finish is Start plus Duration
    days: the timestamps differ by exactly Duration times the nanoseconds
    of a day, and the calendar day of Finish is Duration days after that of
    Start. A row without a Start has no Finish. For a stored start date
    (a date object or its ISO text) and a stored whole number of days,
    Start is the midnight of that date and Finish the midnight of the date
    that many days later on the calendar. *)
Theorem finish_is_start_plus_duration σ r df :
  σ !! r = Some df ->
  (task_table df -> exists r' σ', add_finish_column r σ = (Ok r', σ')) /\
  (forall r' σ',
     add_finish_column r σ = (Ok r', σ') ->
     exists df' s0 d0 start duration finish,
       σ' !! r' = Some df' /\ len df' = len df /\
       getitem df "Start" = Ok s0 /\ to_datetime s0 = Ok (SDatetime start) /\
       getitem df "Duration" = Ok d0 /\ astype_int d0 = Ok (SInt64 duration) /\
       getitem df' "Start" = Ok (SDatetime start) /\
       getitem df' "Duration" = Ok (SInt64 duration) /\
       getitem df' "Finish" = Ok (SDatetime finish) /\
       length start = len df /\ length duration = len df /\
       length finish = len df /\
       (forall i, (i < len df)%nat ->
          exists s d f,
            start !! i = Some s /\ duration !! i = Some d /\ finish !! i = Some f /\
            (s = NaT \/ d = int64_min -> f = NaT) /\
            (s <> NaT -> d <> int64_min ->
               f = s + d * NS_PER_DAY /\
               day_of f = day_of s + d /\
               (in_int64 s = true ->
                  toordinal (date_of_epoch_days (day_of f))
                  = toordinal (date_of_epoch_days (day_of s)) + d))) /\
       (forall ss ds i x d dt,
          getitem df "Start" = Ok (SObject ss) ->
          getitem df "Duration" = Ok (SInt64 ds) ->
          ss !! i = Some x -> ds !! i = Some d ->
          obj_date x = Some dt -> d <> int64_min ->
          start !! i = Some (epoch_days dt * NS_PER_DAY) /\
          duration !! i = Some d /\
          finish !! i = Some ((epoch_days dt + d) * NS_PER_DAY) /\
          date_of_epoch_days (day_of (epoch_days dt * NS_PER_DAY)) = dt /\
          toordinal (date_of_epoch_days (day_of ((epoch_days dt + d) * NS_PER_DAY)))
          = toordinal dt + d)).
Proof.
  intros Hr0. split; [by apply add_finish_column_task_table|].
  intros r' σ' H.
  apply add_finish_column_derives in H
    as (df0 & df' & start & duration & finish & Hr & Hr' & _ & _ & D).
  assert (df0 = df) as -> by congruence.
  destruct (derives_source_start _ _ _ _ _ D) as (s0 & Gs0 & Ts0).
  destruct (derives_source_duration _ _ _ _ _ D) as (d0 & Gd0 & Td0).
  exists df', s0, d0, start, duration, finish.
  split_and!; try apply D; try done.
  - intros i Hi.
    assert (is_Some (start !! i)) as [s Hs].
    { apply lookup_lt_is_Some. by rewrite (derives_len_start _ _ _ _ _ D). }
    assert (is_Some (duration !! i)) as [d Hd].
    { apply lookup_lt_is_Some. by rewrite (derives_len_duration _ _ _ _ _ D). }
    destruct (derives_row _ _ _ _ _ i s d D Hs Hd) as (f & Hf & Hpresent & Hnat).
    exists s, d, f. split_and!; try done.
    intros Hs' Hd'.
    destruct (Hpresent Hs' Hd') as [-> R].
    split_and!; [done|apply day_of_add|].
    intros Rs.
    destruct (date_of_day _ (day_of_range _ R)) as [_ E1].
    destruct (date_of_day _ (day_of_range _ Rs)) as [_ E2].
    rewrite epoch_days_eq in E1, E2.
    rewrite day_of_add in *.
    generalize dependent (toordinal (date_of_epoch_days (day_of s + d))).
    generalize dependent (toordinal (date_of_epoch_days (day_of s))).
    generalize (day_of s). clear. intros n a Ea b Eb. lia.
  - intros ss ds i x d dt Gs Gd Hx Hd Hdt Hd'.
    destruct (derives_stored_row _ _ _ _ _ _ _ _ _ _ D Gs Gd Hx Hd)
      as (-> & _ & s & f & Hs & Hf & Es & _ & _ & _ & Hval).
    assert (N : date_to_ns dt = Ok s).
    { destruct x as [t|d1|]; simpl in Hdt, Es; try done.
      - by rewrite Hdt in Es.
      - destruct (valid_date d1); [|done]. by injection Hdt as <-. }
    apply date_to_ns_inv in N as (_ & -> & _ & Hn & Edt).
    destruct (Hval Hn Hd') as [-> R].
    replace (epoch_days dt * NS_PER_DAY + d * NS_PER_DAY)
      with ((epoch_days dt + d) * NS_PER_DAY) in * by lia.
    split_and!; try done.
    rewrite day_of_midnight.
    pose proof (day_of_range _ R) as Rd. rewrite day_of_midnight in Rd.
    destruct (date_of_day _ Rd) as [_ E1].
    rewrite (epoch_days_eq (date_of_epoch_days _)) in E1.
    pose proof (epoch_days_eq dt) as E2.
    clear - E1 E2.
    generalize dependent (toordinal (date_of_epoch_days (epoch_days dt + d))).
    generalize dependent (toordinal dt).
    generalize (epoch_days dt). intros e a E2 b E1. lia.
Qed.

Lemma finish_is_start_plus_duration_witness :
  let out := add_finish_column O [scenario] in
  exists df' s0 d0 start duration finish,
    snd out !! 1%nat = Some df' /\ len df' = len scenario /\
    getitem scenario "Start" = Ok s0 /\ to_datetime s0 = Ok (SDatetime start) /\
    getitem scenario "Duration" = Ok d0 /\ astype_int d0 = Ok (SInt64 duration) /\
    getitem df' "Start" = Ok (SDatetime start) /\
    getitem df' "Duration" = Ok (SInt64 duration) /\
    getitem df' "Finish" = Ok (SDatetime finish) /\
    length start = len scenario /\ length duration = len scenario /\
    length finish = len scenario /\
    (forall i, (i < len scenario)%nat ->
       exists s d f,
         start !! i = Some s /\ duration !! i = Some d /\ finish !! i = Some f /\
         (s = NaT \/ d = int64_min -> f = NaT) /\
         (s <> NaT -> d <> int64_min ->
            f = s + d * NS_PER_DAY /\
            day_of f = day_of s + d /\
            (in_int64 s = true ->
               toordinal (date_of_epoch_days (day_of f))
               = toordinal (date_of_epoch_days (day_of s)) + d))) /\
    (forall ss ds i x d dt,
       getitem scenario "Start" = Ok (SObject ss) ->
       getitem scenario "Duration" = Ok (SInt64 ds) ->
       ss !! i = Some x -> ds !! i = Some d ->
       obj_date x = Some dt -> d <> int64_min ->
       start !! i = Some (epoch_days dt * NS_PER_DAY) /\
       duration !! i = Some d /\
       finish !! i = Some ((epoch_days dt + d) * NS_PER_DAY) /\
       date_of_epoch_days (day_of (epoch_days dt * NS_PER_DAY)) = dt /\
       toordinal (date_of_epoch_days (day_of ((epoch_days dt + d) * NS_PER_DAY)))
       = toordinal dt + d).
Proof.
  intros out.
  apply (proj2 (finish_is_start_plus_duration [scenario] O scenario eq_refl)
           1%nat (snd out)).
  vm_compute. reflexivity.
Defined.





(** The scenario is a table of the data model. *)
Lemma scenario_task_table : task_table scenario.
Proof.
  exists [PDate (Date 2024 1 1); PDate (Date 2024 1 6)], [5; 10].
  split; [reflexivity|]. split; [reflexivity|].
  split; [reflexivity|]. split; [reflexivity|].
  split; [vm_compute; lia|]. split.
  - constructor; [|constructor; [|constructor]].
    + exists (Date 2024 1 1). split; [reflexivity|]. vm_compute. done.
    + exists (Date 2024 1 6). split; [reflexivity|]. vm_compute. done.
  - repeat constructor.
Qed.

(** * Further properties of the code *)

(** ** The derive step: missing columns, repeated calls, bounds *)

Lemma label_count_absent k df : frame_lookup k df = None -> label_count k df = O.
Proof.
  unfold label_count, columns. induction df as [|[k' s] df IH]; simpl; [done|].
  destruct (String.eqb k k'); [done|]. exact IH.
Qed.

Lemma getitem_absent k df : frame_lookup k df = None -> getitem df k = Raise KeyError.
Proof.
  intros H. unfold getitem. by rewrite (label_count_absent _ _ H), H.
Qed.

Lemma frame_replace_same k s df :
  frame_lookup k df = Some s -> frame_replace k s df = df.
Proof.
  induction df as [|[k' s'] df IH]; simpl; [done|].
  destruct (String.eqb k k') eqn:E.
  - by intros [= ->].
  - intros H. by rewrite IH.
Qed.

Lemma setitem_same df k s :
  getitem df k = Ok s -> series_len s = len df -> setitem df k s = Ok df.
Proof.
  intros G L. apply getitem_inv in G as (F & C & N).
  unfold setitem. destruct df as [|c df]; [done|].
  apply Nat.eqb_eq in L. apply Nat.leb_le in C. rewrite L, C. simpl andb. cbv iota.
  by rewrite (frame_replace_same _ _ _ F).
Qed.

Lemma traverse_raise {A B} (f : A -> outcome B) e l :
  Forall (fun x => (exists y, f x = Ok y) \/ f x = Raise e) l ->
  Exists (fun x => f x = Raise e) l ->
  traverse f l = Raise e.
Proof.
  induction 1 as [|x l Hx Hl IH]; intros Hex; [by inversion Hex|].
  simpl. destruct Hx as [[y Hy]|Hx]; [|by rewrite Hx].
  rewrite Hy. cbn [obind].
  inversion Hex as [? ? Hx|? ? Hex']; subst; [congruence|].
  by rewrite (IH Hex').
Qed.

Lemma add_finish_column_outcome σ r df :
  σ !! r = Some df ->
  fst (add_finish_column r σ) = obind (finish_frame df) (fun _ => Ok (length σ)).
Proof.
  intros Hr. destruct (add_finish_column_run σ r df Hr) as (tmp & -> & _). done.
Qed.

(** X1. A table without a Start column, or with a Start column that
    converts but without a Duration column, makes the derive step raise
    KeyError. *)
Theorem derive_missing_column σ r df :
  σ !! r = Some df ->
  (frame_lookup "Start" df = None ->
   fst (add_finish_column r σ) = Raise KeyError) /\
  (forall s0 s1,
     getitem df "Start" = Ok s0 -> series_len s0 = len df ->
     to_datetime s0 = Ok s1 ->
     frame_lookup "Duration" df = None ->
     fst (add_finish_column r σ) = Raise KeyError).
Proof.
  intros Hr. rewrite (add_finish_column_outcome _ _ _ Hr). split.
  - intros H. unfold finish_frame. by rewrite (getitem_absent _ _ H).
  - intros s0 s1 G L T H. unfold finish_frame.
    rewrite G. cbn [obind]. rewrite T. cbn [obind].
    destruct (to_datetime_inv _ _ T) as (ts & -> & Lts).
    destruct (getitem_inv _ _ _ G) as (F & C & N).
    assert (S : setitem df "Start" (SDatetime ts)
                = Ok (frame_replace "Start" (SDatetime ts) df)).
    { unfold setitem. destruct df as [|c df]; [done|].
      assert (E1 : (series_len (SDatetime ts) =? len (c :: df))%nat = true).
      { apply Nat.eqb_eq. simpl series_len. congruence. }
      apply Nat.leb_le in C. by rewrite E1, C. }
    rewrite S. cbn [obind].
    rewrite getitem_absent; [done|].
    rewrite frame_lookup_replace_ne; [done|discriminate].
Qed.

Lemma derive_missing_column_witness :
  fst (add_finish_column O [undated]) = Raise KeyError.
Proof.
  apply (proj1 (derive_missing_column [undated] O undated eq_refl)).
  reflexivity.
Defined.

(** The derive step on a frame it has derived. *)
Lemma finish_frame_derived df df' start duration finish :
  derives df df' start duration finish -> finish_frame df' = Ok df'.
Proof.
  intros D. unfold finish_frame.
  pose proof (derives_len _ _ _ _ _ D) as L.
  rewrite (derives_start _ _ _ _ _ D). cbn [obind to_datetime].
  rewrite (setitem_same _ _ _ (derives_start _ _ _ _ _ D))
    by (simpl; rewrite L; apply D).
  cbn [obind]. rewrite (derives_duration _ _ _ _ _ D). cbn [obind astype_int].
  rewrite (setitem_same _ _ _ (derives_duration _ _ _ _ _ D))
    by (simpl; rewrite L; apply D).
  cbn [obind]. rewrite (derives_start _ _ _ _ _ D), (derives_duration _ _ _ _ _ D).
  cbn [obind to_timedelta_days].
  destruct (derives_delta _ _ _ _ _ D) as (delta & TD & AC).
  rewrite TD. cbn [obind series_add]. rewrite AC. cbn [obind].
  apply setitem_same; [apply D|]. simpl. rewrite L. apply D.
Qed.

(** X2. The derive step is idempotent: applied to a table it has returned,
    it returns a copy of that same table. *)
Theorem derive_idempotent σ r r' σ' :
  add_finish_column r σ = (Ok r', σ') ->
  exists df',
    σ' !! r' = Some df' /\
    add_finish_column r' σ' = (Ok (length σ'), σ' ++ [df']).
Proof.
  intros H.
  apply add_finish_column_derives in H
    as (df & df' & start & duration & finish & Hr & Hr' & _ & _ & D).
  exists df'. split; [done|].
  destruct (add_finish_column_run σ' r' df' Hr') as (tmp & Hrun & Htmp).
  rewrite Hrun, (finish_frame_derived _ _ _ _ _ D). cbn [obind].
  by rewrite (Htmp df' (finish_frame_derived _ _ _ _ _ D)).
Qed.

Lemma derive_idempotent_witness :
  let out := add_finish_column O [scenario] in
  exists df',
    snd out !! 1%nat = Some df' /\
    add_finish_column 1%nat (snd out) = (Ok (length (snd out)), snd out ++ [df']).
Proof.
  intros out.
  apply (derive_idempotent [scenario] O 1%nat (snd out)).
  vm_compute. reflexivity.
Defined.

Lemma days_to_ns_cases d :
  (exists t, days_to_ns d = Ok t) \/ days_to_ns d = Raise OutOfBoundsTimedelta.
Proof.
  unfold days_to_ns. destruct (is_NaT d); [eauto|].
  destruct (_ && _); eauto.
Qed.

Lemma days_to_ns_out_of_range d :
  d <> int64_min -> d < - last_day \/ last_day < d ->
  days_to_ns d = Raise OutOfBoundsTimedelta.
Proof.
  intros Hn Hd. unfold days_to_ns, is_NaT, NaT.
  apply Z.eqb_neq in Hn. rewrite Hn.
  destruct ((int64_min <? d * NS_PER_DAY) && (d * NS_PER_DAY <=? int64_max)) eqn:B;
    [|done].
  apply andb_true_iff in B as [B1 B2].
  apply Z.ltb_lt in B1. apply Z.leb_le in B2.
  unfold last_day, int64_min, int64_max, NS_PER_DAY in *.
  change (2 ^ 63) with 9223372036854775808 in *.
  change (86400 * 10 ^ 9) with 86400000000000 in *. lia.
Qed.

(** The derive step on a table with a duration outside [timedelta64[ns]]. *)
Lemma finish_frame_out_of_range df s0 s1 ds d :
  getitem df "Start" = Ok s0 -> series_len s0 = len df ->
  to_datetime s0 = Ok s1 ->
  getitem df "Duration" = Ok (SInt64 ds) -> length ds = len df ->
  d ∈ ds -> d <> int64_min -> d < - last_day \/ last_day < d ->
  finish_frame df = Raise OutOfBoundsTimedelta.
Proof.
  intros G L T GD LD Hin Hn Hd. unfold finish_frame.
  rewrite G. cbn [obind]. rewrite T. cbn [obind].
  destruct (to_datetime_inv _ _ T) as (ts & -> & Lts).
  destruct (getitem_inv _ _ _ G) as (F & C & N).
  destruct (getitem_inv _ _ _ GD) as (FD & CD & _).
  assert (S : setitem df "Start" (SDatetime ts)
              = Ok (frame_replace "Start" (SDatetime ts) df)).
  { unfold setitem. destruct df as [|c df]; [done|].
    assert (E1 : (series_len (SDatetime ts) =? len (c :: df))%nat = true).
    { apply Nat.eqb_eq. simpl series_len. congruence. }
    apply Nat.leb_le in C. by rewrite E1, C. }
  rewrite S. cbn [obind].
  set (df1 := frame_replace "Start" (SDatetime ts) df).
  assert (L1 : len df1 = len df).
  { apply len_replace; [done|]. simpl. congruence. }
  assert (G1 : getitem df1 "Duration" = Ok (SInt64 ds)).
  { unfold df1. rewrite getitem_replace_ne; [done|discriminate|done]. }
  rewrite G1. cbn [obind astype_int].
  rewrite (setitem_same _ _ _ G1) by (simpl; congruence).
  cbn [obind].
  assert (G1s : getitem df1 "Start" = Ok (SDatetime ts)).
  { unfold df1. by apply getitem_replace_eq. }
  rewrite G1s, G1. cbn [obind to_timedelta_days].
  rewrite (traverse_raise days_to_ns OutOfBoundsTimedelta ds); [done| |].
  - apply Forall_forall. intros x _. apply days_to_ns_cases.
  - apply Exists_exists. exists d. split; [done|].
    by apply days_to_ns_out_of_range.
Qed.

(** X3. A whole-number duration of more than 106751 days, in either
    direction, is outside [timedelta64[ns]], and pandas 2 checks the
    conversion: on a table whose Start column converts, the derive step
    raises OutOfBoundsTimedelta. *)
Theorem derive_duration_out_of_range σ r df s0 s1 ds d :
  σ !! r = Some df ->
  getitem df "Start" = Ok s0 -> series_len s0 = len df ->
  to_datetime s0 = Ok s1 ->
  getitem df "Duration" = Ok (SInt64 ds) -> length ds = len df ->
  d ∈ ds -> d <> int64_min -> d < - last_day \/ last_day < d ->
  fst (add_finish_column r σ) = Raise OutOfBoundsTimedelta.
Proof.
  intros Hr G L T GD LD Hin Hn Hd.
  rewrite (add_finish_column_outcome _ _ _ Hr).
  by rewrite (finish_frame_out_of_range df s0 s1 ds d).
Qed.

Lemma derive_duration_out_of_range_witness :
  fst (add_finish_column O [overlong]) = Raise OutOfBoundsTimedelta.
Proof.
  eapply (derive_duration_out_of_range [overlong] O overlong
            (SObject [PDate (Date 2024 1 1)]) _ [106752] 106752).
  - reflexivity.
  - reflexivity.
  - reflexivity.
  - vm_compute. reflexivity.
  - reflexivity.
  - reflexivity.
  - apply list_elem_of_here.
  - vm_compute. discriminate.
  - right. vm_compute. reflexivity.
Defined.

(** X4. A row without a start date (None) is no error: in the derived
    table its Start and its Finish are both missing (NaT). *)
Theorem derive_missing_start σ r r' σ' df ss i :
  add_finish_column r σ = (Ok r', σ') ->
  σ !! r = Some df ->
  getitem df "Start" = Ok (SObject ss) ->
  ss !! i = Some PNone ->
  exists df' start finish,
    σ' !! r' = Some df' /\
    getitem df' "Start" = Ok (SDatetime start) /\
    getitem df' "Finish" = Ok (SDatetime finish) /\
    start !! i = Some NaT /\ finish !! i = Some NaT.
Proof.
  intros H Hr G Hi.
  apply add_finish_column_derives in H
    as (df0 & df' & start & duration & finish & Hr0 & Hr' & _ & _ & D).
  assert (df0 = df) as -> by congruence.
  exists df', start, finish.
  destruct (derives_source_start _ _ _ _ _ D) as (s0 & G0 & T).
  rewrite G in G0. injection G0 as <-. simpl in T.
  destruct (traverse obj_to_datetime ss) as [ts| |] eqn:E; simpl in T; try done.
  injection T as ->.
  destruct (traverse_lookup _ _ _ E) as (Lts & Hts).
  destruct (Hts i PNone Hi) as (t & Ht & Et). simpl in Et. injection Et as <-.
  assert (is_Some (duration !! i)) as [d Hd].
  { apply lookup_lt_is_Some.
    rewrite (derives_len_duration _ _ _ _ _ D), <- (derives_len_start _ _ _ _ _ D).
    by apply lookup_lt_is_Some_1. }
  destruct (derives_row _ _ _ _ _ i NaT d D Ht Hd) as (f & Hf & _ & Hnat).
  rewrite (Hnat (or_introl eq_refl)) in Hf.
  split_and!; try done; apply D.
Qed.

Lemma derive_missing_start_witness :
  let out := add_finish_column O [unscheduled] in
  exists df' start finish,
    snd out !! 1%nat = Some df' /\
    getitem df' "Start" = Ok (SDatetime start) /\
    getitem df' "Finish" = Ok (SDatetime finish) /\
    start !! O = Some NaT /\ finish !! O = Some NaT.
Proof.
  intros out.
  apply (derive_missing_start [unscheduled] O 1%nat (snd out) unscheduled [PNone] O).
  - vm_compute. reflexivity.
  - reflexivity.
  - reflexivity.
  - reflexivity.
Defined.

(** ** The statistics of a rerun *)

Lemma astype_int_int64 ds duration :
  astype_int (SInt64 ds) = Ok (SInt64 duration) -> duration = ds.
Proof. simpl. by intros [= ->]. Qed.

(** The statistics of a derived frame. *)
Lemma stats_frame_derived df df' start duration finish st :
  derives df df' start duration finish ->
  stats_frame df' = Ok st ->
  total_tasks st = len df /\
  total_days st = wrap_int64 (sum_list duration) /\
  earliest st = fold_right (skipna Z.min) NaT start /\
  latest st = fold_right (skipna Z.max) NaT finish.
Proof.
  intros D. unfold stats_frame.
  rewrite (derives_duration _ _ _ _ _ D). cbn [obind].
  rewrite series_sum_int64. cbn [obind].
  destruct (getitem df' "Resource") as [w| |]; cbn [obind]; try done.
  destruct (nunique w) as [k| |]; cbn [obind]; try done.
  rewrite (derives_start _ _ _ _ _ D). cbn [obind series_min].
  rewrite (derives_finish _ _ _ _ _ D). cbn [obind series_max].
  intros [= <-]. simpl. split_and!; try done. apply D.
Qed.

(** X5. The statistics need the Resource column: on a table without one
    the derive step returns, and [calculate_stats] then raises KeyError. *)
Theorem stats_missing_resource σ r r' σ' df :
  add_finish_column r σ = (Ok r', σ') ->
  σ !! r = Some df ->
  frame_lookup "Resource" df = None ->
  fst (calculate_stats r' σ') = Raise KeyError /\
  fst (stats_pass r σ) = Raise KeyError.
Proof.
  intros H Hr Hn.
  assert (C : fst (calculate_stats r' σ') = Raise KeyError).
  { apply add_finish_column_derives in H
      as (df0 & df' & start & duration & finish & Hr0 & Hr' & _ & _ & D).
    assert (df0 = df) as -> by congruence.
    rewrite (calculate_stats_run _ _ _ Hr'). simpl. unfold stats_frame.
    rewrite (derives_duration _ _ _ _ _ D). cbn [obind].
    rewrite series_sum_int64. cbn [obind].
    rewrite (derives_other _ _ _ _ _ D) by discriminate.
    by rewrite (getitem_absent _ _ Hn). }
  split; [done|]. unfold stats_pass. rewrite bind_eq, H.
  destruct (calculate_stats r' σ') as [o σ2]. simpl in C. by subst o.
Qed.

Lemma stats_missing_resource_witness :
  let out := add_finish_column O [unassigned] in
  fst (calculate_stats 1%nat (snd out)) = Raise KeyError /\
  fst (stats_pass O [unassigned]) = Raise KeyError.
Proof.
  intros out.
  apply (stats_missing_resource [unassigned] O 1%nat (snd out) unassigned).
  - vm_compute. reflexivity.
  - reflexivity.
  - reflexivity.
Defined.

Lemma least_present_NaT l : least_present NaT l -> Forall (fun x => x = NaT) l.
Proof. by intros [[_ H]|[H _]]. Qed.

(** X6. With every duration at least 1: when some row of the stored table
    has a start date, the earliest start and the latest finish are both
    present and the latest finish is at least one day after the earliest
    start; when no row has one, both are missing. *)
Theorem earliest_before_latest σ r st σ' df ss ds :
  stats_pass r σ = (Ok st, σ') ->
  σ !! r = Some df ->
  getitem df "Start" = Ok (SObject ss) ->
  getitem df "Duration" = Ok (SInt64 ds) ->
  Forall (fun d => 1 <= d) ds ->
  (Exists (fun x => x <> PNone) ss ->
   earliest st <> NaT /\ latest st <> NaT /\
   earliest st + NS_PER_DAY <= latest st) /\
  (Forall (fun x => x = PNone) ss ->
   earliest st = NaT /\ latest st = NaT) /\
  (earliest st <> NaT ->
   latest st <> NaT /\ earliest st + NS_PER_DAY <= latest st) /\
  (earliest st = NaT -> latest st = NaT).
Proof.
  intros H Hr Gs G Hds.
  apply stats_pass_ok in H as (df0 & df' & start & duration & finish & Hr0 & D & S).
  assert (df0 = df) as -> by congruence.
  destruct (stats_frame_derived _ _ _ _ _ _ D S) as (_ & _ & -> & ->).
  destruct (derives_source_duration _ _ _ _ _ D) as (d0 & G0 & A).
  rewrite G in G0. injection G0 as <-. apply astype_int_int64 in A. subst duration.
  assert (Rs : forall i s, start !! i = Some s -> in_int64 s = true).
  { destruct (derives_source_start _ _ _ _ _ D) as (s0 & G0 & T).
    rewrite Gs in G0. injection G0 as <-. simpl in T.
    destruct (traverse obj_to_datetime ss) as [ts| |] eqn:E; simpl in T; try done.
    injection T as ->. intros i s Hs.
    destruct (traverse_lookup _ _ _ E) as (Lts & Hts).
    assert (is_Some (ss !! i)) as [x Hx].
    { apply lookup_lt_is_Some. rewrite <- Lts. by apply lookup_lt_is_Some_1. }
    destruct (Hts i x Hx) as (t & Ht & Et).
    assert (t = s) as -> by congruence. by eapply obj_to_datetime_int64. }
  pose proof (skipna_min_least start) as Hmin.
  pose proof (skipna_max_greatest finish) as Hmax.
  set (e := fold_right (skipna Z.min) NaT start) in *.
  set (l := fold_right (skipna Z.max) NaT finish) in *.
  assert (Row : forall i s, start !! i = Some s -> s <> NaT ->
                  exists f, finish !! i = Some f /\ s + NS_PER_DAY <= f /\ f <> NaT).
  { intros i s Hs Hsn.
    assert (is_Some (ds !! i)) as [d Hd].
    { apply lookup_lt_is_Some.
      rewrite (derives_len_duration _ _ _ _ _ D), <- (derives_len_start _ _ _ _ _ D).
      by apply lookup_lt_is_Some_1. }
    assert (1 <= d) as Hd1.
    { rewrite Forall_forall in Hds. apply Hds. by eapply list_elem_of_lookup_2. }
    destruct (derives_row _ _ _ _ _ i s d D Hs Hd) as (f & Hf & Hval & _).
    assert (d <> int64_min) as Hdn by (unfold int64_min; lia).
    destruct (Hval Hsn Hdn) as (-> & _).
    exists (s + d * NS_PER_DAY). split; [done|].
    pose proof (Rs i s Hs) as R.
    unfold in_int64, int64_min, int64_max in R.
    apply andb_true_iff in R as [R1 _]. apply Z.leb_le in R1.
    unfold NS_PER_DAY, NaT, int64_min in *.
    change (86400 * 10 ^ 9) with 86400000000000 in *.
    change (2 ^ 63) with 9223372036854775808 in *.
    split; nia. }
  assert (Src : exists ts, traverse obj_to_datetime ss = Ok ts /\ ts = start).
  { destruct (derives_source_start _ _ _ _ _ D) as (s0 & G0 & T).
    rewrite Gs in G0. injection G0 as <-. simpl in T.
    destruct (traverse obj_to_datetime ss) as [ts| |] eqn:E; simpl in T; try done.
    injection T as ->. eauto. }
  destruct Src as (ts & E & ->).
  destruct (traverse_lookup _ _ _ E) as (Lts & Hts).
  assert (P1 : e <> NaT -> l <> NaT /\ e + NS_PER_DAY <= l).
  { intros He. destruct Hmin as [[? _]|(_ & Hin & Hle)]; [done|].
    apply list_elem_of_lookup_1 in Hin as [i Hi].
    destruct (Row i e Hi He) as (f & Hf & Hlt & Hfn).
    apply list_elem_of_lookup_2 in Hf.
    destruct Hmax as [[_ Hall]|(Hln & _ & Hge)].
    + rewrite Forall_forall in Hall. by specialize (Hall f Hf).
    + split; [done|]. specialize (Hge f Hf Hfn). lia. }
  assert (P2 : e = NaT -> l = NaT).
  { intros He. rewrite He in Hmin. apply least_present_NaT in Hmin.
    destruct Hmax as [[Hl _]|(Hln & Hin & _)]; [done|].
    exfalso. apply list_elem_of_lookup_1 in Hin as [i Hi].
    assert (is_Some (start !! i)) as [s Hs].
    { apply lookup_lt_is_Some.
      rewrite (derives_len_start _ _ _ _ _ D), <- (derives_len_finish _ _ _ _ _ D).
      by apply lookup_lt_is_Some_1. }
    assert (s = NaT) as ->.
    { rewrite Forall_forall in Hmin. apply Hmin. by eapply list_elem_of_lookup_2. }
    assert (is_Some (ds !! i)) as [d Hd].
    { apply lookup_lt_is_Some.
      rewrite (derives_len_duration _ _ _ _ _ D), <- (derives_len_start _ _ _ _ _ D).
      by apply lookup_lt_is_Some_1. }
    destruct (derives_row _ _ _ _ _ i NaT d D Hs Hd) as (f & Hf & _ & Hnat).
    rewrite (Hnat (or_introl eq_refl)) in Hf. congruence. }
  split_and!; try done.
  - intros Hex.
    assert (He : e <> NaT).
    { intros He. rewrite He in Hmin. apply least_present_NaT in Hmin.
      apply Exists_exists in Hex as (x & Hin & Hx).
      apply list_elem_of_lookup_1 in Hin as [i Hi].
      destruct (Hts i x Hi) as (t & Ht & Et).
      apply Hx. apply (obj_to_datetime_missing _ _ Et).
      rewrite Forall_forall in Hmin. apply Hmin. by eapply list_elem_of_lookup_2. }
    split; [done|]. by apply P1.
  - intros Hall.
    assert (He : e = NaT).
    { destruct Hmin as [[? _]|(Hn & Hin & _)]; [done|]. exfalso.
      apply list_elem_of_lookup_1 in Hin as [i Hi].
      assert (is_Some (ss !! i)) as [x Hx].
      { apply lookup_lt_is_Some. rewrite <- Lts. by apply lookup_lt_is_Some_1. }
      destruct (Hts i x Hx) as (t & Ht & Et).
      assert (t = e) as -> by congruence.
      apply obj_to_datetime_missing in Et. apply Hn, Et.
      rewrite Forall_forall in Hall. apply Hall. by eapply list_elem_of_lookup_2. }
    split; [done|]. by apply P2.
Qed.

Lemma earliest_before_latest_witness :
  let out := stats_pass O [scenario] in
  let st := match fst out with Ok st => st
            | _ => {| total_tasks := O; total_days := 0; resources := O;
                      earliest := NaT; latest := NaT |} end in
  earliest st <> NaT /\ latest st <> NaT /\
  earliest st + NS_PER_DAY <= latest st.
Proof.
  intros out st.
  apply (proj1 (earliest_before_latest [scenario] O st (snd out) scenario
                  [PDate (Date 2024 1 1); PDate (Date 2024 1 6)] [5; 10]
                  ltac:(vm_compute; reflexivity) eq_refl eq_refl eq_refl
                  ltac:(repeat constructor; lia))).
  apply Exists_cons_hd. discriminate.
Defined.

Lemma sum_list_between (a b : Z) l :
  Forall (fun d => a <= d <= b) l ->
  Z.of_nat (length l) * a <= sum_list l <= Z.of_nat (length l) * b.
Proof.
  induction 1 as [|x l Hx _ IH]; simpl length; simpl sum_list; [lia|].
  rewrite Nat2Z.inj_succ. lia.
Qed.

(** X7. With every duration between 1 and 365 days, the bounds of the
    grid, the total of days lies between the number of tasks and 365 times
    that number (tables of up to 2^46 rows). *)
Theorem total_days_bounds σ r st σ' df ds :
  stats_pass r σ = (Ok st, σ') ->
  σ !! r = Some df ->
  getitem df "Duration" = Ok (SInt64 ds) ->
  Forall (fun d => 1 <= d <= 365) ds ->
  (len df <= 2 ^ 46)%nat ->
  total_tasks st = len df /\
  total_days st = sum_list ds /\
  Z.of_nat (total_tasks st) <= total_days st <= 365 * Z.of_nat (total_tasks st).
Proof.
  intros H Hr G Hds Hrows.
  apply stats_pass_ok in H as (df0 & df' & start & duration & finish & Hr0 & D & S).
  assert (df0 = df) as -> by congruence.
  destruct (stats_frame_derived _ _ _ _ _ _ D S) as (-> & -> & _ & _).
  destruct (derives_source_duration _ _ _ _ _ D) as (d0 & G0 & A).
  rewrite G in G0. injection G0 as <-. apply astype_int_int64 in A. subst duration.
  pose proof (derives_len_duration _ _ _ _ _ D) as L.
  pose proof (sum_list_between 1 365 ds Hds) as B. rewrite L in B.
  assert (Z.of_nat (len df) <= 2 ^ 46).
  { apply Nat2Z.inj_le in Hrows. rewrite Nat2Z.inj_pow in Hrows. exact Hrows. }
  assert (R : in_int64 (sum_list ds) = true).
  { unfold in_int64, int64_min, int64_max.
    change (2 ^ 46) with 70368744177664 in *.
    change (2 ^ 63) with 9223372036854775808.
    apply andb_true_iff. split; apply Z.leb_le; lia. }
  rewrite (wrap_int64_id _ R). split_and!; try done; lia.
Qed.

Lemma total_days_bounds_witness :
  let out := stats_pass O [scenario] in
  let st := match fst out with Ok st => st
            | _ => {| total_tasks := O; total_days := 0; resources := O;
                      earliest := NaT; latest := NaT |} end in
  total_tasks st = 2%nat /\
  total_days st = 15 /\
  Z.of_nat (total_tasks st) <= total_days st <= 365 * Z.of_nat (total_tasks st).
Proof.
  intros out st.
  apply (total_days_bounds [scenario] O st (snd out) scenario [5; 10]).
  - vm_compute. reflexivity.
  - reflexivity.
  - reflexivity.
  - repeat constructor; lia.
  - change (2 ^ 1 <= 2 ^ 46)%nat. apply Nat.pow_le_mono_r; lia.
Defined.

(** ** Columns that the derive step does not compute *)

(** X16. The derive step touches Start, Duration and Finish only: every
    other column of the table is in the derived table as it was, the
    columns keep their order, and Finish is added last or, where the table
    has a Finish column already, recomputed in its place. *)
Theorem derive_keeps_other_columns σ r r' σ' :
  add_finish_column r σ = (Ok r', σ') ->
  exists df df' start duration finish,
    σ !! r = Some df /\ σ' !! r' = Some df' /\
    (forall k, k <> "Start"%string -> k <> "Duration"%string -> k <> "Finish"%string ->
               getitem df' k = getitem df k) /\
    columns df' = (if bool_decide ("Finish"%string ∈ columns df) then columns df
                   else columns df ++ ["Finish"%string]) /\
    getitem df' "Start" = Ok (SDatetime start) /\
    getitem df' "Duration" = Ok (SInt64 duration) /\
    getitem df' "Finish" = Ok (SDatetime finish) /\
    add_columns start (map (fun d => if is_NaT d then NaT else d * NS_PER_DAY) duration)
    = Ok finish.
Proof.
  intros H.
  apply add_finish_column_derives in H
    as (df & df' & start & duration & finish & Hr & Hr' & _ & _ & D).
  exists df, df', start, duration, finish.
  split_and!; try done; try apply D.
  destruct (derives_delta _ _ _ _ _ D) as (delta & TD & AC).
  assert (delta = map (fun d => if is_NaT d then NaT else d * NS_PER_DAY) duration)
    as <-; [|done].
  eapply traverse_map_inv; [|exact TD].
  intros d t. unfold days_to_ns. destruct (is_NaT d); [by intros [= <-]|].
  destruct (_ && _); [by intros [= <-]|done].
Qed.

Lemma derive_keeps_other_columns_witness :
  let out := add_finish_column O [scenario] in
  exists df df' start duration finish,
    [scenario] !! O = Some df /\ snd out !! 1%nat = Some df' /\
    (forall k, k <> "Start"%string -> k <> "Duration"%string -> k <> "Finish"%string ->
               getitem df' k = getitem df k) /\
    columns df' = (if bool_decide ("Finish"%string ∈ columns df) then columns df
                   else columns df ++ ["Finish"%string]) /\
    getitem df' "Start" = Ok (SDatetime start) /\
    getitem df' "Duration" = Ok (SInt64 duration) /\
    getitem df' "Finish" = Ok (SDatetime finish) /\
    add_columns start (map (fun d => if is_NaT d then NaT else d * NS_PER_DAY) duration)
    = Ok finish.
Proof.
  intros out.
  apply (derive_keeps_other_columns [scenario] O 1%nat (snd out)).
  vm_compute. reflexivity.
Defined.

(** ** The add-task handler *)

(** X8. The add-task handler puts the new row last and keeps the rows and
    the column order of the table; the table it was given stays in the
    store as it was. *)
Theorem add_task_appends σ r df new_task new_start new_duration new_resource r' σ' :
  σ !! r = Some df ->
  add_task r new_task new_start new_duration new_resource σ = (Ok r', σ') ->
  exists c,
    σ' !! r' = Some c /\ σ' !! r = Some df /\ r' <> r /\
    columns c = columns df /\
    (forall xs, getitem df "Task" = Ok (SObject xs) ->
                getitem c "Task" = Ok (SObject (xs ++ [PStr new_task]))) /\
    (forall xs, getitem df "Start" = Ok (SObject xs) ->
                getitem c "Start" = Ok (SObject (xs ++ [PDate new_start]))) /\
    (forall xs, getitem df "Duration" = Ok (SInt64 xs) ->
                getitem c "Duration" = Ok (SInt64 (xs ++ [new_duration]))) /\
    (forall xs, getitem df "Resource" = Ok (SObject xs) ->
                getitem c "Resource" = Ok (SObject (xs ++ [PStr new_resource]))).
Proof.
  intros Hr H.
  destruct (add_task_ok _ _ _ _ _ _ _ _ _ Hr H) as (c & Hc & C).
  exists c.
  rewrite (add_task_run _ _ _ _ _ _ _ Hr) in H. cbv zeta in H. rewrite C in H.
  injection H as <- <-.
  pose proof (lookup_lt_Some _ _ _ Hr) as Hlt.
  split_and!; try done.
  - by apply lookup_app_l_Some.
  - lia.
  - by destruct (pd_concat_inv _ _ _ C).
  - intros xs G.
    destruct (append_task_column _ _ _ _ _ _ _ _ C G) as (sb & s & Lb & A & Gc).
    vm_compute in Lb. injection Lb as <-. simpl in A. by injection A as <-.
  - intros xs G.
    destruct (append_task_column _ _ _ _ _ _ _ _ C G) as (sb & s & Lb & A & Gc).
    vm_compute in Lb. injection Lb as <-. simpl in A. by injection A as <-.
  - intros xs G.
    destruct (append_task_column _ _ _ _ _ _ _ _ C G) as (sb & s & Lb & A & Gc).
    vm_compute in Lb. injection Lb as <-. simpl in A. by injection A as <-.
  - intros xs G.
    destruct (append_task_column _ _ _ _ _ _ _ _ C G) as (sb & s & Lb & A & Gc).
    vm_compute in Lb. injection Lb as <-. simpl in A. by injection A as <-.
Qed.

Lemma add_task_appends_witness :
  let out := add_task O "Test" (Date 2024 2 1) 3 "C" [scenario] in
  exists c,
    snd out !! 2%nat = Some c /\ snd out !! O = Some scenario /\ 2%nat <> O /\
    columns c = columns scenario /\
    (forall xs, getitem scenario "Task" = Ok (SObject xs) ->
                getitem c "Task" = Ok (SObject (xs ++ [PStr "Test"]))) /\
    (forall xs, getitem scenario "Start" = Ok (SObject xs) ->
                getitem c "Start" = Ok (SObject (xs ++ [PDate (Date 2024 2 1)]))) /\
    (forall xs, getitem scenario "Duration" = Ok (SInt64 xs) ->
                getitem c "Duration" = Ok (SInt64 (xs ++ [3]))) /\
    (forall xs, getitem scenario "Resource" = Ok (SObject xs) ->
                getitem c "Resource" = Ok (SObject (xs ++ [PStr "C"]))).
Proof.
  intros out.
  apply (add_task_appends [scenario] O scenario "Test" (Date 2024 2 1) 3 "C"
           2%nat (snd out)).
  - reflexivity.
  - vm_compute. reflexivity.
Defined.

Lemma traverse_snoc_inv {A B} (f : A -> outcome B) l x r :
  traverse f (l ++ [x]) = Ok r ->
  exists r0 y, traverse f l = Ok r0 /\ f x = Ok y /\ r = r0 ++ [y].
Proof.
  revert r. induction l as [|a l IH]; intros r H; simpl in H.
  - destruct (f x) as [y| |] eqn:E; simpl in H; try done.
    injection H as <-. by exists [], y.
  - destruct (f a) as [b| |] eqn:E; simpl in H; try done.
    destruct (traverse f (l ++ [x])) as [r1| |] eqn:T; simpl in H; try done.
    injection H as <-. destruct (IH r1 eq_refl) as (r0 & y & T0 & Ey & ->).
    exists (b :: r0), y. simpl. by rewrite E, T0.
Qed.

Lemma add_columns_snoc_inv ts t ds d r :
  length ts = length ds ->
  add_columns (ts ++ [t]) (ds ++ [d]) = Ok r ->
  exists r0 f, add_columns ts ds = Ok r0 /\ add_ns t d = Ok f /\ r = r0 ++ [f].
Proof.
  revert ds r. induction ts as [|a ts IH]; intros [|b ds] r L H; simpl in L, H;
    try discriminate.
  - destruct (add_ns t d) as [f| |] eqn:E; simpl in H; try done.
    injection H as <-. by exists [], f.
  - destruct (add_ns a b) as [f0| |] eqn:E; simpl in H; try done.
    destruct (add_columns (ts ++ [t]) (ds ++ [d])) as [r1| |] eqn:T; simpl in H;
      try done.
    injection H as <-.
    destruct (IH ds r1 ltac:(lia) T) as (r0 & f & T0 & Ef & ->).
    exists (f0 :: r0), f. simpl. by rewrite E, T0.
Qed.

Lemma skipna_min_snoc xs t :
  t <> NaT ->
  fold_right (skipna Z.min) NaT (xs ++ [t])
  = if is_NaT (fold_right (skipna Z.min) NaT xs) then t
    else Z.min (fold_right (skipna Z.min) NaT xs) t.
Proof.
  intros Ht. rewrite fold_right_app. simpl fold_right at 2.
  change (skipna Z.min t NaT) with t.
  set (F := fun xs => fold_right (skipna Z.min) t xs).
  set (m := fun xs => fold_right (skipna Z.min) NaT xs).
  change (F xs = if is_NaT (m xs) then t else Z.min (m xs) t).
  cut (F xs <> NaT /\ F xs = if is_NaT (m xs) then t else Z.min (m xs) t); [tauto|].
  induction xs as [|x xs [IHn IH]]; [done|].
  unfold F, m in *. simpl fold_right.
  revert IHn IH.
  generalize (fold_right (skipna Z.min) t xs) (fold_right (skipna Z.min) NaT xs).
  intros a b IHn IH. unfold skipna, is_NaT in *.
  destruct (Z.eqb_spec a NaT) as [?|_]; [done|].
  destruct (Z.eqb_spec b NaT) as [Eb|Eb];
    destruct (Z.eqb_spec x NaT) as [Ex|Ex]; subst.
  - split; [done|]. by destruct (Z.eqb_spec NaT NaT).
  - split; [lia|]. destruct (Z.eqb_spec x NaT); [done|]. lia.
  - split; [lia|]. by destruct (Z.eqb_spec b NaT).
  - split; [lia|]. destruct (Z.eqb_spec (Z.min x b) NaT); lia.
Qed.

Lemma skipna_max_snoc xs t :
  t <> NaT ->
  fold_right (skipna Z.max) NaT (xs ++ [t])
  = if is_NaT (fold_right (skipna Z.max) NaT xs) then t
    else Z.max (fold_right (skipna Z.max) NaT xs) t.
Proof.
  intros Ht. rewrite fold_right_app. simpl fold_right at 2.
  change (skipna Z.max t NaT) with t.
  set (F := fun xs => fold_right (skipna Z.max) t xs).
  set (m := fun xs => fold_right (skipna Z.max) NaT xs).
  change (F xs = if is_NaT (m xs) then t else Z.max (m xs) t).
  cut (F xs <> NaT /\ F xs = if is_NaT (m xs) then t else Z.max (m xs) t); [tauto|].
  induction xs as [|x xs [IHn IH]]; [done|].
  unfold F, m in *. simpl fold_right.
  revert IHn IH.
  generalize (fold_right (skipna Z.max) t xs) (fold_right (skipna Z.max) NaT xs).
  intros a b IHn IH. unfold skipna, is_NaT in *.
  destruct (Z.eqb_spec a NaT) as [?|_]; [done|].
  destruct (Z.eqb_spec b NaT) as [Eb|Eb];
    destruct (Z.eqb_spec x NaT) as [Ex|Ex]; subst.
  - split; [done|]. by destruct (Z.eqb_spec NaT NaT).
  - split; [lia|]. destruct (Z.eqb_spec x NaT); [done|]. lia.
  - split; [lia|]. by destruct (Z.eqb_spec b NaT).
  - split; [lia|]. destruct (Z.eqb_spec (Z.max x b) NaT); lia.
Qed.

Lemma sum_list_snoc l x : sum_list (l ++ [x]) = sum_list l + x.
Proof. induction l as [|a l IH]; simpl; lia. Qed.

(** X9. The statistics after the add-task handler, from those before it:
    one task more, the total of days raised by the new duration, the
    earliest start and the latest finish moved outwards to the dates of
    the new task, if at all. *)
Theorem stats_after_add
    σ r df new_task new_start new_duration new_resource r1 σ1 st st1 σa σb :
  σ !! r = Some df ->
  1 <= new_duration ->
  add_task r new_task new_start new_duration new_resource σ = (Ok r1, σ1) ->
  stats_pass r σ = (Ok st, σa) ->
  stats_pass r1 σ1 = (Ok st1, σb) ->
  exists t,
    date_to_ns new_start = Ok t /\
    total_tasks st1 = S (total_tasks st) /\
    total_days st1 = wrap_int64 (total_days st + new_duration) /\
    earliest st1 = (if is_NaT (earliest st) then t else Z.min (earliest st) t) /\
    latest st1 = (if is_NaT (latest st) then t + new_duration * NS_PER_DAY
                  else Z.max (latest st) (t + new_duration * NS_PER_DAY)).
Proof.
  intros Hr Hd Hadd Hst Hst1.
  destruct (add_task_ok _ _ _ _ _ _ _ _ _ Hr Hadd) as (c & Hc & C).
  apply stats_pass_ok in Hst as (df0 & df' & start & duration & finish & Hr0 & D & S).
  assert (df0 = df) as -> by congruence.
  apply stats_pass_ok in Hst1
    as (c0 & c' & start1 & duration1 & finish1 & Hc0 & D1 & S1).
  assert (c0 = c) as -> by congruence.
  destruct (stats_frame_derived _ _ _ _ _ _ D S) as (Tn & Td & Te & Tl).
  destruct (stats_frame_derived _ _ _ _ _ _ D1 S1) as (Tn1 & Td1 & Te1 & Tl1).
  (* the Duration columns *)
  destruct (derives_source_duration _ _ _ _ _ D) as (d0 & G0 & A0).
  destruct (append_task_column _ _ _ _ _ _ _ _ C G0) as (sb & s' & Lb & A & Gc).
  vm_compute in Lb. injection Lb as <-.
  destruct d0 as [|ds| | |]; simpl in A; try done. injection A as <-.
  apply astype_int_int64 in A0. subst duration.
  destruct (derives_source_duration _ _ _ _ _ D1) as (d1 & G1 & A1).
  rewrite Gc in G1. injection G1 as <-.
  apply astype_int_int64 in A1. subst duration1.
  (* the Start columns *)
  destruct (derives_source_start _ _ _ _ _ D) as (s0 & Gs0 & T0).
  destruct (append_task_column _ _ _ _ _ _ _ _ C Gs0) as (sb & s' & Lb & A & Gcs).
  vm_compute in Lb. injection Lb as <-.
  destruct s0 as [ss| | | |]; simpl in A; try done. injection A as <-.
  destruct (derives_source_start _ _ _ _ _ D1) as (s1 & Gs1 & T1).
  rewrite Gcs in Gs1. injection Gs1 as <-.
  simpl in T0, T1.
  destruct (traverse obj_to_datetime ss) as [ts| |] eqn:E0; simpl in T0; try done.
  injection T0 as ->.
  destruct (traverse obj_to_datetime (ss ++ [PDate new_start])) as [ts1| |] eqn:E1;
    simpl in T1; try done.
  injection T1 as ->.
  apply traverse_snoc_inv in E1 as (r0 & t & E0' & Et & ->).
  rewrite E0 in E0'. injection E0' as <-. simpl in Et.
  (* the Finish columns *)
  destruct (derives_delta _ _ _ _ _ D) as (delta & TD & AC).
  destruct (derives_delta _ _ _ _ _ D1) as (delta1 & TD1 & AC1).
  apply traverse_snoc_inv in TD1 as (delta0 & td & TD0 & Etd & ->).
  rewrite TD in TD0. injection TD0 as <-.
  apply add_columns_snoc_inv in AC1 as (fin0 & f & AC0 & Ef & ->).
  2:{ destruct (add_columns_lookup _ _ _ AC) as (L & _). exact L. }
  rewrite AC in AC0. injection AC0 as <-.
  destruct (date_to_ns_inv _ _ Et) as (_ & _ & Rt & Ht & _).
  assert (Hdn : new_duration <> int64_min) by (unfold int64_min; lia).
  apply days_to_ns_inv in Etd as [[? _]|(_ & -> & _)]; [done|].
  apply add_ns_inv in Ef as [[[?|E] _]|(_ & _ & -> & Rf)]; [done| |].
  { unfold NaT, int64_min, NS_PER_DAY in E.
    change (86400 * 10 ^ 9) with 86400000000000 in E.
    change (2 ^ 63) with 9223372036854775808 in E. lia. }
  assert (Hf : t + new_duration * NS_PER_DAY <> NaT).
  { unfold in_int64, int64_min in Rt. apply andb_true_iff in Rt as [R1 _].
    apply Z.leb_le in R1. unfold NaT, int64_min, NS_PER_DAY in *.
    change (86400 * 10 ^ 9) with 86400000000000.
    change (2 ^ 63) with 9223372036854775808 in *. nia. }
  exists t. split; [done|].
  pose proof (derives_len_duration _ _ _ _ _ D) as L.
  pose proof (derives_len_duration _ _ _ _ _ D1) as L1.
  rewrite length_app in L1. simpl in L1.
  split_and!.
  - rewrite Tn, Tn1. lia.
  - rewrite Td1, Td, sum_list_snoc. by rewrite wrap_int64_add.
  - rewrite Te1, Te. by apply skipna_min_snoc.
  - rewrite Tl1, Tl. by apply skipna_max_snoc.
Qed.

Lemma stats_after_add_witness :
  let added := add_task O "Test" (Date 2024 2 1) 3 "C" [scenario] in
  let before := stats_pass O [scenario] in
  let after := stats_pass 2%nat (snd added) in
  let st := {| total_tasks := 2; total_days := 15; resources := 2;
               earliest := 1704067200000000000; latest := 1705363200000000000 |} in
  let st1 := {| total_tasks := 3; total_days := 18; resources := 3;
                earliest := 1704067200000000000; latest := 1707004800000000000 |} in
  exists t,
    date_to_ns (Date 2024 2 1) = Ok t /\
    total_tasks st1 = S (total_tasks st) /\
    total_days st1 = wrap_int64 (total_days st + 3) /\
    earliest st1 = (if is_NaT (earliest st) then t else Z.min (earliest st) t) /\
    latest st1 = (if is_NaT (latest st) then t + 3 * NS_PER_DAY
                  else Z.max (latest st) (t + 3 * NS_PER_DAY)).
Proof.
  intros added before after st st1.
  apply (stats_after_add [scenario] O scenario "Test" (Date 2024 2 1) 3 "C"
           2%nat (snd added) st st1 (snd before) (snd after)).
  - reflexivity.
  - lia.
  - vm_compute. reflexivity.
  - vm_compute. reflexivity.
  - vm_compute. reflexivity.
Defined.

(** ** The session: tables are never changed in place *)

Lemma add_task_store r new_task new_start new_duration new_resource σ :
  take (length σ) (snd (add_task r new_task new_start new_duration new_resource σ)) = σ.
Proof.
  unfold add_task.
  set (row := new_row new_task new_start new_duration new_resource).
  rewrite bind_eq. unfold alloc at 1.
  rewrite bind_eq. unfold load at 1.
  match goal with |- context [match ?x with Some _ => _ | None => _ end] =>
    destruct x as [a|] end; [|by simpl; rewrite take_app_length].
  rewrite bind_eq. unfold load at 1.
  match goal with |- context [match ?x with Some _ => _ | None => _ end] =>
    destruct x as [b|] end; [|by simpl; rewrite take_app_length].
  rewrite bind_eq. unfold lift.
  destruct (pd_concat a b); simpl; try by rewrite take_app_length.
  rewrite <- app_assoc. by rewrite take_app_length.
Qed.

Lemma session_step_store seed s s' :
  session_step seed s s' -> take (length (fst s)) (fst s') = fst s.
Proof.
  intros Hstep.
  destruct Hstep as [σ r t st d w r' σ' Hd H|σ r r' σ' H|σ r e r' σ' He H
                     |σ r o σ' H|q σ r r0 o σ' H|σ r r0 o σ' H]; simpl.
  - pose proof (add_task_store r t st d w σ) as F. by rewrite H in F.
  - unfold alloc in H. injection H as <- <-. apply take_app_length.
  - unfold alloc in H. injection H as <- <-. apply take_app_length.
  - pose proof (add_finish_column_store r σ) as F. by rewrite H in F.
  - pose proof (convert_df_to_csv_store q r0 σ) as F. rewrite H in F.
    simpl in F. subst. apply firstn_all.
  - pose proof (convert_df_to_excel_store r0 σ) as F. rewrite H in F.
    simpl in F. subst. apply firstn_all.
Qed.

(** X10. No operation of the session changes a table in place: through
    add, reset, edit, derive and export, every table that is in the store
    stays in it as it is, and [st.session_state.df] is bound to a table of
    the store at all times. *)
Theorem session_tables_persist seed s s' :
  rtc (session_step seed) s s' ->
  (forall i df, fst s !! i = Some df -> fst s' !! i = Some df) /\
  (is_Some (fst s !! snd s) -> is_Some (fst s' !! snd s')).
Proof.
  induction 1 as [s|s1 s2 s3 Hstep _ [IH1 IH2]]; [done|].
  pose proof (session_step_store _ _ _ Hstep) as F.
  split.
  - intros i df Hi. apply IH1. rewrite <- F in Hi.
    by apply lookup_take_Some in Hi as [? _].
  - intros [df Hl]. apply IH2.
    destruct Hstep as [σ r t st d w r' σ' Hd H|σ r r' σ' H|σ r e r' σ' He H
                       |σ r o σ' H|q σ r r0 o σ' H|σ r r0 o σ' H]; simpl in *.
    + destruct (add_task_ok _ _ _ _ _ _ _ _ _ Hl H) as (c & Hc & _). eauto.
    + unfold alloc in H. injection H as <- <-. rewrite store_lookup_last. eauto.
    + unfold alloc in H. injection H as <- <-. rewrite store_lookup_last. eauto.
    + rewrite <- F in Hl. apply lookup_take_Some in Hl as [? _]. eauto.
    + rewrite <- F in Hl. apply lookup_take_Some in Hl as [? _]. eauto.
    + rewrite <- F in Hl. apply lookup_take_Some in Hl as [? _]. eauto.
Qed.

Lemma session_tables_persist_witness :
  let added := add_task O "Test" (Date 2024 2 1) 3 "C" [scenario] in
  (forall i df, [scenario] !! i = Some df -> snd added !! i = Some df) /\
  (is_Some ([scenario] !! O) -> is_Some (snd added !! 2%nat)).
Proof.
  intros added.
  apply (session_tables_persist scenario ([scenario], O) (snd added, 2%nat)).
  apply rtc_once.
  apply (step_add scenario [scenario] O "Test" (Date 2024 2 1) 3 "C" 2%nat (snd added)).
  - lia.
  - vm_compute. reflexivity.
Defined.

(** ** The Excel export *)

Lemma to_excel_inv df sheet wb :
  to_excel df sheet = Ok wb ->
  exists header cols,
    traverse xl_text (columns df) = Ok header /\
    traverse (fun c => xl_series (snd c)) df = Ok cols /\
    wb = {| sheet_name := sheet;
            sheet_rows := header :: rows_of XBlank (len df) cols |}.
Proof.
  unfold to_excel. destruct df as [|c df]; [done|].
  destruct (traverse xl_text (columns (c :: df))) as [header| |];
    cbn [obind]; try done.
  destruct (traverse (fun c => xl_series (snd c)) (c :: df)) as [cols| |];
    cbn [obind]; try done.
  intros [= <-]. eauto.
Qed.

Lemma xl_text_inv s c : xl_text s = Ok c -> has_illegal_char s = false /\ c = XText s.
Proof. unfold xl_text. destruct (has_illegal_char s); [done|]. by intros [= <-]. Qed.

Lemma xl_header_inv ks header :
  traverse xl_text ks = Ok header ->
  header = map XText ks /\ Forall (fun k => has_illegal_char k = false) ks.
Proof.
  revert header. induction ks as [|k ks IH]; intros header H; simpl in H.
  - by injection H as <-.
  - destruct (xl_text k) as [c| |] eqn:E; simpl in H; try done.
    destruct (traverse xl_text ks) as [cs| |]; simpl in H; try done.
    injection H as <-. apply xl_text_inv in E as [E ->].
    destruct (IH cs eq_refl) as [-> F]. split; [done|by constructor].
Qed.

Lemma excel_pass_ok σ r wb σ' :
  excel_pass r σ = (Ok wb, σ') ->
  exists df df' start duration finish,
    σ !! r = Some df /\ derives df df' start duration finish /\
    to_excel df' sheet_title = Ok wb.
Proof.
  unfold excel_pass. rewrite bind_eq.
  destruct (add_finish_column r σ) as [[r'| |] σ1] eqn:H; try done.
  apply add_finish_column_derives in H
    as (df & df' & start & duration & finish & Hr & Hr' & _ & _ & D).
  unfold convert_df_to_excel. rewrite bind_eq, (load_run _ _ _ Hr').
  unfold lift. destruct (to_excel df' sheet_title) as [w| |] eqn:T; try done.
  intros [= <- _]. by exists df, df', start, duration, finish.
Qed.

(** The cell of a sheet row under a label of the frame. *)
Lemma excel_cell df cols k s :
  traverse (fun c => xl_series (snd c)) df = Ok cols ->
  getitem df k = Ok s ->
  exists j col,
    index_of k (columns df) = Some j /\ xl_series s = Ok col /\
    forall i, row_at XBlank cols i !! j = Some (nth i col XBlank).
Proof.
  intros T G. apply getitem_inv in G as (L & _ & _).
  destruct (index_of_lookup _ _ _ L) as (j & k' & Hj & Hs).
  destruct (traverse_lookup _ _ _ T) as [_ Hall].
  destruct (Hall j (k', s) Hs) as (col & Hc & F).
  exists j, col. split_and!; try done.
  intros i. unfold row_at. by rewrite list_lookup_fmap, Hc.
Qed.

Lemma xl_timestamp_inv t c :
  xl_timestamp t = Ok c -> c = if is_NaT t then XBlank else XDateTime t.
Proof.
  unfold xl_timestamp. destruct (is_NaT t); [by intros [= <-]|].
  destruct (xl_first_day <=? day_of t); [|done]. by intros [= <-].
Qed.

(** X11. The workbook of the Excel export has the sheet title of the app,
    a first row of the labels of the derived table and one row per task,
    each with a cell per column; the Start and Finish cells hold the
    timestamps of the row, and are blank where the date is missing. *)
Theorem excel_export_layout σ r df wb σ' :
  σ !! r = Some df ->
  excel_pass r σ = (Ok wb, σ') ->
  sheet_name wb = sheet_title /\
  exists df' start finish body i_start i_finish,
    sheet_rows wb = map XText (columns df') :: body /\
    columns df' = (if bool_decide ("Finish"%string ∈ columns df) then columns df
                   else columns df ++ ["Finish"%string]) /\
    length body = len df /\
    getitem df' "Start" = Ok (SDatetime start) /\
    getitem df' "Finish" = Ok (SDatetime finish) /\
    index_of "Start" (columns df') = Some i_start /\
    index_of "Finish" (columns df') = Some i_finish /\
    forall i row, body !! i = Some row ->
      length row = length (columns df') /\
      exists s f,
        start !! i = Some s /\ finish !! i = Some f /\
        row !! i_start = Some (if is_NaT s then XBlank else XDateTime s) /\
        row !! i_finish = Some (if is_NaT f then XBlank else XDateTime f).
Proof.
  intros Hr H.
  apply excel_pass_ok in H as (df0 & df' & start & duration & finish & Hr0 & D & T).
  assert (df0 = df) as -> by congruence.
  apply to_excel_inv in T as (header & cols & Th & Tc & ->).
  apply xl_header_inv in Th as [-> _].
  split; [done|].
  destruct (excel_cell _ _ _ _ Tc (derives_start _ _ _ _ _ D))
    as (i_s & col_s & Is & Fs & Cs).
  destruct (excel_cell _ _ _ _ Tc (derives_finish _ _ _ _ _ D))
    as (i_f & col_f & If & Ff & Cf).
  simpl in Fs, Ff.
  exists df', start, finish, (rows_of XBlank (len df') cols), i_s, i_f.
  split_and!; try done; try apply D.
  - unfold rows_of. rewrite length_map, length_seq. apply D.
  - intros i row Hrow. unfold rows_of in Hrow.
    rewrite list_lookup_fmap in Hrow.
    destruct (seq 0 (len df') !! i) as [j|] eqn:E; simpl in Hrow; [|done].
    apply lookup_seq in E as [-> Hi]. injection Hrow as <-. simpl.
    split.
    { unfold row_at, columns. rewrite !length_map.
      by destruct (traverse_lookup _ _ _ Tc) as [-> _]. }
    rewrite (derives_len _ _ _ _ _ D) in Hi.
    assert (is_Some (start !! i)) as [s Hs].
    { apply lookup_lt_is_Some. by rewrite (derives_len_start _ _ _ _ _ D). }
    assert (is_Some (finish !! i)) as [f Hf].
    { apply lookup_lt_is_Some. by rewrite (derives_len_finish _ _ _ _ _ D). }
    exists s, f. rewrite Cs, Cf, !nth_lookup.
    destruct (traverse_lookup _ _ _ Fs) as [_ Hcs].
    destruct (traverse_lookup _ _ _ Ff) as [_ Hcf].
    destruct (Hcs i s Hs) as (cs & -> & Es).
    destruct (Hcf i f Hf) as (cf & -> & Ef).
    apply xl_timestamp_inv in Es, Ef. subst. done.
Qed.

Lemma excel_export_layout_witness :
  let out := excel_pass O [scenario] in
  let wb := match fst out with Ok wb => wb
            | _ => {| sheet_name := EmptyString; sheet_rows := [] |} end in
  sheet_name wb = sheet_title /\ length (sheet_rows wb) = 3%nat.
Proof.
  intros out wb.
  destruct (excel_export_layout [scenario] O scenario wb (snd out))
    as (N & df' & start & finish & body & i_s & i_f & R & _ & L & _).
  - reflexivity.
  - vm_compute. reflexivity.
  - split; [exact N|]. rewrite R. simpl. by rewrite L.
Defined.

Lemma xl_obj_text s c : xl_obj (PStr s) = Ok c -> has_illegal_char s = false.
Proof. simpl. intros H. by apply xl_text_inv in H as [? _]. Qed.

(** X12. openpyxl refuses control characters: when a text cell of the
    table (a task name, say) holds one, the Excel export never returns a
    workbook. The delimited-text export of a table of the data model
    returns all the same. *)
Theorem excel_rejects_control_characters quote_cr σ r df k xs s :
  σ !! r = Some df ->
  getitem df k = Ok (SObject xs) ->
  k <> "Start"%string -> k <> "Duration"%string -> k <> "Finish"%string ->
  PStr s ∈ xs -> has_illegal_char s = true ->
  (forall wb σ', excel_pass r σ <> (Ok wb, σ')) /\
  (task_table df -> exists payload σ', csv_pass quote_cr r σ = (Ok payload, σ')).
Proof.
  intros Hr G N1 N2 N3 Hin Hs. split; [|by apply csv_pass_task_table].
  intros wb σ' H.
  apply excel_pass_ok in H as (df0 & df' & start & duration & finish & Hr0 & D & T).
  assert (df0 = df) as -> by congruence.
  apply to_excel_inv in T as (header & cols & _ & Tc & _).
  rewrite <- (derives_other _ _ _ _ _ D k N1 N2 N3) in G.
  destruct (excel_cell _ _ _ _ Tc G) as (j & col & _ & F & _).
  simpl in F. destruct (traverse_lookup _ _ _ F) as [_ Hall].
  apply list_elem_of_lookup_1 in Hin as [i Hi].
  destruct (Hall i (PStr s) Hi) as (c & _ & E).
  apply xl_obj_text in E. congruence.
Qed.

Lemma excel_rejects_control_characters_witness :
  (forall wb σ', excel_pass O [control_character] <> (Ok wb, σ')) /\
  (task_table control_character ->
   exists payload σ', csv_pass false O [control_character] = (Ok payload, σ')).
Proof.
  apply (excel_rejects_control_characters false [control_character] O
           control_character "Task"
           [PStr (String (ascii_of_nat 1) "Design")]
           (String (ascii_of_nat 1) "Design")).
  - reflexivity.
  - reflexivity.
  - discriminate.
  - discriminate.
  - discriminate.
  - apply list_elem_of_here.
  - vm_compute. reflexivity.
Defined.

(** ** The delimited-text export *)

(** X13. Whatever text the cells hold (commas, quotes, line feeds), a
    reader finds in an export one record for the labels and one per task,
    each with as many fields as the derived table has columns. *)
Theorem csv_records_rectangular quote_cr σ r df payload σ' :
  σ !! r = Some df ->
  quote_cr = true \/ frame_cr_free df = true ->
  csv_pass quote_cr r σ = (Ok payload, σ') ->
  length (reader RecordStart (strip_bom payload)) = S (len df) /\
  Forall (fun record =>
            length record
            = if bool_decide ("Finish"%string ∈ columns df) then length (columns df)
              else S (length (columns df)))
         (reader RecordStart (strip_bom payload)).
Proof.
  intros Hr Hq H.
  destruct (reader_export quote_cr σ r payload σ') as
    (df0 & df' & start & duration & finish & cols & Hr0 & D & T & _ & ->);
    [destruct Hq; eauto|done|].
  assert (df0 = df) as -> by congruence.
  assert (Hn : length (columns df')
               = if bool_decide ("Finish"%string ∈ columns df) then length (columns df)
                 else S (length (columns df))).
  { rewrite (derives_columns _ _ _ _ _ D).
    destruct (bool_decide _); [done|]. rewrite length_app. simpl. lia. }
  split.
  - simpl. unfold rows_of. rewrite length_map, length_seq.
    by rewrite (derives_len _ _ _ _ _ D).
  - constructor; [done|]. apply Forall_forall. intros row Hin.
    unfold rows_of in Hin. apply list_elem_of_fmap in Hin as (i & -> & _).
    unfold row_at. rewrite length_map, <- Hn. unfold columns. rewrite length_map.
    by destruct (traverse_lookup _ _ _ T) as [-> _].
Qed.

Lemma csv_records_rectangular_witness :
  let out := csv_pass false O [scenario] in
  let payload := match fst out with Ok p => p | _ => EmptyString end in
  length (reader RecordStart (strip_bom payload)) = 3%nat /\
  Forall (fun record => length record = 5%nat)
         (reader RecordStart (strip_bom payload)).
Proof.
  intros out payload.
  apply (csv_records_rectangular false [scenario] O scenario payload (snd out)).
  - reflexivity.
  - right. vm_compute. reflexivity.
  - vm_compute. reflexivity.
Defined.

(** X14. The export of a table without rows is the byte-order mark and
    the header line, nothing else. *)
Theorem csv_of_empty_table quote_cr σ r df payload σ' :
  σ !! r = Some df ->
  len df = O ->
  csv_pass quote_cr r σ = (Ok payload, σ') ->
  exists df',
    columns df' = (if bool_decide ("Finish"%string ∈ columns df) then columns df
                   else columns df ++ ["Finish"%string]) /\
    payload = BOM +:+ write_record quote_cr (columns df') /\
    (columns df = ["Task"; "Start"; "Duration"; "Resource"]%string ->
     payload = BOM +:+ "Task,Start,Duration,Resource,Finish" +:+ String LF EmptyString).
Proof.
  intros Hr L H.
  apply csv_pass_text in H as (df0 & df' & start & duration & finish & cols
                               & Hr0 & D & T & ->).
  assert (df0 = df) as -> by congruence.
  exists df'. split; [apply D|].
  rewrite (derives_len _ _ _ _ _ D), L. unfold encode_utf8_sig.
  change (rows_of EmptyString 0 cols) with (@nil (list string)).
  cbn [write_records]. rewrite append_empty_r.
  split; [done|]. intros Hc.
  rewrite (derives_columns _ _ _ _ _ D), Hc. by destruct quote_cr.
Qed.

Lemma csv_of_empty_table_witness :
  let out := csv_pass false O [no_tasks] in
  let payload := match fst out with Ok p => p | _ => EmptyString end in
  payload = BOM +:+ "Task,Start,Duration,Resource,Finish" +:+ String LF EmptyString.
Proof.
  intros out payload.
  destruct (csv_of_empty_table false [no_tasks] O no_tasks payload (snd out))
    as (df' & _ & _ & E).
  - reflexivity.
  - reflexivity.
  - vm_compute. reflexivity.
  - apply E. reflexivity.
Defined.

(** ** A run of the page *)

Lemma csv_pass_outcome q σ r df :
  σ !! r = Some df ->
  fst (csv_pass q r σ)
  = let% df' := finish_frame df in
    let% text := to_csv q df' in
    Ok (encode_utf8_sig text).
Proof.
  intros Hr. destruct (add_finish_column_run σ r df Hr) as (tmp & Hrun & Htmp).
  unfold csv_pass. rewrite bind_eq, Hrun.
  destruct (finish_frame df) as [df'| |]; cbn [obind]; try done.
  rewrite (Htmp df' eq_refl). unfold convert_df_to_csv.
  rewrite bind_eq, (load_run _ _ _ (store_lookup_last σ df')).
  rewrite bind_eq. unfold lift, ret. by destruct (to_csv q df').
Qed.

Lemma excel_pass_outcome σ r df :
  σ !! r = Some df ->
  fst (excel_pass r σ)
  = let% df' := finish_frame df in to_excel df' sheet_title.
Proof.
  intros Hr. destruct (add_finish_column_run σ r df Hr) as (tmp & Hrun & Htmp).
  unfold excel_pass. rewrite bind_eq, Hrun.
  destruct (finish_frame df) as [df'| |]; cbn [obind]; try done.
  rewrite (Htmp df' eq_refl). unfold convert_df_to_excel.
  by rewrite bind_eq, (load_run _ _ _ (store_lookup_last σ df')).
Qed.

Lemma stats_pass_outcome σ r df :
  σ !! r = Some df ->
  fst (stats_pass r σ) = let% df' := finish_frame df in stats_frame df'.
Proof.
  intros Hr. destruct (add_finish_column_run σ r df Hr) as (tmp & Hrun & Htmp).
  unfold stats_pass. rewrite bind_eq, Hrun.
  destruct (finish_frame df) as [df'| |]; cbn [obind]; try done.
  rewrite (Htmp df' eq_refl).
  by rewrite (calculate_stats_run _ _ _ (store_lookup_last σ df')).
Qed.

(** A run without a click, as a function of the table of the session. *)
Lemma page_outcome q seed w σ r df :
  w_add w = false -> w_reset w = false ->
  σ !! r = Some df ->
  fst (page q seed w r σ)
  = let% df' := finish_frame df in
    let% text := to_csv q df' in
    let% wb := to_excel df' sheet_title in
    let% st := stats_frame df' in
    let% cards := stat_cards st in
    Ok (r, Cards (encode_utf8_sig text) wb cards).
Proof.
  intros Ha Hc Hr. unfold page. rewrite Ha, Hc.
  destruct (add_finish_column_run σ r df Hr) as (tmp & Hrun & Htmp).
  rewrite bind_eq, Hrun.
  destruct (finish_frame df) as [df'| |] eqn:F; cbn [obind]; try done.
  rewrite (Htmp df' eq_refl). unfold convert_df_to_csv.
  rewrite bind_eq, bind_eq, (load_run _ _ _ (store_lookup_last σ df')).
  rewrite bind_eq. unfold lift at 1, ret at 1.
  destruct (to_csv q df') as [text| |]; cbn [obind]; try done.
  unfold convert_df_to_excel.
  rewrite bind_eq, bind_eq, (load_run _ _ _ (store_lookup_last σ df')).
  unfold lift at 1.
  destruct (to_excel df' sheet_title) as [wb| |]; cbn [obind]; try done.
  assert (Hr2 : (σ ++ [df']) !! r = Some df) by (by apply lookup_app_l_Some).
  destruct (add_finish_column_run (σ ++ [df']) r df Hr2) as (tmp2 & Hrun2 & Htmp2).
  rewrite bind_eq, Hrun2, F. cbn [obind]. rewrite (Htmp2 df' F).
  rewrite bind_eq, (calculate_stats_run _ _ _ (store_lookup_last (σ ++ [df']) df')).
  destruct (stats_frame df') as [st| |]; cbn [obind]; try done.
  rewrite bind_eq. unfold lift, ret.
  by destruct (stat_cards st).
Qed.

(** X15. A run of the page without a click, on a table whose exports and
    statistics are computed: when no row has a start date, as on a table
    without rows, [earliest.strftime] raises ValueError and the run ends
    there; when some row has one, the run gives the two downloads and the
    four cards, the last being the earliest start in the form
    YYYY-MM-DD. *)
Theorem page_cards quote_cr seed w σ r df ss payload σ1 wb σ2 st σ3 :
  w_add w = false -> w_reset w = false ->
  σ !! r = Some df ->
  getitem df "Start" = Ok (SObject ss) ->
  csv_pass quote_cr r σ = (Ok payload, σ1) ->
  excel_pass r σ = (Ok wb, σ2) ->
  stats_pass r σ = (Ok st, σ3) ->
  (Forall (fun x => x = PNone) ss ->
   fst (page quote_cr seed w r σ) = Raise ValueError) /\
  (Exists (fun x => x <> PNone) ss ->
   iso_shape (format_timestamp (earliest st)) = true /\
   fst (page quote_cr seed w r σ)
   = Ok (r, Cards payload wb
              [ Z_to_string (Z.of_nat (len df)); Z_to_string (total_days st);
                Z_to_string (Z.of_nat (resources st));
                format_timestamp (earliest st) ])).
Proof.
  intros Ha Hc Hr Gs Hcsv Hxl Hst.
  pose proof (csv_pass_outcome quote_cr σ r df Hr) as Ocsv. rewrite Hcsv in Ocsv.
  pose proof (excel_pass_outcome σ r df Hr) as Oxl. rewrite Hxl in Oxl.
  pose proof (stats_pass_outcome σ r df Hr) as Ost. rewrite Hst in Ost.
  rewrite (page_outcome quote_cr seed w σ r df Ha Hc Hr).
  simpl in Ocsv, Oxl, Ost.
  destruct (finish_frame df) as [df'| |] eqn:F; cbn [obind] in *; try done.
  destruct (to_csv quote_cr df') as [text| |]; cbn [obind] in *; try done.
  injection Ocsv as ->. rewrite <- Oxl, <- Ost. cbn [obind].
  destruct (finish_frame_inv _ _ F) as (start & duration & finish & D).
  symmetry in Ost.
  destruct (stats_frame_derived _ _ _ _ _ _ D Ost) as (Tn & _ & Te & _).
  destruct (derives_source_start _ _ _ _ _ D) as (s0 & G0 & T).
  rewrite Gs in G0. injection G0 as <-. simpl in T.
  destruct (traverse obj_to_datetime ss) as [ts| |] eqn:E; simpl in T; try done.
  injection T as ->.
  destruct (traverse_lookup _ _ _ E) as (Lts & Hts).
  pose proof (skipna_min_least start) as Hmin. rewrite <- Te in Hmin.
  split.
  - intros Hall.
    assert (En : earliest st = NaT).
    { destruct Hmin as [[? _]|(Hn & Hin & _)]; [done|]. exfalso.
      apply list_elem_of_lookup_1 in Hin as [i Hi].
      assert (is_Some (ss !! i)) as [x Hx].
      { apply lookup_lt_is_Some. rewrite <- Lts. by apply lookup_lt_is_Some_1. }
      destruct (Hts i x Hx) as (t & Ht & Et).
      assert (t = earliest st) as -> by congruence.
      apply obj_to_datetime_missing in Et. apply Hn, Et.
      rewrite Forall_forall in Hall. apply Hall. by eapply list_elem_of_lookup_2. }
    unfold stat_cards, strftime_ymd. by rewrite En.
  - intros Hex.
    assert (En : earliest st <> NaT /\ in_int64 (earliest st) = true).
    { destruct Hmin as [[Hn Hall]|(Hn & Hin & _)].
      - exfalso. apply Exists_exists in Hex as (x & Hin & Hx).
        apply list_elem_of_lookup_1 in Hin as [i Hi].
        destruct (Hts i x Hi) as (t & Ht & Et).
        apply Hx. apply (obj_to_datetime_missing _ _ Et).
        rewrite Forall_forall in Hall. apply Hall. by eapply list_elem_of_lookup_2.
      - split; [done|].
        apply list_elem_of_lookup_1 in Hin as [i Hi].
        assert (is_Some (ss !! i)) as [x Hx].
        { apply lookup_lt_is_Some. rewrite <- Lts. by apply lookup_lt_is_Some_1. }
        destruct (Hts i x Hx) as (t & Ht & Et).
        assert (t = earliest st) as -> by congruence.
        by eapply obj_to_datetime_int64. }
    destruct En as [En Ri].
    split; [by apply format_timestamp_present|].
    unfold stat_cards, strftime_ymd, format_timestamp, is_NaT.
    apply Z.eqb_neq in En. rewrite En, Ri. cbn [obind]. by rewrite Tn.
Qed.

Lemma page_cards_witness :
  fst (page false scenario untouched O [no_tasks]) = Raise ValueError.
Proof.
  apply (proj1 (page_cards false scenario untouched [no_tasks] O no_tasks []
                  (BOM +:+ "Task,Start,Duration,Resource,Finish" +:+ String LF EmptyString)
                  (snd (csv_pass false O [no_tasks]))
                  (match fst (excel_pass O [no_tasks]) with
                   | Ok wb => wb
                   | _ => {| sheet_name := EmptyString; sheet_rows := [] |} end)
                  (snd (excel_pass O [no_tasks]))
                  {| total_tasks := O; total_days := 0; resources := O;
                     earliest := NaT; latest := NaT |}
                  (snd (stats_pass O [no_tasks]))
                  eq_refl eq_refl eq_refl eq_refl
                  ltac:(vm_compute; reflexivity)
                  ltac:(vm_compute; reflexivity)
                  ltac:(vm_compute; reflexivity))).
  constructor.
Defined.

(** ** A task that is too long *)

Lemma series_append_len a b s :
  series_append a b = Ok s -> series_len s = (series_len a + series_len b)%nat.
Proof.
  destruct a, b; simpl; try done; intros [= <-]; simpl; apply length_app.
Qed.

Lemma new_row_column_len k sb t s d w :
  frame_lookup k (new_row t s d w) = Some sb -> series_len sb = 1%nat.
Proof.
  unfold new_row. simpl.
  repeat (destruct (String.eqb k _); [by intros [= <-]|]). done.
Qed.

Lemma pd_concat_nonempty a b c : pd_concat a b = Ok c -> b <> [] -> a <> [].
Proof.
  unfold pd_concat. intros H Hb ->. destruct b as [|[k s] b]; [done|].
  simpl in H. discriminate.
Qed.

Lemma add_task_len df c t s d w :
  pd_concat df (new_row t s d w) = Ok c -> len c = S (len df).
Proof.
  intros C. pose proof (pd_concat_nonempty _ _ _ C ltac:(done)) as N.
  destruct (pd_concat_inv _ _ _ C) as [Hc Hl].
  destruct df as [|[k0 s0] df]; [done|].
  destruct (Hl k0 s0) as (sb & s' & Lb & A & Lc).
  { simpl. by rewrite String.eqb_refl. }
  destruct c as [|[k1 s1] c]; [done|]. simpl in Hc. injection Hc as -> _.
  simpl in Lc. rewrite String.eqb_refl in Lc. injection Lc as ->.
  simpl. rewrite (series_append_len _ _ _ A), (new_row_column_len _ _ _ _ _ _ Lb). lia.
Qed.

Lemma traverse_snoc {A B} (f : A -> outcome B) l x r y :
  traverse f l = Ok r -> f x = Ok y -> traverse f (l ++ [x]) = Ok (r ++ [y]).
Proof.
  revert r. induction l as [|a l IH]; intros r H Hx; simpl in *.
  - injection H as <-. by rewrite Hx.
  - destruct (f a) as [b| |]; simpl in H; try done.
    destruct (traverse f l) as [r0| |]; simpl in H; try done.
    injection H as <-. by rewrite (IH r0 eq_refl Hx).
Qed.

(** X17. Under pandas 2, which checks the conversion of days to
    [timedelta64[ns]] (as in X3): the sidebar puts no upper bound on the
    duration of a new task, and after a task of more than 106751 days has
    been added to a table on which the derive step returned, every run of
    the page raises OutOfBoundsTimedelta before the cards and the data
    editor, until the reset button is clicked, which gives the seed table
    back. *)
Theorem overlong_task_blocks_page quote_cr seed w w' σ r df r0 σ0 t r1 σ1 :
  σ !! r = Some df ->
  add_finish_column r σ = (Ok r0, σ0) ->
  w_add w = true -> last_day < w_duration w ->
  date_to_ns (w_start w) = Ok t ->
  page quote_cr seed w r σ = (Ok (r1, Rerun), σ1) ->
  w_add w' = false ->
  (w_reset w' = false ->
   fst (page quote_cr seed w' r1 σ1) = Raise OutOfBoundsTimedelta) /\
  (w_reset w' = true ->
   page quote_cr seed w' r1 σ1 = (Ok (length σ1, Rerun), σ1 ++ [seed])).
Proof.
  intros Hr Hd Ha Hlong Ht Hp Ha'. split.
  2:{ intros Hc. unfold page. by rewrite Ha', Hc. }
  intros Hc.
  unfold page in Hp. rewrite Ha, bind_eq in Hp.
  destruct (add_task r (w_task w) (w_start w) (w_duration w) (w_resource w) σ)
    as [[r2| |] σ2] eqn:Hadd; try done.
  unfold ret in Hp. injection Hp as -> ->.
  destruct (add_task_ok _ _ _ _ _ _ _ _ _ Hr Hadd) as (c & Hc1 & C).
  apply add_finish_column_derives in Hd
    as (df0 & df' & start & duration & finish & Hr0 & _ & _ & _ & D).
  assert (df0 = df) as -> by congruence.
  (* the columns of the new table *)
  destruct (derives_source_duration _ _ _ _ _ D) as (d0 & G0 & A0).
  destruct (append_task_column _ _ _ _ _ _ _ _ C G0) as (sb & s' & Lb & A & Gc).
  vm_compute in Lb. injection Lb as <-.
  destruct d0 as [|ds| | |]; simpl in A; try done. injection A as <-.
  apply astype_int_int64 in A0. subst duration.
  destruct (derives_source_start _ _ _ _ _ D) as (s0 & Gs0 & T0).
  destruct (append_task_column _ _ _ _ _ _ _ _ C Gs0) as (sb & s' & Lb & A & Gcs).
  vm_compute in Lb. injection Lb as <-.
  destruct s0 as [ss| | | |]; simpl in A; try done. injection A as <-.
  simpl in T0.
  destruct (traverse obj_to_datetime ss) as [ts| |] eqn:E0; simpl in T0; try done.
  injection T0 as ->.
  pose proof (add_task_len _ _ _ _ _ _ C) as Lc.
  pose proof (derives_len_start _ _ _ _ _ D) as Ls.
  pose proof (derives_len_duration _ _ _ _ _ D) as Ld.
  destruct (traverse_lookup _ _ _ E0) as (Lts & _).
  rewrite (page_outcome quote_cr seed w' σ1 r1 c Ha' Hc Hc1).
  rewrite (finish_frame_out_of_range c (SObject (ss ++ [PDate (w_start w)]))
             (SDatetime (start ++ [t])) (ds ++ [w_duration w]) (w_duration w)).
  - done.
  - done.
  - simpl. rewrite length_app. simpl. lia.
  - simpl. by rewrite (traverse_snoc obj_to_datetime ss (PDate (w_start w)) start t E0 Ht).
  - done.
  - rewrite length_app. simpl. lia.
  - apply elem_of_app. right. apply list_elem_of_here.
  - unfold last_day, int64_min in *. lia.
  - by right.
Qed.

Lemma overlong_task_blocks_page_witness :
  let w := {| w_task := "Test"; w_duration := 200000; w_resource := "C";
              w_start := Date 2024 2 1; w_add := true; w_reset := false |} in
  let out := page false scenario w O [scenario] in
  (w_reset untouched = false ->
   fst (page false scenario untouched 2%nat (snd out)) = Raise OutOfBoundsTimedelta) /\
  (w_reset untouched = true ->
   page false scenario untouched 2%nat (snd out)
   = (Ok (length (snd out), Rerun), snd out ++ [scenario])).
Proof.
  intros w out.
  apply (overlong_task_blocks_page false scenario w untouched [scenario] O scenario
           1%nat (snd (add_finish_column O [scenario])) 1706745600000000000
           2%nat (snd out)).
  - reflexivity.
  - vm_compute. reflexivity.
  - reflexivity.
  - vm_compute. reflexivity.
  - vm_compute. reflexivity.
  - vm_compute. reflexivity.
  - reflexivity.
Defined.

(** ** Reading only *)

Lemma calculate_stats_store r σ : snd (calculate_stats r σ) = σ.
Proof.
  destruct (σ !! r) as [df|] eqn:Hr.
  - by rewrite (calculate_stats_run _ _ _ Hr).
  - unfold calculate_stats. rewrite bind_eq. unfold load. by rewrite Hr.
Qed.

Lemma take_take_store (σ σ1 σ2 : store) :
  take (length σ) σ1 = σ -> take (length σ1) σ2 = σ1 -> take (length σ) σ2 = σ.
Proof.
  intros H1 H2. rewrite <- H2 in H1. rewrite take_take in H1.
  assert (length σ <= length σ1)%nat.
  { rewrite <- H1 at 1. rewrite length_take. lia. }
  by rewrite Nat.min_l in H1.
Qed.

(** X18. [calculate_stats] only reads: whatever its outcome, the store is
    after the call what it was before. A run of the page, button clicked
    or not, leaves every table that was in the store as it was. *)
Theorem stats_and_page_leave_tables_unchanged quote_cr seed w r σ :
  snd (calculate_stats r σ) = σ /\
  take (length σ) (snd (stats_pass r σ)) = σ /\
  take (length σ) (snd (page quote_cr seed w r σ)) = σ.
Proof.
  split; [apply calculate_stats_store|].
  assert (S : forall r σ, take (length σ) (snd (stats_pass r σ)) = σ).
  { clear. intros r σ. unfold stats_pass. rewrite bind_eq.
    pose proof (add_finish_column_store r σ) as F.
    destruct (add_finish_column r σ) as [[r'| |] σ1]; try done.
    by rewrite calculate_stats_store. }
  split; [apply S|].
  unfold page. destruct (w_add w).
  { rewrite bind_eq.
    pose proof (add_task_store r (w_task w) (w_start w) (w_duration w)
                  (w_resource w) σ) as F.
    by destruct (add_task _ _ _ _ _ σ) as [[r'| |] σ1]. }
  destruct (w_reset w).
  { rewrite bind_eq. unfold alloc, ret. simpl. apply take_app_length. }
  rewrite bind_eq.
  pose proof (add_finish_column_store r σ) as F.
  destruct (add_finish_column r σ) as [[r1| |] σ1]; try done. simpl in F.
  rewrite bind_eq.
  pose proof (convert_df_to_csv_store quote_cr r1 σ1) as F1.
  destruct (convert_df_to_csv quote_cr r1 σ1) as [[csv| |] σ2]; simpl in F1; subst σ2;
    try done.
  rewrite bind_eq.
  pose proof (convert_df_to_excel_store r1 σ1) as F2.
  destruct (convert_df_to_excel r1 σ1) as [[wb| |] σ2]; simpl in F2; subst σ2;
    try done.
  rewrite bind_eq.
  pose proof (add_finish_column_store r σ1) as F3.
  destruct (add_finish_column r σ1) as [[r2| |] σ2]; simpl in F3;
    try (simpl; by eapply take_take_store).
  rewrite bind_eq.
  pose proof (calculate_stats_store r2 σ2) as F4.
  destruct (calculate_stats r2 σ2) as [[st| |] σ3]; simpl in F4; subst σ3;
    try (simpl; by eapply take_take_store).
  rewrite bind_eq. unfold lift, ret.
  destruct (stat_cards st); simpl; by eapply take_take_store.
Qed.

(** ** Start dates as text and as dates *)

(** X19. The derive step treats a start date given as ISO text and one
    given as a date object alike: the derived Start of the row is the
    midnight of that date, as nanoseconds since 1970-01-01. *)
Theorem derive_start_is_midnight σ r r' σ' df ss i x d :
  add_finish_column r σ = (Ok r', σ') ->
  σ !! r = Some df ->
  getitem df "Start" = Ok (SObject ss) ->
  ss !! i = Some x -> obj_date x = Some d ->
  exists df' start,
    σ' !! r' = Some df' /\
    getitem df' "Start" = Ok (SDatetime start) /\
    start !! i = Some (epoch_days d * NS_PER_DAY) /\
    date_of_epoch_days (day_of (epoch_days d * NS_PER_DAY)) = d.
Proof.
  intros H Hr G Hi Hd.
  apply add_finish_column_derives in H
    as (df0 & df' & start & duration & finish & Hr0 & Hr' & _ & _ & D).
  assert (df0 = df) as -> by congruence.
  exists df', start.
  destruct (derives_source_start _ _ _ _ _ D) as (s0 & G0 & T).
  rewrite G in G0. injection G0 as <-. simpl in T.
  destruct (traverse obj_to_datetime ss) as [ts| |] eqn:E; simpl in T; try done.
  injection T as ->.
  destruct (traverse_lookup _ _ _ E) as (_ & Hts).
  destruct (Hts i x Hi) as (t & Ht & Et).
  assert (Hn : date_to_ns d = Ok t).
  { destruct x as [s|d0|]; simpl in Hd, Et; try done.
    - by rewrite Hd in Et.
    - destruct (valid_date d0); [|done]. by injection Hd as <-. }
  apply date_to_ns_inv in Hn as (_ & -> & _ & _ & Hday).
  split_and!; try done. apply D.
Qed.

Lemma derive_start_is_midnight_witness :
  let out := add_finish_column O [seed_order] in
  exists df' start,
    snd out !! 1%nat = Some df' /\
    getitem df' "Start" = Ok (SDatetime start) /\
    start !! 1%nat = Some (epoch_days (Date 2024 1 6) * NS_PER_DAY) /\
    date_of_epoch_days (day_of (epoch_days (Date 2024 1 6) * NS_PER_DAY))
    = Date 2024 1 6.
Proof.
  intros out.
  apply (derive_start_is_midnight [seed_order] O 1%nat (snd out) seed_order
           [PStr "2024-01-01"; PStr "2024-01-06"] 1%nat (PStr "2024-01-06")).
  - vm_compute. reflexivity.
  - reflexivity.
  - reflexivity.
  - reflexivity.
  - vm_compute. reflexivity.
Defined.

